(** * Bring-Up server: task lifecycle engine and notification dispatch

    A shallow embedding of [TaskService] (libs/tasks), [AlertService]
    (libs/alert) and of the constants and document types they use
    (libs/shared), together with the properties of the specification that
    are settled against them.

    Conventions of the embedding.
    - A Firestore [Timestamp] is its millisecond value ([toMillis]), an
      integer; every instant this code builds comes from [fromMillis] or
      from [Timestamp.now()].
    - A collection addressed by document id is a [gmap string _]; the
      [users] collection, which one query scans with [limit(1)], is an
      association list in the order the store returns documents.
    - The service methods are computations in a state-and-exception monad
      over [World]: a [throw] keeps the writes made before it, as an
      exception raised after an awaited write does.
    - What the process cannot decide (the wall clock, the ids the store
      generates, the answers of the Expo push service, the runtime's string
      functions) is read from a [Host].
    - Logging has no effect on the documents and is left out. *)

From Stdlib Require Import ZArith QArith Qround Lia Ascii String.
From Stdlib Require OrderedTypeEx.
From stdpp Require Import base option gmap strings list fin_maps sorting pretty.

Local Open Scope Z_scope.

(* ================================================================== *)
(** ** Enumerations (libs/shared/src/types) *)

Module TaskStatus.
Inductive t := PENDING | COMPLETED | CANCELLED | EXPIRED.
#[global] Instance eq_dec : EqDecision t.
Proof. solve_decision. Defined.
End TaskStatus.

Module TaskReaction.
Inductive t := ON_IT | RUNNING_LATE | NEED_HELP.
#[global] Instance eq_dec : EqDecision t.
Proof. solve_decision. Defined.

(** The string value of the enum member. *)
Definition value (r : t) : string :=
  match r with
  | ON_IT => "on_it"
  | RUNNING_LATE => "running_late"
  | NEED_HELP => "need_help"
  end.
End TaskReaction.

Module NotificationType.
Inductive t :=
| TASK_ASSIGNED | TASK_REACTION | TASK_COMPLETED | TASK_REMINDER
| TASK_UPDATED | TASK_DELETED | SYSTEM_ALERT.
#[global] Instance eq_dec : EqDecision t.
Proof. solve_decision. Defined.

Definition value (x : t) : string :=
  match x with
  | TASK_ASSIGNED => "task_assigned"
  | TASK_REACTION => "task_reaction"
  | TASK_COMPLETED => "task_completed"
  | TASK_REMINDER => "task_reminder"
  | TASK_UPDATED => "task_updated"
  | TASK_DELETED => "task_deleted"
  | SYSTEM_ALERT => "system_alert"
  end.
End NotificationType.

Module NotificationStatus.
Inductive t := PENDING | SENT | DELIVERED | READ | FAILED.
#[global] Instance eq_dec : EqDecision t.
Proof. solve_decision. Defined.
End NotificationStatus.

(* ================================================================== *)
(** ** Constants (libs/shared, task and alert constants) *)

Module TASK_TIME_MS.
Definition MINUTE : Z := 60 * 1000.
Definition HOUR : Z := 60 * 60 * 1000.
Definition DAY : Z := 24 * 60 * 60 * 1000.
Definition DEFAULT_TTL_AFTER_EXPIRY : Z := 7 * 24 * 60 * 60 * 1000.
Definition RUNNING_LATE_EXTENSION : Z := 30 * 60 * 1000.
End TASK_TIME_MS.

Module TASK_TIME_MINUTES.
Definition MIN_DURATION : Z := 5.
Definition MAX_DURATION : Z := 1440.
Definition DEFAULT_DURATION : Z := 30.
Definition RUNNING_LATE_EXTENSION : Z := 30.
Definition MAX_EXTENSIONS : Z := 3.
End TASK_TIME_MINUTES.

Module TASK_ERROR_MESSAGES.
Definition TASK_NOT_FOUND : string := "Task not found".
Definition CREATOR_NOT_FOUND : string := "Creator user not found".
Definition ASSIGNEE_NOT_FOUND (email : string) : string :=
  "User with email " +:+ email +:+ " not found".
Definition SELF_ASSIGNMENT : string := "Cannot assign task to yourself".
Definition ACCESS_DENIED : string := "You do not have access to this task".
Definition CANNOT_UPDATE_EXPIRED : string := "Cannot update an expired task".
Definition ALREADY_COMPLETED : string := "Task is already completed".
Definition ALREADY_CANCELLED : string := "Task is already cancelled".
Definition CANNOT_REACT : string := "Cannot react to non-pending tasks".
Definition MAX_EXTENSIONS : string := "Maximum number of extensions reached".
Definition ONLY_ASSIGNEE_CAN_REACT : string := "Only assignee can set reaction".
Definition ONLY_CREATOR_CAN_CANCEL : string :=
  "Only task creator can cancel the task".
Definition ONLY_ASSIGNEE_CAN_COMPLETE : string :=
  "Only assignee can mark task as completed".
End TASK_ERROR_MESSAGES.

Module TASK_SUCCESS_MESSAGES.
Definition STATUS_UPDATED : string := "Task status updated successfully".
End TASK_SUCCESS_MESSAGES.

Module ALERT_PUSH_CONFIG.
Definition CHANNEL_ID : string := "task_notifications".
End ALERT_PUSH_CONFIG.

(* ================================================================== *)
(** ** Documents *)

Record TaskUser := { uid : string; email : string; name : string }.

Record TaskUrgency := { expiresAt : Z; durationMinutes : Z }.

(** [error] is optional in the source; [None] stands for both an absent
    field and [null]. *)
Record TaskNotification :=
  { sent : bool; sentAt : option Z; error : option string }.

(** [extensionCount] is read with [?? 0] in the source, so a stored
    document may lack it: [None]. *)
Record TaskDocument := {
  title : string;
  note : option string;
  createdBy : TaskUser;
  assignedTo : TaskUser;
  status : TaskStatus.t;
  assigneeReaction : option TaskReaction.t;
  urgency : TaskUrgency;
  notification : TaskNotification;
  createdAt : Z;
  updatedAt : Z;
  ttl : Z;
  extensionCount : option Z
}.

(** [Task extends TaskDocument] with the document id. *)
Record Task := { id : string; doc : TaskDocument }.

(** The fields of the stored user document that the two services read. *)
Record FirebaseUser := {
  user_email : option string;
  user_name : option string;
  fcmToken : option string
}.

Record INotificationData := { data_taskId : string; data_type : string }.

Record INotificationDocument := {
  n_type : NotificationType.t;
  recipientUid : string;
  senderUid : string;
  n_taskId : string;
  n_title : string;
  n_body : string;
  n_data : INotificationData;
  n_status : NotificationStatus.t;
  isRead : bool;
  n_createdAt : Z;
  n_sentAt : option Z;
  readAt : option Z;
  fcmMessageId : option string;
  n_error : option string
}.

(** [ExpoPushMessage] as [sendExpoNotification] fills it. *)
Record ExpoPushMessage := {
  to : string;
  sound : string;
  m_title : string;
  m_body : string;
  m_notificationId : string;
  m_taskId : string;
  m_type : string;
  priority : string;
  channelId : string
}.

(** A push ticket of the Expo SDK: [{status: 'ok', id}] or
    [{status: 'error', message}]. *)
Inductive ExpoPushTicket :=
| TicketOk (ticket_id : string)
| TicketError (message : string).

(** What one call of [sendPushNotificationsAsync] does: it resolves to
    tickets or rejects with an error message. *)
Inductive ExpoReply :=
| Tickets (ts : list ExpoPushTicket)
| Rejected (message : string).

(* ================================================================== *)
(** ** Field updates ([DocumentReference.update] with field paths) *)

Inductive TaskFieldUpdate :=
| Set_status (s : TaskStatus.t)
| Set_updatedAt (t : Z)
| Set_assigneeReaction (r : TaskReaction.t)
| Set_urgency_expiresAt (t : Z)
| Set_extensionCount (n : Z)
| Set_ttl (t : Z)
| Set_notification_sent (b : bool)
| Set_notification_sentAt (t : Z)
| Set_notification_error (e : string).

Definition apply_task_field (u : TaskFieldUpdate) (d : TaskDocument) : TaskDocument :=
  let mk st re ur no up tt ex :=
    {| title := title d; note := note d; createdBy := createdBy d;
       assignedTo := assignedTo d; status := st; assigneeReaction := re;
       urgency := ur; notification := no; createdAt := createdAt d;
       updatedAt := up; ttl := tt; extensionCount := ex |} in
  match u with
  | Set_status s =>
      mk s (assigneeReaction d) (urgency d) (notification d) (updatedAt d) (ttl d) (extensionCount d)
  | Set_updatedAt t =>
      mk (status d) (assigneeReaction d) (urgency d) (notification d) t (ttl d) (extensionCount d)
  | Set_assigneeReaction r =>
      mk (status d) (Some r) (urgency d) (notification d) (updatedAt d) (ttl d) (extensionCount d)
  | Set_urgency_expiresAt t =>
      mk (status d) (assigneeReaction d)
        {| expiresAt := t; durationMinutes := durationMinutes (urgency d) |}
        (notification d) (updatedAt d) (ttl d) (extensionCount d)
  | Set_extensionCount n =>
      mk (status d) (assigneeReaction d) (urgency d) (notification d) (updatedAt d) (ttl d) (Some n)
  | Set_ttl t =>
      mk (status d) (assigneeReaction d) (urgency d) (notification d) (updatedAt d) t (extensionCount d)
  | Set_notification_sent b =>
      mk (status d) (assigneeReaction d) (urgency d)
        {| sent := b; sentAt := sentAt (notification d); error := error (notification d) |}
        (updatedAt d) (ttl d) (extensionCount d)
  | Set_notification_sentAt t =>
      mk (status d) (assigneeReaction d) (urgency d)
        {| sent := sent (notification d); sentAt := Some t; error := error (notification d) |}
        (updatedAt d) (ttl d) (extensionCount d)
  | Set_notification_error e =>
      mk (status d) (assigneeReaction d) (urgency d)
        {| sent := sent (notification d); sentAt := sentAt (notification d); error := Some e |}
        (updatedAt d) (ttl d) (extensionCount d)
  end.

(** The fields of an update object are applied in the order they are listed. *)
Definition apply_task_update (us : list TaskFieldUpdate) (d : TaskDocument) : TaskDocument :=
  fold_left (fun acc u => apply_task_field u acc) us d.

Inductive NotificationFieldUpdate :=
| Set_n_status (s : NotificationStatus.t)
| Set_n_error (e : string)
| Set_n_sentAt (t : Z)
| Set_n_fcmMessageId (m : string).

Definition apply_notification_field (u : NotificationFieldUpdate)
    (n : INotificationDocument) : INotificationDocument :=
  let mk st se fm er :=
    {| n_type := n_type n; recipientUid := recipientUid n; senderUid := senderUid n;
       n_taskId := n_taskId n; n_title := n_title n; n_body := n_body n;
       n_data := n_data n; n_status := st; isRead := isRead n;
       n_createdAt := n_createdAt n; n_sentAt := se; readAt := readAt n;
       fcmMessageId := fm; n_error := er |} in
  match u with
  | Set_n_status s => mk s (n_sentAt n) (fcmMessageId n) (n_error n)
  | Set_n_error e => mk (n_status n) (n_sentAt n) (fcmMessageId n) (Some e)
  | Set_n_sentAt t => mk (n_status n) (Some t) (fcmMessageId n) (n_error n)
  | Set_n_fcmMessageId m => mk (n_status n) (n_sentAt n) (Some m) (n_error n)
  end.

Definition apply_notification_update (us : list NotificationFieldUpdate)
    (n : INotificationDocument) : INotificationDocument :=
  fold_left (fun acc u => apply_notification_field u acc) us n.

(* ================================================================== *)
(** ** The world the services run in *)

(** Writes issued to the document store and chunks handed to the push
    service, oldest first. *)
Inductive Effect :=
| TaskAdded (ref : string) (d : TaskDocument)
| TaskUpdated (ref : string) (us : list TaskFieldUpdate)
| NotificationAdded (ref : string) (n : INotificationDocument)
| NotificationUpdated (ref : string) (us : list NotificationFieldUpdate)
| PushSubmitted (chunk : list ExpoPushMessage).

Record World := {
  tasks : gmap string TaskDocument;
  users : list (string * FirebaseUser);
  notifications : gmap string INotificationDocument;
  journal : list Effect;
  clock_reads : nat;
  ids_drawn : nat;
  push_calls : nat
}.

(** The environment of the process. [clock k] is the k-th reading of the
    wall clock, [autoId k] the k-th id the store generates for [add],
    [expo k chunk] the answer of the push service to the k-th call.
    [isExpoPushToken] is the SDK's format check; [toLowerCase] and [trim]
    are the runtime's string methods. *)
Record Host := {
  clock : nat -> Z;
  autoId : nat -> string;
  expo : nat -> list ExpoPushMessage -> ExpoReply;
  isExpoPushToken : string -> bool;
  toLowerCase : string -> string;
  trim : string -> string
}.

Inductive Exception :=
| NotFoundException (msg : string)
| ForbiddenException (msg : string)
| BadRequestException (msg : string)
| Error (msg : string).

(** [(error as Error).message] *)
Definition error_message (e : Exception) : string :=
  match e with
  | NotFoundException m | ForbiddenException m | BadRequestException m | Error m => m
  end.

Inductive Outcome (A : Type) :=
| Returned (a : A)
| Thrown (e : Exception).
Arguments Returned {A} a.
Arguments Thrown {A} e.

Definition M (A : Type) : Type := World -> Outcome A * World.

Definition ret {A} (a : A) : M A := fun w => (Returned a, w).

Definition throw {A} (e : Exception) : M A := fun w => (Thrown e, w).

Definition bind {A B} (m : M A) (k : A -> M B) : M B :=
  fun w =>
    match m w with
    | (Returned a, w') => k a w'
    | (Thrown e, w') => (Thrown e, w')
    end.

(** [try { body } catch (error) { handler }] *)
Definition try_catch {A} (body : M A) (handler : Exception -> M A) : M A :=
  fun w =>
    match body w with
    | (Returned a, w') => (Returned a, w')
    | (Thrown e, w') => handler e w'
    end.

(** The [try] part of a [try]/[catch]: the exception, or the value. *)
Definition attempt {A} (body : M A) : M (Exception + A) :=
  fun w =>
    match body w with
    | (Returned a, w') => (Returned (inr a), w')
    | (Thrown e, w') => (Returned (inl e), w')
    end.

Notation "'let*' x ':=' m 'in' k" := (bind m (fun x => k))
  (at level 10, x name, m at level 100, k at level 200).
Notation "m ';;' k" := (bind m (fun _ => k))
  (at level 100, k at level 200, right associativity).

(** JavaScript truthiness of a string and of a nullable string. *)
Definition truthy (s : string) : bool := negb (String.eqb s "").

Definition truthy_opt (o : option string) : bool :=
  match o with
  | Some s => truthy s
  | None => false
  end.

(** [s || fallback] on strings *)
Definition or_else (s fallback : string) : string :=
  if truthy s then s else fallback.

Definition with_tasks (t : gmap string TaskDocument) (e : Effect) (w : World) : World :=
  {| tasks := t; users := users w; notifications := notifications w;
     journal := journal w ++ [e]; clock_reads := clock_reads w;
     ids_drawn := ids_drawn w; push_calls := push_calls w |}.

Definition with_notifications (n : gmap string INotificationDocument) (e : Effect)
    (w : World) : World :=
  {| tasks := tasks w; users := users w; notifications := n;
     journal := journal w ++ [e]; clock_reads := clock_reads w;
     ids_drawn := ids_drawn w; push_calls := push_calls w |}.

(** *** Response and request shapes of the task service *)

Record TaskUrgencyResponse := {
  r_expiresAt : Z;
  r_durationMinutes : Z;
  remainingMinutes : Z;
  r_isExpired : bool
}.

(** Instants of a response are ISO-8601 renderings of the stored
    instants; the embedding keeps the instant itself. *)
Record TaskResponse := {
  r_id : string;
  r_title : string;
  r_note : option string;
  r_createdBy : TaskUser;
  r_assignedTo : TaskUser;
  r_status : TaskStatus.t;
  r_assigneeReaction : option TaskReaction.t;
  r_urgency : TaskUrgencyResponse;
  r_notification : TaskNotification;
  r_createdAt : Z;
  r_updatedAt : Z;
  r_extensionCount : Z
}.

Record PaginationMeta := {
  currentPage : Z;
  itemsPerPage : Z;
  totalItems : Z;
  totalPages : Z;
  hasNextPage : bool;
  hasPreviousPage : bool
}.

Record CreateTaskDto := {
  dto_title : string;
  dto_note : option string;
  dto_durationMinutes : Z;
  assignToEmail : string
}.

Record TaskApiResponse := { task : TaskResponse; api_message : string }.

(** [Math.ceil(a / b)] on integers: the quotient is taken in the rationals
    and rounded up.  (For the counts and page sizes of this service the
    floating-point quotient rounds up to the same integer.) *)
Definition math_ceil_div (a b : Z) : Z :=
  Qceiling (inject_Z a / inject_Z b).

(** [buildPaginationMeta(totalItems, page, limit)] *)
Definition buildPaginationMeta (totalItems page limit : Z) : PaginationMeta :=
  let totalPages := math_ceil_div totalItems limit in
  {| currentPage := page;
     itemsPerPage := limit;
     totalItems := totalItems;
     totalPages := totalPages;
     hasNextPage := bool_decide (page < totalPages);
     hasPreviousPage := bool_decide (page > 1) |}.

(** The document stored under id [u] in the users collection. *)
Definition user_doc (us : list (string * FirebaseUser)) (u : string)
    : option FirebaseUser :=
  snd <$> List.find (fun p => String.eqb (fst p) u) us.

(** The first document of the users collection whose email is [e]. *)
Definition user_by_email (us : list (string * FirebaseUser)) (e : string)
    : option (string * FirebaseUser) :=
  List.find (fun p => bool_decide (user_email (snd p) = Some e)) us.

Section Services.

Variable host : Host.

(** *** Clock and document store *)

(** [Timestamp.now()] and [Date.now()] *)
Definition now : M Z := fun w =>
  (Returned (clock host (clock_reads w)),
   {| tasks := tasks w; users := users w; notifications := notifications w;
      journal := journal w; clock_reads := S (clock_reads w);
      ids_drawn := ids_drawn w; push_calls := push_calls w |}).

Definition draw_id : M string := fun w =>
  (Returned (autoId host (ids_drawn w)),
   {| tasks := tasks w; users := users w; notifications := notifications w;
      journal := journal w; clock_reads := clock_reads w;
      ids_drawn := S (ids_drawn w); push_calls := push_calls w |}).

(** [collection(TASKS).doc(id).get()] *)
Definition tasks_get (ref : string) : M (option TaskDocument) :=
  fun w => (Returned (tasks w !! ref), w).

(** [collection(TASKS).add(data)] *)
Definition tasks_add (d : TaskDocument) : M string :=
  let* ref := draw_id in
  fun w => (Returned ref, with_tasks (<[ref := d]> (tasks w)) (TaskAdded ref d) w).

(** [taskRef.update(fields)]; the store rejects an update of a document
    that does not exist. *)
Definition tasks_update (ref : string) (us : list TaskFieldUpdate) : M unit :=
  fun w =>
    match tasks w !! ref with
    | Some d =>
        (Returned tt,
         with_tasks (<[ref := apply_task_update us d]> (tasks w)) (TaskUpdated ref us) w)
    | None => (Thrown (Error "No document to update"), w)
    end.

(** [collection(USERS).doc(uid).get()] *)
Definition users_get (u : string) : M (option FirebaseUser) :=
  fun w => (Returned (user_doc (users w) u), w).

(** [collection(USERS).where('email', '==', e).limit(1).get()] *)
Definition users_where_email (e : string) : M (option (string * FirebaseUser)) :=
  fun w => (Returned (user_by_email (users w) e), w).

Definition notifications_add (n : INotificationDocument) : M string :=
  let* ref := draw_id in
  fun w =>
    (Returned ref,
     with_notifications (<[ref := n]> (notifications w)) (NotificationAdded ref n) w).

Definition notifications_update (ref : string) (us : list NotificationFieldUpdate) : M unit :=
  fun w =>
    match notifications w !! ref with
    | Some n =>
        (Returned tt,
         with_notifications (<[ref := apply_notification_update us n]> (notifications w))
           (NotificationUpdated ref us) w)
    | None => (Thrown (Error "No document to update"), w)
    end.

(** [expo.sendPushNotificationsAsync(chunk)] *)
Definition sendPushNotificationsAsync (chunk : list ExpoPushMessage)
    : M (list ExpoPushTicket) :=
  fun w =>
    let w' :=
      {| tasks := tasks w; users := users w; notifications := notifications w;
         journal := journal w ++ [PushSubmitted chunk]; clock_reads := clock_reads w;
         ids_drawn := ids_drawn w; push_calls := S (push_calls w) |} in
    match expo host (push_calls w) chunk with
    | Tickets ts => (Returned ts, w')
    | Rejected m => (Thrown (Error m), w')
    end.

(** [if (c) { body }] for a body that only throws or writes *)
Definition when (c : bool) (body : M unit) : M unit :=
  if c then body else ret tt.

(* ================================================================ *)
(** *** AlertService (libs/alert) *)

Record ISendPushNotificationParams := {
  p_taskId : string;
  p_recipientUid : string;
  p_senderUid : string;
  p_type : NotificationType.t;
  p_title : string;
  p_body : string;
  p_dataType : string
}.

(** The three equality filters of the idempotency lookup. *)
Definition same_event (taskId recipient : string) (type : NotificationType.t)
    (n : INotificationDocument) : Prop :=
  n_taskId n = taskId ∧ recipientUid n = recipient ∧ n_type n = type.

#[local] Instance same_event_dec taskId recipient type n :
  Decision (same_event taskId recipient type n).
Proof. unfold same_event. apply _. Defined.

(** The documents the idempotency query ranges over (before [limit(1)]). *)
Definition existing_notifications (taskId recipient : string)
    (type : NotificationType.t) (ns : gmap string INotificationDocument)
    : gmap string INotificationDocument :=
  filter (fun kv => same_event taskId recipient type kv.2) ns.

Definition checkExistingNotification (taskId recipient : string)
    (type : NotificationType.t) : M bool :=
  fun w =>
    let existing := existing_notifications taskId recipient type (notifications w) in
    (Returned (negb (bool_decide (existing = ∅))), w).

Definition createNotificationRecord (type : NotificationType.t)
    (recipient sender taskId title body dataType : string) : M string :=
  let* createdAt := now in
  let notificationData :=
    {| n_type := type; recipientUid := recipient; senderUid := sender;
       n_taskId := taskId; n_title := title; n_body := body;
       n_data := {| data_taskId := taskId; data_type := dataType |};
       n_status := NotificationStatus.PENDING; isRead := false;
       n_createdAt := createdAt; n_sentAt := None; readAt := None;
       fcmMessageId := None; n_error := None |} in
  notifications_add notificationData.

Definition getUser (u : string) : M (option FirebaseUser) := users_get u.

Definition updateNotificationStatus (ref : string) (status : NotificationStatus.t)
    (error : option string) : M unit :=
  let updateData :=
    Set_n_status status ::
    match error with
    | Some e => if truthy e then [Set_n_error e] else []
    | None => []
    end in
  notifications_update ref updateData.

(** [expo.chunkPushNotifications]: the SDK packs up to 100 recipients
    into one chunk; the only caller passes a single message with a single
    recipient. *)
Definition chunkPushNotifications (ms : list ExpoPushMessage)
    : list (list ExpoPushMessage) :=
  match ms with
  | [] => []
  | _ => [ms]
  end.

(** [for (const chunk of chunks) { tickets.push(...await send(chunk)) }] *)
Fixpoint send_chunks (chunks : list (list ExpoPushMessage))
    (tickets : list ExpoPushTicket) : M (list ExpoPushTicket) :=
  match chunks with
  | [] => ret tickets
  | chunk :: rest =>
      let* ticketChunk := sendPushNotificationsAsync chunk in
      send_chunks rest (tickets ++ ticketChunk)
  end.

Definition sendExpoNotification (notificationRef expoPushToken : string)
    (taskId title body dataType : string) : M unit :=
  let message :=
    {| to := expoPushToken; sound := "default"; m_title := title; m_body := body;
       m_notificationId := notificationRef; m_taskId := taskId; m_type := dataType;
       priority := "high"; channelId := ALERT_PUSH_CONFIG.CHANNEL_ID |} in
  let chunks := chunkPushNotifications [message] in
  let* tickets := send_chunks chunks [] in
  let ticket := head tickets in
  match ticket with
  | Some (TicketError message) =>
      let errorMsg := or_else message "Unknown Expo error" in
      updateNotificationStatus notificationRef NotificationStatus.FAILED (Some errorMsg) ;;
      throw (Error errorMsg)
  | _ =>
      let* sentAt := now in
      let ticketId := match ticket with Some (TicketOk i) => i | _ => "" end in
      notifications_update notificationRef
        [Set_n_status NotificationStatus.SENT; Set_n_sentAt sentAt;
         Set_n_fcmMessageId (or_else ticketId "unknown")]
  end.

Definition sendPushNotification (params : ISendPushNotificationParams) : M unit :=
  let taskId := p_taskId params in
  let recipient := p_recipientUid params in
  let type := p_type params in
  try_catch
    (let* existing :=
       if decide (type = NotificationType.TASK_ASSIGNED)
       then checkExistingNotification taskId recipient type
       else ret false in
     if existing then ret tt
     else
       let* notificationRef :=
         createNotificationRecord type recipient (p_senderUid params) taskId
           (p_title params) (p_body params) (p_dataType params) in
       let* user := getUser recipient in
       match user with
       | None =>
           updateNotificationStatus notificationRef NotificationStatus.FAILED
             (Some "User not found")
       | Some user =>
           let expoPushToken := fcmToken user in
           if negb (truthy_opt expoPushToken) then
             updateNotificationStatus notificationRef NotificationStatus.FAILED
               (Some "User has no FCM token - needs to login to enable notifications")
           else
             let token := default "" expoPushToken in
             if negb (isExpoPushToken host token) then
               updateNotificationStatus notificationRef NotificationStatus.FAILED
                 (Some "Invalid Expo Push Token format")
             else
               sendExpoNotification notificationRef token taskId
                 (p_title params) (p_body params) (p_dataType params)
       end)
    (fun error => throw error).

Definition sendTaskAssignmentNotification
    (taskId assigneeUid creatorUid creatorName taskTitle : string) : M unit :=
  sendPushNotification
    {| p_taskId := taskId; p_recipientUid := assigneeUid; p_senderUid := creatorUid;
       p_type := NotificationType.TASK_ASSIGNED;
       p_title := "New task from " +:+ creatorName;
       p_body := taskTitle;
       p_dataType := NotificationType.value NotificationType.TASK_ASSIGNED |}.

(** [reaction.replace(/_/g, ' ')] *)
Fixpoint replace_underscores (s : string) : string :=
  match s with
  | EmptyString => EmptyString
  | String c rest =>
      String (if Ascii.eqb c "_"%char then " "%char else c) (replace_underscores rest)
  end.

Definition double_quote : string := String (Ascii.ascii_of_nat 34) EmptyString.

Definition sendTaskReactionNotification
    (taskId creatorUid assigneeUid assigneeName taskTitle reaction : string) : M unit :=
  let reactionText := replace_underscores reaction in
  sendPushNotification
    {| p_taskId := taskId; p_recipientUid := creatorUid; p_senderUid := assigneeUid;
       p_type := NotificationType.TASK_REACTION;
       p_title := assigneeName +:+ " responded";
       p_body := double_quote +:+ reactionText +:+ double_quote +:+ " on: " +:+ taskTitle;
       p_dataType := NotificationType.value NotificationType.TASK_REACTION |}.

(* ================================================================ *)
(** *** TaskService and TaskController (libs/tasks) *)

(** [calculateRemainingMinutes(expiresAt)] *)
Definition calculateRemainingMinutes (expiresAt : Z) : M Z :=
  let* now_ms := now in
  let remainingMs := expiresAt - now_ms in
  ret (Z.max 0 (remainingMs / TASK_TIME_MS.MINUTE)).

(** [isExpired(expiresAt)]: [expiresAt.toMillis() <= Date.now()] *)
Definition isExpired (expiresAt : Z) : M bool :=
  let* now_ms := now in
  ret (bool_decide (expiresAt <= now_ms)).

Definition transformToResponse (t : Task) : M TaskResponse :=
  let d := doc t in
  let* remaining := calculateRemainingMinutes (expiresAt (urgency d)) in
  let* expired := isExpired (expiresAt (urgency d)) in
  let urgency :=
    {| r_expiresAt := expiresAt (urgency d);
       r_durationMinutes := durationMinutes (urgency d);
       remainingMinutes := remaining;
       r_isExpired := expired |} in
  let notification :=
    {| sent := sent (notification d);
       sentAt := sentAt (notification d);
       error := error (notification d) |} in
  ret {| r_id := id t;
         r_title := title d;
         r_note := note d;
         r_createdBy := createdBy d;
         r_assignedTo := assignedTo d;
         r_status := status d;
         r_assigneeReaction := assigneeReaction d;
         r_urgency := urgency;
         r_notification := notification;
         r_createdAt := createdAt d;
         r_updatedAt := updatedAt d;
         r_extensionCount := default 0 (extensionCount d) |}.

(** [getTaskUser(uid, errorMessage)] *)
Definition getTaskUser (u errorMessage : string) : M TaskUser :=
  let* userDoc := users_get u in
  match userDoc with
  | None => throw (NotFoundException errorMessage)
  | Some userData =>
      ret {| uid := u;
             email := default "" (user_email userData);
             name := default "Unknown" (user_name userData) |}
  end.

(** [findUserByEmail(email)]; the result carries [docId] and the user. *)
Definition findUserByEmail (e : string) : M (string * TaskUser) :=
  let* snapshot := users_where_email (toLowerCase host e) in
  match snapshot with
  | None => throw (NotFoundException (TASK_ERROR_MESSAGES.ASSIGNEE_NOT_FOUND e))
  | Some (docId, data) =>
      ret (docId,
           {| uid := docId;
              email := default "" (user_email data);
              name := default "Unknown" (user_name data) |})
  end.

(** [getAuthorizedTask(taskId, userUid)] *)
Definition getAuthorizedTask (taskId userUid : string) : M Task :=
  let* taskDoc := tasks_get taskId in
  match taskDoc with
  | None => throw (NotFoundException TASK_ERROR_MESSAGES.TASK_NOT_FOUND)
  | Some taskData =>
      if bool_decide (uid (createdBy taskData) ≠ userUid)
         && bool_decide (uid (assignedTo taskData) ≠ userUid)
      then throw (ForbiddenException TASK_ERROR_MESSAGES.ACCESS_DENIED)
      else ret {| id := taskId; doc := taskData |}
  end.

(** The document [createTask] hands to [add]. *)
Definition new_task_data (dto : CreateTaskDto) (creator assignee : TaskUser)
    (now_ms : Z) : TaskDocument :=
  let expiresAt := now_ms + dto_durationMinutes dto * TASK_TIME_MS.MINUTE in
  {| title := trim host (dto_title dto);
     note := trim host <$> dto_note dto;
     createdBy := creator;
     assignedTo := assignee;
     status := TaskStatus.PENDING;
     assigneeReaction := None;
     urgency := {| expiresAt := expiresAt; durationMinutes := dto_durationMinutes dto |};
     notification := {| sent := false; sentAt := None; error := None |};
     createdAt := now_ms;
     updatedAt := now_ms;
     ttl := expiresAt + TASK_TIME_MS.DEFAULT_TTL_AFTER_EXPIRY;
     extensionCount := Some 0 |}.

Definition with_notification (d : TaskDocument) (n : TaskNotification) : TaskDocument :=
  {| title := title d; note := note d; createdBy := createdBy d;
     assignedTo := assignedTo d; status := status d;
     assigneeReaction := assigneeReaction d; urgency := urgency d;
     notification := n; createdAt := createdAt d; updatedAt := updatedAt d;
     ttl := ttl d; extensionCount := extensionCount d |}.

(** [createTask(createTaskDto, creatorUid)].  The [try] block is run in
    its two steps (the dispatch, then the [notification.sent] write), so
    that the one [catch] block, [on_error], sees the value
    [notificationSentAt] had when the exception was raised. *)
Definition createTask (dto : CreateTaskDto) (creatorUid : string) : M TaskResponse :=
  let* creator := getTaskUser creatorUid TASK_ERROR_MESSAGES.CREATOR_NOT_FOUND in
  let* assigneeResult := findUserByEmail (assignToEmail dto) in
  let '(docId, assignee) := assigneeResult in
  if bool_decide (docId = creatorUid)
  then throw (BadRequestException TASK_ERROR_MESSAGES.SELF_ASSIGNMENT)
  else
    let* now_ms := now in
    let taskData := new_task_data dto creator assignee now_ms in
    let* taskRef := tasks_add taskData in
    let on_error (notificationSentAt : option Z) (error : Exception) :=
      let notificationError := error_message error in
      tasks_update taskRef
        [Set_notification_sent false; Set_notification_error notificationError] ;;
      ret {| sent := false; sentAt := notificationSentAt;
             error := Some notificationError |} in
    let* sending :=
      attempt
        (sendTaskAssignmentNotification taskRef (uid assignee) (uid creator)
           (name creator) (dto_title dto)) in
    let* outcome :=
      match sending with
      | inl error => on_error None error
      | inr _ =>
          let* notificationSentAt := now in
          let* marking :=
            attempt
              (tasks_update taskRef
                 [Set_notification_sent true;
                  Set_notification_sentAt notificationSentAt]) in
          match marking with
          | inl error => on_error (Some notificationSentAt) error
          | inr _ =>
              ret {| sent := true; sentAt := Some notificationSentAt; error := None |}
          end
      end in
    transformToResponse {| id := taskRef; doc := with_notification taskData outcome |}.

Definition with_status (d : TaskDocument) (s : TaskStatus.t) (t : Z) : TaskDocument :=
  {| title := title d; note := note d; createdBy := createdBy d;
     assignedTo := assignedTo d; status := s;
     assigneeReaction := assigneeReaction d; urgency := urgency d;
     notification := notification d; createdAt := createdAt d; updatedAt := t;
     ttl := ttl d; extensionCount := extensionCount d |}.

(** [getTaskById(taskId, userUid)] *)
Definition getTaskById (taskId userUid : string) : M TaskResponse :=
  let* t := getAuthorizedTask taskId userUid in
  let* expired :=
    if bool_decide (status (doc t) = TaskStatus.PENDING)
    then isExpired (expiresAt (urgency (doc t)))
    else ret false in
  let* t :=
    if expired then
      let* now_ms := now in
      tasks_update taskId [Set_status TaskStatus.EXPIRED; Set_updatedAt now_ms] ;;
      ret {| id := id t; doc := with_status (doc t) TaskStatus.EXPIRED now_ms |}
    else ret t in
  transformToResponse t.

(** [updateTaskStatus(taskId, status, userUid?)]; an absent or empty
    [userUid] is falsy. *)
Definition updateTaskStatus (taskId : string) (new_status : TaskStatus.t)
    (userUid : option string) : M TaskResponse :=
  let* taskDoc := tasks_get taskId in
  match taskDoc with
  | None => throw (NotFoundException TASK_ERROR_MESSAGES.TASK_NOT_FOUND)
  | Some taskData =>
      when (truthy_opt userUid)
        (when (bool_decide (new_status = TaskStatus.CANCELLED)
               && bool_decide (Some (uid (createdBy taskData)) ≠ userUid))
           (throw (ForbiddenException TASK_ERROR_MESSAGES.ONLY_CREATOR_CAN_CANCEL)) ;;
         when (bool_decide (new_status = TaskStatus.COMPLETED)
               && bool_decide (Some (uid (assignedTo taskData)) ≠ userUid))
           (throw (ForbiddenException TASK_ERROR_MESSAGES.ONLY_ASSIGNEE_CAN_COMPLETE))) ;;
      when (bool_decide (status taskData = TaskStatus.EXPIRED))
        (throw (BadRequestException TASK_ERROR_MESSAGES.CANNOT_UPDATE_EXPIRED)) ;;
      when (bool_decide (status taskData = TaskStatus.COMPLETED))
        (throw (BadRequestException TASK_ERROR_MESSAGES.ALREADY_COMPLETED)) ;;
      when (bool_decide (status taskData = TaskStatus.CANCELLED))
        (throw (BadRequestException TASK_ERROR_MESSAGES.ALREADY_CANCELLED)) ;;
      let* now_ms := now in
      tasks_update taskId [Set_status new_status; Set_updatedAt now_ms] ;;
      transformToResponse {| id := taskId; doc := with_status taskData new_status now_ms |}
  end.

(** The task object [updateTaskReaction] returns. *)
Definition with_reaction (d : TaskDocument) (r : TaskReaction.t) (t newExpiresAt : Z)
    (count : Z) : TaskDocument :=
  {| title := title d; note := note d; createdBy := createdBy d;
     assignedTo := assignedTo d; status := status d;
     assigneeReaction := Some r;
     urgency := {| expiresAt := newExpiresAt;
                   durationMinutes := durationMinutes (urgency d) |};
     notification := notification d; createdAt := createdAt d; updatedAt := t;
     ttl := ttl d; extensionCount := Some count |}.

(** [updateTaskReaction(taskId, reaction, userUid)] *)
Definition updateTaskReaction (taskId : string) (reaction : TaskReaction.t)
    (userUid : string) : M TaskResponse :=
  let* taskDoc := tasks_get taskId in
  match taskDoc with
  | None => throw (NotFoundException TASK_ERROR_MESSAGES.TASK_NOT_FOUND)
  | Some taskData =>
      when (bool_decide (uid (assignedTo taskData) ≠ userUid))
        (throw (ForbiddenException TASK_ERROR_MESSAGES.ONLY_ASSIGNEE_CAN_REACT)) ;;
      when (bool_decide (status taskData ≠ TaskStatus.PENDING))
        (throw (BadRequestException TASK_ERROR_MESSAGES.CANNOT_REACT)) ;;
      let* now_ms := now in
      let updateData := [Set_assigneeReaction reaction; Set_updatedAt now_ms] in
      let extensionCount0 := default 0 (extensionCount taskData) in
      let* late :=
        if bool_decide (reaction = TaskReaction.RUNNING_LATE) then
          when (bool_decide (extensionCount0 >= TASK_TIME_MINUTES.MAX_EXTENSIONS))
            (throw (BadRequestException TASK_ERROR_MESSAGES.MAX_EXTENSIONS)) ;;
          let newExpiresAt :=
            expiresAt (urgency taskData) + TASK_TIME_MS.RUNNING_LATE_EXTENSION in
          let extensionCount := extensionCount0 + 1 in
          let newTtl := newExpiresAt + TASK_TIME_MS.DEFAULT_TTL_AFTER_EXPIRY in
          ret (updateData ++
                 [Set_urgency_expiresAt newExpiresAt;
                  Set_extensionCount extensionCount;
                  Set_ttl newTtl],
               newExpiresAt, extensionCount)
        else ret (updateData, expiresAt (urgency taskData), extensionCount0) in
      let '(updateData, newExpiresAt, extensionCount) := late in
      tasks_update taskId updateData ;;
      try_catch
        (sendTaskReactionNotification taskId (uid (createdBy taskData))
           (uid (assignedTo taskData)) (name (assignedTo taskData)) (title taskData)
           (TaskReaction.value reaction))
        (fun _ => ret tt) ;;
      transformToResponse
        {| id := taskId;
           doc := with_reaction taskData reaction now_ms newExpiresAt extensionCount |}
  end.

(** [TaskController.updateTaskStatus]: PATCH /tasks/:id/status, with the
    validated body's [status] and the authenticated user's [uid]. *)
Definition TaskController_updateTaskStatus (params_id : string)
    (dto_status : TaskStatus.t) (user_uid : string) : M TaskApiResponse :=
  let* t := updateTaskStatus params_id dto_status (Some user_uid) in
  ret {| task := t; api_message := TASK_SUCCESS_MESSAGES.STATUS_UPDATED |}.

End Services.

(* ================================================================== *)
(** ** The rest of TaskService and TaskController (libs/tasks) *)

Module TaskQueryType.
Inductive t := CREATED | ASSIGNED.
#[global] Instance eq_dec : EqDecision t.
Proof. solve_decision. Defined.
End TaskQueryType.

Module TaskSortField.
Inductive t := CREATED_AT | UPDATED_AT | EXPIRES_AT.
#[global] Instance eq_dec : EqDecision t.
Proof. solve_decision. Defined.
End TaskSortField.

Module SortOrder.
Inductive t := ASC | DESC.
#[global] Instance eq_dec : EqDecision t.
Proof. solve_decision. Defined.
End SortOrder.

Module TASK_PAGINATION_DEFAULTS.
Definition DEFAULT_PAGE : Z := 1.
Definition DEFAULT_LIMIT : Z := 20.
Definition MIN_LIMIT : Z := 1.
Definition MAX_LIMIT : Z := 100.
End TASK_PAGINATION_DEFAULTS.

(** Further members of the constant objects: ONLY_CREATOR_CAN_DELETE of
    [TASK_ERROR_MESSAGES], the others of [TASK_SUCCESS_MESSAGES]. *)
Module TASK_MESSAGES.
Definition ONLY_CREATOR_CAN_DELETE : string := "Only task creator can delete the task".
Definition TASK_CREATED : string := "Task created and assigned successfully".
Definition REACTION_UPDATED : string := "Reaction updated successfully".
Definition TASK_COMPLETED : string := "Task marked as completed".
Definition TASK_CANCELLED : string := "Task cancelled successfully".
Definition TASK_DELETED : string := "Task deleted successfully".
Definition TASKS_RETRIEVED : string := "Tasks retrieved successfully".
Definition TIME_EXTENDED : string := "Task time extended by 30 minutes".
End TASK_MESSAGES.

Record GetTasksOptions := {
  o_type : TaskQueryType.t;
  o_page : option Z;
  o_limit : option Z;
  o_sortBy : option TaskSortField.t;
  o_sortOrder : option SortOrder.t;
  o_status : option TaskStatus.t;
  o_reaction : option TaskReaction.t
}.

Record PaginatedTasks := { items : list TaskResponse; meta : PaginationMeta }.

Record TasksApiResponse := {
  api_items : list TaskResponse;
  api_meta : PaginationMeta;
  tasks_message : string
}.

Record TaskDeleteResponse := { delete_message : string }.

(** *** Queries on the tasks collection *)

(** The [where] clauses of [getMyTasks]: the requester's role field, and
    the status and reaction filters when they are given. *)
Definition task_matches (type : TaskQueryType.t) (userUid : string)
    (status_filter : option TaskStatus.t) (reaction_filter : option TaskReaction.t)
    (d : TaskDocument) : bool :=
  bool_decide
    (uid (match type with
          | TaskQueryType.CREATED => createdBy d
          | TaskQueryType.ASSIGNED => assignedTo d
          end) = userUid)
  && match status_filter with
     | Some s => bool_decide (status d = s)
     | None => true
     end
  && match reaction_filter with
     | Some r => bool_decide (assigneeReaction d = Some r)
     | None => true
     end.

(** The field [orderBy] sorts on. *)
Definition sort_value (f : TaskSortField.t) (d : TaskDocument) : Z :=
  match f with
  | TaskSortField.CREATED_AT => createdAt d
  | TaskSortField.UPDATED_AT => updatedAt d
  | TaskSortField.EXPIRES_AT => expiresAt (urgency d)
  end.

(** The store orders a query by the [orderBy] field and then by document
    id, both in the direction asked for. *)
Definition key_leb (a b : Z * string) : bool :=
  (a.1 <? b.1) || ((a.1 =? b.1) && String.leb a.2 b.2).

Definition query_order (f : TaskSortField.t) (order : SortOrder.t)
    (a b : string * TaskDocument) : Prop :=
  match order with
  | SortOrder.ASC => key_leb (sort_value f a.2, a.1) (sort_value f b.2, b.1)
  | SortOrder.DESC => key_leb (sort_value f b.2, b.1) (sort_value f a.2, a.1)
  end.

#[global] Instance query_order_dec f order a b : Decision (query_order f order a b).
Proof. unfold query_order. destruct order; apply _. Defined.

(** The documents of the collection that pass the filters. *)
Definition matching_tasks (p : TaskDocument -> bool) (ts : gmap string TaskDocument)
    : list (string * TaskDocument) :=
  List.filter (fun kv => p kv.2) (map_to_list ts).

(** [query.count().get()] *)
Definition tasks_count (p : TaskDocument -> bool) : M Z :=
  fun w => (Returned (Z.of_nat (length (matching_tasks p (tasks w)))), w).

(** [query.orderBy(f, order).offset(offset).limit(limit).get()]; the
    store rejects a negative offset or limit. *)
Definition tasks_page (p : TaskDocument -> bool) (f : TaskSortField.t)
    (order : SortOrder.t) (offset limit : Z) : M (list (string * TaskDocument)) :=
  fun w =>
    if (offset <? 0) || (limit <? 0) then (Thrown (Error "INVALID_ARGUMENT"), w)
    else
      (Returned
         (take (Z.to_nat limit)
            (drop (Z.to_nat offset)
               (merge_sort (query_order f order) (matching_tasks p (tasks w))))),
       w).

(** One [batch.update] on a task document that exists. *)
Definition apply_task_write (w : World) (op : string * list TaskFieldUpdate) : World :=
  match tasks w !! op.1 with
  | Some d =>
      with_tasks (<[op.1 := apply_task_update op.2 d]> (tasks w)) (TaskUpdated op.1 op.2) w
  | None => w
  end.

(** The store takes at most 500 writes in one batch. *)
Definition BATCH_WRITE_LIMIT : nat := 500.

(** [batch.commit()] of updates: all of them or, when the batch is too
    large or a document is missing, none. *)
Definition tasks_batch_commit (ops : list (string * list TaskFieldUpdate)) : M unit :=
  fun w =>
    if (BATCH_WRITE_LIMIT <? length ops)%nat
    then (Thrown (Error "Batch exceeds the write limit"), w)
    else if forallb (fun op => bool_decide (is_Some (tasks w !! op.1))) ops
    then (Returned tt, fold_left apply_task_write ops w)
    else (Thrown (Error "No document to update"), w).

(** [taskRef.delete()].  (The journal of [World] has no entry for
    deletions; they show in the collection.) *)
Definition tasks_delete (ref : string) : M unit :=
  fun w =>
    (Returned tt,
     {| tasks := delete ref (tasks w); users := users w;
        notifications := notifications w; journal := journal w;
        clock_reads := clock_reads w; ids_drawn := ids_drawn w;
        push_calls := push_calls w |}).

Section MoreTaskService.

Variable host : Host.

(** The loop of [getMyTasks] over [snapshot.docs]: the responses, the
    updates put into the batch, and [hasExpiredUpdates]. *)
Fixpoint list_loop (now_ms : Z) (docs : list (string * TaskDocument))
    (tasks_acc : list TaskResponse) (batch : list (string * list TaskFieldUpdate))
    (hasExpiredUpdates : bool)
    : M (list TaskResponse * list (string * list TaskFieldUpdate) * bool) :=
  match docs with
  | [] => ret (tasks_acc, batch, hasExpiredUpdates)
  | (doc_id, data) :: rest =>
      if bool_decide (status data = TaskStatus.PENDING)
         && bool_decide (expiresAt (urgency data) <= now_ms)
      then
        let batch := batch ++ [(doc_id, [Set_status TaskStatus.EXPIRED;
                                          Set_updatedAt now_ms])] in
        let taskData := with_status data TaskStatus.EXPIRED now_ms in
        let* r := transformToResponse host {| id := doc_id; doc := taskData |} in
        list_loop now_ms rest (tasks_acc ++ [r]) batch true
      else
        let* r := transformToResponse host {| id := doc_id; doc := data |} in
        list_loop now_ms rest (tasks_acc ++ [r]) batch hasExpiredUpdates
  end.

(** [getMyTasks(userUid, options)] *)
Definition getMyTasks (userUid : string) (options : GetTasksOptions) : M PaginatedTasks :=
  let type := o_type options in
  let page := default TASK_PAGINATION_DEFAULTS.DEFAULT_PAGE (o_page options) in
  let limit := default TASK_PAGINATION_DEFAULTS.DEFAULT_LIMIT (o_limit options) in
  let sortBy := default TaskSortField.CREATED_AT (o_sortBy options) in
  let sortOrder := default SortOrder.DESC (o_sortOrder options) in
  let* now_ms := now host in
  let query := task_matches type userUid (o_status options) (o_reaction options) in
  let* totalItems := tasks_count query in
  let* docs := tasks_page query sortBy sortOrder ((page - 1) * limit) limit in
  let* looped := list_loop now_ms docs [] [] false in
  let '(tasks_out, batch, hasExpiredUpdates) := looped in
  when hasExpiredUpdates (tasks_batch_commit batch) ;;
  ret {| items := tasks_out; meta := buildPaginationMeta totalItems page limit |}.

(** [deleteTask(taskId, userUid)] *)
Definition deleteTask (taskId userUid : string) : M unit :=
  let* taskDoc := tasks_get taskId in
  match taskDoc with
  | None => throw (NotFoundException TASK_ERROR_MESSAGES.TASK_NOT_FOUND)
  | Some taskData =>
      when (bool_decide (uid (createdBy taskData) ≠ userUid))
        (throw (ForbiddenException TASK_MESSAGES.ONLY_CREATOR_CAN_DELETE)) ;;
      tasks_delete taskId
  end.

(** *** TaskController *)

(** POST /tasks *)
Definition TaskController_createTask (dto : CreateTaskDto) (user_uid : string)
    : M TaskApiResponse :=
  let* t := createTask host dto user_uid in
  ret {| task := t; api_message := TASK_MESSAGES.TASK_CREATED |}.

(** GET /tasks/my-tasks *)
Definition TaskController_getMyTasks (query : GetTasksOptions) (user_uid : string)
    : M TasksApiResponse :=
  let* result := getMyTasks user_uid query in
  ret {| api_items := items result; api_meta := meta result;
         tasks_message := TASK_MESSAGES.TASKS_RETRIEVED |}.

(** PATCH /tasks/:id/reaction *)
Definition TaskController_updateTaskReaction (params_id : string)
    (dto_reaction : TaskReaction.t) (user_uid : string) : M TaskApiResponse :=
  let* t := updateTaskReaction host params_id dto_reaction user_uid in
  let message :=
    if bool_decide (dto_reaction = TaskReaction.RUNNING_LATE)
    then TASK_MESSAGES.TIME_EXTENDED
    else TASK_MESSAGES.REACTION_UPDATED in
  ret {| task := t; api_message := message |}.

(** PATCH /tasks/:id/complete *)
Definition TaskController_completeTask (params_id user_uid : string) : M TaskApiResponse :=
  let* t := updateTaskStatus host params_id TaskStatus.COMPLETED (Some user_uid) in
  ret {| task := t; api_message := TASK_MESSAGES.TASK_COMPLETED |}.

(** PATCH /tasks/:id/cancel *)
Definition TaskController_cancelTask (params_id user_uid : string) : M TaskApiResponse :=
  let* t := updateTaskStatus host params_id TaskStatus.CANCELLED (Some user_uid) in
  ret {| task := t; api_message := TASK_MESSAGES.TASK_CANCELLED |}.

(** DELETE /tasks/:id *)
Definition TaskController_deleteTask (params_id user_uid : string) : M TaskDeleteResponse :=
  deleteTask params_id user_uid ;;
  ret {| delete_message := TASK_MESSAGES.TASK_DELETED |}.

End MoreTaskService.

(* ================================================================== *)
(** ** The rest of AlertService and AlertController (libs/alert) *)

Module ALERT_PAGINATION_DEFAULTS.
Definition DEFAULT_LIMIT : Z := 50.
Definition MIN_LIMIT : Z := 1.
Definition MAX_LIMIT : Z := 100.
End ALERT_PAGINATION_DEFAULTS.

Module ALERT_RETENTION.
Definition RETENTION_DAYS : Z := 30.
End ALERT_RETENTION.

(** Instants of a response are [Date] renderings of the stored instants;
    the embedding keeps the instant itself. *)
Record INotificationResponse := {
  nr_id : string;
  nr_type : NotificationType.t;
  nr_recipientUid : string;
  nr_senderUid : string;
  nr_taskId : string;
  nr_title : string;
  nr_body : string;
  nr_data : INotificationData;
  nr_status : NotificationStatus.t;
  nr_isRead : bool;
  nr_createdAt : Z;
  nr_sentAt : option Z;
  nr_readAt : option Z
}.

Record IGetNotificationsOptions := {
  g_limit : option Z;
  g_unreadOnly : option bool;
  g_type : option NotificationType.t;
  g_cursor : option string
}.

Record NotificationsPagination := {
  pg_total : Z;
  pg_count : Z;
  pg_limit : Z;
  hasMore : bool;
  nextCursor : option string
}.

Record IPaginatedNotificationsResponse := {
  pr_notifications : list INotificationResponse;
  pagination : NotificationsPagination
}.

Record IMarkReadResponse := { mr_message : string }.

Record ICleanupResponse := { deletedCount : Z }.

Record UnreadCountResponse := { uc_count : Z }.

(** *** The notifications collection *)

(** The writes of this part of the service replace the collection without
    an entry in the journal of [World], which keeps the writes of the
    dispatch. *)
Definition set_notifications (ns : gmap string INotificationDocument) (w : World) : World :=
  {| tasks := tasks w; users := users w; notifications := ns; journal := journal w;
     clock_reads := clock_reads w; ids_drawn := ids_drawn w; push_calls := push_calls w |}.

(** [collection(NOTIFICATIONS).doc(ref).get()] *)
Definition notifications_get (ref : string) : M (option INotificationDocument) :=
  fun w => (Returned (notifications w !! ref), w).

(** The update object [{isRead: true, readAt, status: READ}], applied. *)
Definition mark_read (t : Z) (n : INotificationDocument) : INotificationDocument :=
  {| n_type := n_type n; recipientUid := recipientUid n; senderUid := senderUid n;
     n_taskId := n_taskId n; n_title := n_title n; n_body := n_body n;
     n_data := n_data n; n_status := NotificationStatus.READ; isRead := true;
     n_createdAt := n_createdAt n; n_sentAt := n_sentAt n; readAt := Some t;
     fcmMessageId := fcmMessageId n; n_error := n_error n |}.

(** [notificationRef.update({isRead: true, readAt, status: READ})] *)
Definition notifications_mark_read (ref : string) (t : Z) : M unit :=
  fun w =>
    match notifications w !! ref with
    | Some n => (Returned tt, set_notifications (<[ref := mark_read t n]> (notifications w)) w)
    | None => (Thrown (Error "No document to update"), w)
    end.

(** [notificationRef.delete()] *)
Definition notifications_delete (ref : string) : M unit :=
  fun w => (Returned tt, set_notifications (delete ref (notifications w)) w).

(** The [where] clauses of the queries on the collection. *)
Definition notification_matches (uid : string) (unreadOnly : bool)
    (type : option NotificationType.t) (n : INotificationDocument) : bool :=
  bool_decide (recipientUid n = uid)
  && (if unreadOnly then bool_decide (isRead n = false) else true)
  && match type with
     | Some t => bool_decide (n_type n = t)
     | None => true
     end.

(** [query.get()] without [orderBy]; the documents that pass the filter. *)
Definition matching_notifications (p : INotificationDocument -> bool)
    (ns : gmap string INotificationDocument) : list (string * INotificationDocument) :=
  List.filter (fun kv => p kv.2) (map_to_list ns).

Definition notifications_where (p : INotificationDocument -> bool)
    : M (list (string * INotificationDocument)) :=
  fun w => (Returned (matching_notifications p (notifications w)), w).

(** [query.count().get()] *)
Definition notifications_count (p : INotificationDocument -> bool) : M Z :=
  fun w => (Returned (Z.of_nat (length (matching_notifications p (notifications w)))), w).

(** [orderBy('createdAt', 'desc')]: newest first, then by document id in
    the same direction. *)
Definition newest_first (a b : string * INotificationDocument) : Prop :=
  key_leb (n_createdAt b.2, b.1) (n_createdAt a.2, a.1).

#[global] Instance newest_first_dec a b : Decision (newest_first a b).
Proof. unfold newest_first. apply _. Defined.

(** [startAfter(cursorDoc)]: the documents whose place in the order is
    strictly behind the cursor document's. *)
Definition behind (start : option (string * INotificationDocument))
    (kv : string * INotificationDocument) : bool :=
  match start with
  | Some c => negb (key_leb (n_createdAt c.2, c.1) (n_createdAt kv.2, kv.1))
  | None => true
  end.

(** [query.orderBy('createdAt','desc').startAfter(start).limit(limit).get()];
    the store rejects a negative limit. *)
Definition notifications_page (p : INotificationDocument -> bool)
    (start : option (string * INotificationDocument)) (limit : Z)
    : M (list (string * INotificationDocument)) :=
  fun w =>
    if limit <? 0 then (Thrown (Error "INVALID_ARGUMENT"), w)
    else
      (Returned
         (take (Z.to_nat limit)
            (List.filter (behind start)
               (merge_sort newest_first (matching_notifications p (notifications w))))),
       w).

(** [batch.commit()] of the read-marking updates in [refs]: all of them
    or, when the batch is too large or a document is missing, none. *)
Definition notifications_batch_mark_read (refs : list string) (t : Z) : M unit :=
  fun w =>
    if (BATCH_WRITE_LIMIT <? length refs)%nat
    then (Thrown (Error "Batch exceeds the write limit"), w)
    else if forallb (fun ref => bool_decide (is_Some (notifications w !! ref))) refs
    then
      (Returned tt,
       set_notifications
         (fold_left (fun ns ref => alter (mark_read t) ref ns) refs (notifications w)) w)
    else (Thrown (Error "No document to update"), w).

(** [batch.commit()] of the deletions in [refs]. *)
Definition notifications_batch_delete (refs : list string) : M unit :=
  fun w =>
    if (BATCH_WRITE_LIMIT <? length refs)%nat
    then (Thrown (Error "Batch exceeds the write limit"), w)
    else
      (Returned tt,
       set_notifications (fold_left (fun ns ref => delete ref ns) refs (notifications w)) w).

Section MoreAlertService.

Variable host : Host.

(** [mapDocumentToResponse(doc)]; a stored notification carries its
    [createdAt], and a missing [sentAt] or [readAt] is rendered [null]. *)
Definition mapDocumentToResponse (doc : string * INotificationDocument)
    : INotificationResponse :=
  let data := doc.2 in
  {| nr_id := doc.1;
     nr_type := n_type data;
     nr_recipientUid := recipientUid data;
     nr_senderUid := senderUid data;
     nr_taskId := n_taskId data;
     nr_title := n_title data;
     nr_body := n_body data;
     nr_data := n_data data;
     nr_status := n_status data;
     nr_isRead := isRead data;
     nr_createdAt := n_createdAt data;
     nr_sentAt := n_sentAt data;
     nr_readAt := readAt data |}.

(** [getUserNotifications(uid, options)] *)
Definition getUserNotifications (uid : string) (options : IGetNotificationsOptions)
    : M IPaginatedNotificationsResponse :=
  let limit := default ALERT_PAGINATION_DEFAULTS.DEFAULT_LIMIT (g_limit options) in
  let unreadOnly := default false (g_unreadOnly options) in
  let query := notification_matches uid unreadOnly (g_type options) in
  let* total := notifications_count query in
  let* start :=
    (if truthy_opt (g_cursor options) then
       let cursor := default "" (g_cursor options) in
       let* cursorDoc := notifications_get cursor in
       ret ((fun n => (cursor, n)) <$> cursorDoc)
     else ret None) : M (option (string * INotificationDocument)) in
  let* snapshot_docs := notifications_page query start (limit + 1) in
  let hasMore := bool_decide (limit < Z.of_nat (length snapshot_docs)) in
  let docs := if hasMore then take (Z.to_nat limit) snapshot_docs else snapshot_docs in
  let notifications := mapDocumentToResponse <$> docs in
  let nextCursor :=
    if hasMore && bool_decide (0 < length docs)%nat then fst <$> last docs else None in
  ret {| pr_notifications := notifications;
         pagination :=
           {| pg_total := total;
              pg_count := Z.of_nat (length notifications);
              pg_limit := limit;
              hasMore := hasMore;
              nextCursor := nextCursor |} |}.

(** [getNotificationById(notificationId)] *)
Definition getNotificationById (notificationId : string)
    : M (option INotificationResponse) :=
  let* doc := notifications_get notificationId in
  match doc with
  | None => ret None
  | Some data => ret (Some (mapDocumentToResponse (notificationId, data)))
  end.

(** [getUnreadCount(uid)] *)
Definition getUnreadCount (uid : string) : M Z :=
  notifications_count (notification_matches uid true None).

(** [markNotificationAsRead(notificationId)] *)
Definition markNotificationAsRead (notificationId : string) : M IMarkReadResponse :=
  let* doc := notifications_get notificationId in
  match doc with
  | None => throw (Error "Notification not found")
  | Some _ =>
      let* now_ms := now host in
      notifications_mark_read notificationId now_ms ;;
      ret {| mr_message := "Notification marked as read" |}
  end.

(** [markAllNotificationsAsRead(uid)] *)
Definition markAllNotificationsAsRead (uid : string) : M IMarkReadResponse :=
  let* snapshot := notifications_where (notification_matches uid true None) in
  match snapshot with
  | [] => ret {| mr_message := "No unread notifications" |}
  | _ =>
      let* now_ms := now host in
      notifications_batch_mark_read (fst <$> snapshot) now_ms ;;
      ret {| mr_message :=
               "Marked " +:+ pretty (length snapshot) +:+ " notifications as read" |}
  end.

(** [deleteNotification(notificationId, uid)] *)
Definition deleteNotification (notificationId uid : string) : M IMarkReadResponse :=
  let* doc := notifications_get notificationId in
  match doc with
  | None => throw (Error "Notification not found")
  | Some data =>
      when (bool_decide (recipientUid data ≠ uid)) (throw (Error "Unauthorized")) ;;
      notifications_delete notificationId ;;
      ret {| mr_message := "Notification deleted" |}
  end.

(** The loop of [deleteOldNotifications]:
    [for (let i = 0; i < docs.length; i += batchSize)].  The loop runs at
    most once per document; [rounds] bounds the number of rounds. *)
Fixpoint delete_in_chunks (rounds : nat) (batchSize : nat)
    (docs : list (string * INotificationDocument)) (i : nat) (deleted : Z) : M Z :=
  match rounds with
  | O => ret deleted
  | S rounds' =>
      if (i <? length docs)%nat then
        let chunk := take batchSize (drop i docs) in
        notifications_batch_delete (fst <$> chunk) ;;
        delete_in_chunks rounds' batchSize docs (i + batchSize)
          (deleted + Z.of_nat (length chunk))
      else ret deleted
  end.

(** [deleteOldNotifications(days)] *)
Definition deleteOldNotifications (days : option Z) : M ICleanupResponse :=
  let days := default ALERT_RETENTION.RETENTION_DAYS days in
  let* now_ms := now host in
  let cutoff := now_ms - days * 24 * 60 * 60 * 1000 in
  let* snapshot := notifications_where (fun n => bool_decide (n_createdAt n < cutoff)) in
  match snapshot with
  | [] => ret {| deletedCount := 0 |}
  | _ =>
      let batchSize := 500%nat in
      let* deleted := delete_in_chunks (length snapshot) batchSize snapshot 0 0 in
      ret {| deletedCount := deleted |}
  end.

(** *** AlertController *)

(** GET /notifications *)
Definition AlertController_getMyNotifications (user_uid : string) (limit : Z)
    (unreadOnly : bool) (cursor : option string) : M IPaginatedNotificationsResponse :=
  getUserNotifications user_uid
    {| g_limit := Some limit; g_unreadOnly := Some unreadOnly; g_type := None;
       g_cursor := cursor |}.

(** GET /notifications/unread-count *)
Definition AlertController_getUnreadCount (user_uid : string) : M UnreadCountResponse :=
  let* count := getUnreadCount user_uid in
  ret {| uc_count := count |}.

(** GET /notifications/:id *)
Definition AlertController_getNotificationById (notificationId : string)
    : M INotificationResponse :=
  let* notification := getNotificationById notificationId in
  match notification with
  | None => throw (NotFoundException "Notification not found")
  | Some n => ret n
  end.

(** PATCH /notifications/:id/read *)
Definition AlertController_markAsRead (notificationId : string) : M IMarkReadResponse :=
  markNotificationAsRead notificationId.

(** PATCH /notifications/read-all *)
Definition AlertController_markAllAsRead (user_uid : string) : M IMarkReadResponse :=
  markAllNotificationsAsRead user_uid.

(** DELETE /notifications/:id *)
Definition AlertController_deleteNotification (notificationId user_uid : string)
    : M IMarkReadResponse :=
  deleteNotification notificationId user_uid.

End MoreAlertService.

(* ================================================================== *)
(** ** DatabaseHealthService and HealthController *)

Module HealthLevel.
Inductive t := healthy | degraded | unhealthy.
#[global] Instance eq_dec : EqDecision t.
Proof. solve_decision. Defined.
End HealthLevel.

Record DatabaseHealth := {
  connected : bool;
  latencyMs : option Z;
  db_name : string;
  db_host : string
}.

Record HealthStatus := { hs_status : HealthLevel.t; database : DatabaseHealth }.

(** [resolveStatus(connected, latencyMs)]; [latencyMs && latencyMs > 1000]
    is false for [null] and for 0. *)
Definition resolveStatus (isConnected : bool) (latency : option Z) : HealthLevel.t :=
  if negb isConnected then HealthLevel.unhealthy
  else if match latency with
          | Some l => negb (l =? 0) && bool_decide (l > 1000)
          | None => false
          end
  then HealthLevel.degraded
  else HealthLevel.healthy.

Section HealthService.

Variable host : Host.

(** [this.firestore.collection('_health_check').limit(1).get()]: the
    read with which the store is probed; it returns or rejects. *)
Variable health_check_get : M unit.

(** [checkHealth()] *)
Definition checkHealth : M HealthStatus :=
  let* probed :=
    attempt
      (let* start := now host in
       health_check_get ;;
       let* finish := now host in
       ret (finish - start)) in
  let '(isConnected, latency) :=
    match probed with
    | inr l => (true, Some l)
    | inl _ => (false, None)
    end in
  let status := resolveStatus isConnected latency in
  ret {| hs_status := status;
         database := {| connected := isConnected; latencyMs := latency;
                        db_name := "firestore";
                        db_host := "firestore.googleapis.com" |} |}.

(** GET /health/database *)
Definition HealthController_checkDatabaseHealth : M HealthStatus := checkHealth.

End HealthService.

(* ================================================================== *)
(** ** Derived notions used in the statements *)

(** The sub-reason [updateTaskStatus] gives for a closed status. *)
Definition terminal_reason (s : TaskStatus.t) : string :=
  match s with
  | TaskStatus.EXPIRED => TASK_ERROR_MESSAGES.CANNOT_UPDATE_EXPIRED
  | TaskStatus.COMPLETED => TASK_ERROR_MESSAGES.ALREADY_COMPLETED
  | TaskStatus.CANCELLED => TASK_ERROR_MESSAGES.ALREADY_CANCELLED
  | TaskStatus.PENDING => ""
  end.

(** The authorization block of [updateTaskStatus]: the message of the
    [ForbiddenException] it raises, if it raises one. *)
Definition status_update_denied (d : TaskDocument) (new_status : TaskStatus.t)
    (userUid : option string) : option string :=
  if truthy_opt userUid then
    if bool_decide (new_status = TaskStatus.CANCELLED)
       && bool_decide (Some (uid (createdBy d)) ≠ userUid)
    then Some TASK_ERROR_MESSAGES.ONLY_CREATOR_CAN_CANCEL
    else if bool_decide (new_status = TaskStatus.COMPLETED)
            && bool_decide (Some (uid (assignedTo d)) ≠ userUid)
    then Some TASK_ERROR_MESSAGES.ONLY_ASSIGNEE_CAN_COMPLETE
    else None
  else None.

(** The update object of an accepted reaction. *)
Definition reaction_update (d : TaskDocument) (reaction : TaskReaction.t) (now_ms : Z)
    : list TaskFieldUpdate :=
  [Set_assigneeReaction reaction; Set_updatedAt now_ms] ++
  if bool_decide (reaction = TaskReaction.RUNNING_LATE) then
    [Set_urgency_expiresAt (expiresAt (urgency d) + TASK_TIME_MS.RUNNING_LATE_EXTENSION);
     Set_extensionCount (default 0 (extensionCount d) + 1);
     Set_ttl (expiresAt (urgency d) + TASK_TIME_MS.RUNNING_LATE_EXTENSION
              + TASK_TIME_MS.DEFAULT_TTL_AFTER_EXPIRY)]
  else [].

(** An extension is asked of a task that has used all of them. *)
Definition limit_reached (d : TaskDocument) (reaction : TaskReaction.t) : bool :=
  bool_decide (reaction = TaskReaction.RUNNING_LATE)
  && bool_decide (default 0 (extensionCount d) >= TASK_TIME_MINUTES.MAX_EXTENSIONS).

(** [n] running-late reactions by [userUid], one after the other. *)
Fixpoint running_late_times (host : Host) (taskId userUid : string) (n : nat) : M unit :=
  match n with
  | O => ret tt
  | S k =>
      updateTaskReaction host taskId TaskReaction.RUNNING_LATE userUid ;;
      running_late_times host taskId userUid k
  end.

(** The [TaskUser] that [getTaskUser] and [findUserByEmail] build from a
    stored user document. *)
Definition task_user (u : string) (userData : FirebaseUser) : TaskUser :=
  {| uid := u;
     email := default "" (user_email userData);
     name := default "Unknown" (user_name userData) |}.

(** The world after one reading of the clock and one generated id. *)
Definition after_now_and_id (w : World) : World :=
  {| tasks := tasks w; users := users w; notifications := notifications w;
     journal := journal w; clock_reads := S (clock_reads w);
     ids_drawn := S (ids_drawn w); push_calls := push_calls w |}.

(** What [createTask] looked up before it built the task. *)
Definition create_lookups (host : Host) (dto : CreateTaskDto) (creatorUid : string)
    (w : World) : option (TaskUser * TaskUser) :=
  match user_doc (users w) creatorUid,
        user_by_email (users w) (toLowerCase host (assignToEmail dto)) with
  | Some creatorData, Some (docId, assigneeData) =>
      if bool_decide (docId = creatorUid) then None
      else Some (task_user creatorUid creatorData, task_user docId assigneeData)
  | _, _ => None
  end.

(** Two task documents that differ at most in the notification sub-record. *)
Definition same_but_notification (a b : TaskDocument) : Prop :=
  b = with_notification a (notification b).

(** The idempotency gate lets the dispatch through. *)
Definition gate_open (p : ISendPushNotificationParams) (w : World) : Prop :=
  p_type p = NotificationType.TASK_ASSIGNED ->
  existing_notifications (p_taskId p) (p_recipientUid p) (p_type p) (notifications w) = ∅.

(** The message [sendExpoNotification] submits for [p]. *)
Definition push_message (p : ISendPushNotificationParams) (ref token : string)
    : ExpoPushMessage :=
  {| to := token; sound := "default"; m_title := p_title p; m_body := p_body p;
     m_notificationId := ref; m_taskId := p_taskId p; m_type := p_dataType p;
     priority := "high"; channelId := ALERT_PUSH_CONFIG.CHANNEL_ID |}.

(** The recipient's delivery token, when the user exists, has one, and it
    has the Expo format. *)
Definition deliverable_token (host : Host) (w : World) (recipient : string)
    : option string :=
  match user_doc (users w) recipient with
  | Some user =>
      if truthy_opt (fcmToken user) && isExpoPushToken host (default "" (fcmToken user))
      then fcmToken user else None
  | None => None
  end.

(** Independent dispatch triggers, one after the other; what a trigger
    returns or throws does not stop the next one. *)
Fixpoint triggers (host : Host) (ps : list ISendPushNotificationParams) (w : World)
    : World :=
  match ps with
  | [] => w
  | p :: rest => triggers host rest (snd (sendPushNotification host p w))
  end.

(** The stored assignment records for a (task, recipient) pair. *)
Definition assignment_records (taskId recipient : string) (w : World)
    : gmap string INotificationDocument :=
  existing_notifications taskId recipient NotificationType.TASK_ASSIGNED (notifications w).

(** A trigger for the assignment event of (taskId, recipient). *)
Definition assignment_trigger (taskId recipient : string)
    (p : ISendPushNotificationParams) : Prop :=
  p_taskId p = taskId /\ p_recipientUid p = recipient /\
  p_type p = NotificationType.TASK_ASSIGNED.

(** A computation that leaves the task and user collections alone and
    only adds to the journal, whatever its outcome. *)
Definition keeps_tasks {A} (m : M A) : Prop :=
  forall w,
    tasks (snd (m w)) = tasks w /\
    users (snd (m w)) = users w /\
    exists more, journal (snd (m w)) = journal w ++ more.

(** The world after [k] further readings of the clock and nothing else. *)
Definition after_clock_reads (k : nat) (w : World) : World :=
  {| tasks := tasks w; users := users w; notifications := notifications w;
     journal := journal w; clock_reads := (k + clock_reads w)%nat;
     ids_drawn := ids_drawn w; push_calls := push_calls w |}.

(* ================================================================== *)
(** ** Further derived notions *)

(** The fields of a notification record that the dispatch fixes when it
    creates the record for [p] at instant [created] and never changes. *)
Definition trigger_record (p : ISendPushNotificationParams) (created : Z)
    (r : INotificationDocument) : Prop :=
  n_type r = p_type p /\
  recipientUid r = p_recipientUid p /\
  senderUid r = p_senderUid p /\
  n_taskId r = p_taskId p /\
  n_title r = p_title p /\
  n_body r = p_body p /\
  n_data r = {| data_taskId := p_taskId p; data_type := p_dataType p |} /\
  isRead r = false /\
  n_createdAt r = created /\
  readAt r = None.

(** The parameters [sendTaskReactionNotification] passes on. *)
Definition reaction_trigger (taskId : string) (d : TaskDocument) (reaction : TaskReaction.t)
    : ISendPushNotificationParams :=
  {| p_taskId := taskId;
     p_recipientUid := uid (createdBy d);
     p_senderUid := uid (assignedTo d);
     p_type := NotificationType.TASK_REACTION;
     p_title := name (assignedTo d) +:+ " responded";
     p_body := double_quote +:+ replace_underscores (TaskReaction.value reaction)
               +:+ double_quote +:+ " on: " +:+ title d;
     p_dataType := NotificationType.value NotificationType.TASK_REACTION |}.

(** The parameters [sendTaskAssignmentNotification] passes on from
    [createTask]. *)
Definition assignment_trigger_of (taskRef : string) (creator assignee : TaskUser)
    (taskTitle : string) : ISendPushNotificationParams :=
  {| p_taskId := taskRef;
     p_recipientUid := uid assignee;
     p_senderUid := uid creator;
     p_type := NotificationType.TASK_ASSIGNED;
     p_title := "New task from " +:+ name creator;
     p_body := taskTitle;
     p_dataType := NotificationType.value NotificationType.TASK_ASSIGNED |}.

(** The response [transformToResponse] builds for [t] when the clock
    reads [t1] in [calculateRemainingMinutes] and [t2] in [isExpired]. *)
Definition response_at (t : Task) (t1 t2 : Z) : TaskResponse :=
  let d := doc t in
  {| r_id := id t;
     r_title := title d;
     r_note := note d;
     r_createdBy := createdBy d;
     r_assignedTo := assignedTo d;
     r_status := status d;
     r_assigneeReaction := assigneeReaction d;
     r_urgency :=
       {| r_expiresAt := expiresAt (urgency d);
          r_durationMinutes := durationMinutes (urgency d);
          remainingMinutes := Z.max 0 ((expiresAt (urgency d) - t1) / TASK_TIME_MS.MINUTE);
          r_isExpired := bool_decide (expiresAt (urgency d) <= t2) |};
     r_notification :=
       {| sent := sent (notification d);
          sentAt := sentAt (notification d);
          error := error (notification d) |};
     r_createdAt := createdAt d;
     r_updatedAt := updatedAt d;
     r_extensionCount := default 0 (extensionCount d) |}.

(** The task object [updateTaskReaction] hands to [transformToResponse]. *)
Definition reacted_task (taskId : string) (d : TaskDocument) (reaction : TaskReaction.t)
    (now_ms : Z) : Task :=
  {| id := taskId;
     doc := with_reaction d reaction now_ms
              (if bool_decide (reaction = TaskReaction.RUNNING_LATE)
               then expiresAt (urgency d) + TASK_TIME_MS.RUNNING_LATE_EXTENSION
               else expiresAt (urgency d))
              (if bool_decide (reaction = TaskReaction.RUNNING_LATE)
               then default 0 (extensionCount d) + 1
               else default 0 (extensionCount d)) |}.

(** The world after the update of an accepted reaction, before the
    notification is dispatched. *)
Definition reaction_stored (host : Host) (taskId : string) (d : TaskDocument)
    (reaction : TaskReaction.t) (w : World) : World :=
  let us := reaction_update d reaction (clock host (clock_reads w)) in
  with_tasks (<[taskId := apply_task_update us d]> (tasks w))
    (TaskUpdated taskId us) (after_clock_reads 1 w).

(** *** Listing *)

(** A pending task whose deadline has passed at [now_ms]. *)
Definition stale (now_ms : Z) (d : TaskDocument) : bool :=
  bool_decide (status d = TaskStatus.PENDING)
  && bool_decide (expiresAt (urgency d) <= now_ms).

(** The task as a read at [now_ms] shows it. *)
Definition reconciled (now_ms : Z) (d : TaskDocument) : TaskDocument :=
  if stale now_ms d then with_status d TaskStatus.EXPIRED now_ms else d.

(** The responses to the documents [docs], the clock having been read [k]
    times before the first. *)
Fixpoint responses_from (host : Host) (k : nat) (now_ms : Z)
    (docs : list (string * TaskDocument)) : list TaskResponse :=
  match docs with
  | [] => []
  | kv :: rest =>
      response_at {| id := kv.1; doc := reconciled now_ms kv.2 |}
        (clock host k) (clock host (S k))
      :: responses_from host (S (S k)) now_ms rest
  end.

(** The updates [getMyTasks] puts into its batch for [docs]. *)
Definition expiry_batch (now_ms : Z) (docs : list (string * TaskDocument))
    : list (string * list TaskFieldUpdate) :=
  (fun kv : string * TaskDocument =>
     (kv.1, [Set_status TaskStatus.EXPIRED; Set_updatedAt now_ms]))
  <$> List.filter (fun kv : string * TaskDocument => stale now_ms kv.2) docs.

Definition page_of (o : GetTasksOptions) : Z :=
  default TASK_PAGINATION_DEFAULTS.DEFAULT_PAGE (o_page o).

Definition limit_of (o : GetTasksOptions) : Z :=
  default TASK_PAGINATION_DEFAULTS.DEFAULT_LIMIT (o_limit o).

(** All the tasks the query of [getMyTasks] matches. *)
Definition listed (userUid : string) (o : GetTasksOptions) (ts : gmap string TaskDocument)
    : list (string * TaskDocument) :=
  matching_tasks (task_matches (o_type o) userUid (o_status o) (o_reaction o)) ts.

(** The documents of the page asked for. *)
Definition page_docs (userUid : string) (o : GetTasksOptions)
    (ts : gmap string TaskDocument) : list (string * TaskDocument) :=
  take (Z.to_nat (limit_of o))
    (drop (Z.to_nat ((page_of o - 1) * limit_of o))
       (merge_sort (query_order (default TaskSortField.CREATED_AT (o_sortBy o))
                      (default SortOrder.DESC (o_sortOrder o)))
          (listed userUid o ts))).

(** The value of the sort field as a response shows it. *)
Definition response_sort_value (f : TaskSortField.t) (r : TaskResponse) : Z :=
  match f with
  | TaskSortField.CREATED_AT => r_createdAt r
  | TaskSortField.UPDATED_AT => r_updatedAt r
  | TaskSortField.EXPIRES_AT => r_expiresAt (r_urgency r)
  end.

(** *** The task endpoints as one interface *)

(** A request to the task endpoints, its parameters validated. *)
Inductive TaskRequest :=
| Req_createTask (dto : CreateTaskDto)
| Req_getTask (params_id : string)
| Req_getMyTasks (query : GetTasksOptions)
| Req_updateTaskStatus (params_id : string) (dto_status : TaskStatus.t)
| Req_updateTaskReaction (params_id : string) (dto_reaction : TaskReaction.t)
| Req_completeTask (params_id : string)
| Req_cancelTask (params_id : string)
| Req_deleteTask (params_id : string).

(** The world after the endpoint has handled the request of [user_uid],
    whether it returned or threw.  (GET /tasks/:id hands the result of
    [getTaskById] on.) *)
Definition handle (host : Host) (user_uid : string) (r : TaskRequest) (w : World) : World :=
  match r with
  | Req_createTask dto => snd (TaskController_createTask host dto user_uid w)
  | Req_getTask params_id => snd (getTaskById host params_id user_uid w)
  | Req_getMyTasks query => snd (TaskController_getMyTasks host query user_uid w)
  | Req_updateTaskStatus params_id dto_status =>
      snd (TaskController_updateTaskStatus host params_id dto_status user_uid w)
  | Req_updateTaskReaction params_id dto_reaction =>
      snd (TaskController_updateTaskReaction host params_id dto_reaction user_uid w)
  | Req_completeTask params_id => snd (TaskController_completeTask host params_id user_uid w)
  | Req_cancelTask params_id => snd (TaskController_cancelTask host params_id user_uid w)
  | Req_deleteTask params_id => snd (TaskController_deleteTask params_id user_uid w)
  end.

(** The bounds the query validation puts on page and limit. *)
Definition valid_request (r : TaskRequest) : Prop :=
  match r with
  | Req_getMyTasks query =>
      1 <= page_of query /\
      1 <= limit_of query <= TASK_PAGINATION_DEFAULTS.MAX_LIMIT
  | _ => True
  end.

(** Requests handled one after the other, each by its own user. *)
Fixpoint handle_all (host : Host) (rs : list (string * TaskRequest)) (w : World) : World :=
  match rs with
  | [] => w
  | (user_uid, r) :: rest => handle_all host rest (handle host user_uid r w)
  end.

(** What one request may do to a stored task. *)
Definition task_change (d d' : TaskDocument) : Prop :=
  d' = d \/
  (status d = TaskStatus.PENDING /\ exists s t, d' = with_status d s t) \/
  (status d = TaskStatus.PENDING /\
   exists r t, limit_reached d r = false /\
               d' = apply_task_update (reaction_update d r t) d).

(** A task as [createTask] stores it. *)
Definition task_created (host : Host) (d' : TaskDocument) : Prop :=
  exists dto creator assignee now_ms n,
    uid creator <> uid assignee /\
    d' = with_notification (new_task_data host dto creator assignee now_ms) n.

(** What a call leaves of each entry of the tasks collection. *)
Definition entry_step (host : Host) (w w' : World) : Prop :=
  forall k,
    match tasks w' !! k with
    | None => True
    | Some d' =>
        (exists d, tasks w !! k = Some d /\ task_change d d') \/
        (k = autoId host (ids_drawn w) /\ task_created host d')
    end.

(** The relations between the fields of a stored task. *)
Definition task_ok (d : TaskDocument) : Prop :=
  ttl d = expiresAt (urgency d) + TASK_TIME_MS.DEFAULT_TTL_AFTER_EXPIRY /\
  expiresAt (urgency d) =
    createdAt d + durationMinutes (urgency d) * TASK_TIME_MS.MINUTE
    + default 0 (extensionCount d) * TASK_TIME_MS.RUNNING_LATE_EXTENSION /\
  0 <= default 0 (extensionCount d) <= TASK_TIME_MINUTES.MAX_EXTENSIONS /\
  uid (createdBy d) <> uid (assignedTo d).


(** A call never takes back an id the store has handed out. *)
Definition ids_grow {A : Type} (m : M A) : Prop :=
  forall w, (ids_drawn w <= ids_drawn (snd (m w)))%nat.

(** *** Listing notifications *)

Definition limit_of_inbox (o : IGetNotificationsOptions) : Z :=
  default ALERT_PAGINATION_DEFAULTS.DEFAULT_LIMIT (g_limit o).

(** All the notifications the query of [getUserNotifications] matches,
    newest first. *)
Definition inbox_listing (uid : string) (o : IGetNotificationsOptions)
    (ns : gmap string INotificationDocument) : list (string * INotificationDocument) :=
  merge_sort newest_first
    (matching_notifications
       (notification_matches uid (default false (g_unreadOnly o)) (g_type o)) ns).

(** The document the query starts after: the cursor's, when a cursor is
    given and names a stored document. *)
Definition cursor_start (o : IGetNotificationsOptions)
    (ns : gmap string INotificationDocument) : option (string * INotificationDocument) :=
  if truthy_opt (g_cursor o)
  then (fun n => (default "" (g_cursor o), n)) <$> ns !! default "" (g_cursor o)
  else None.

(** What of the listing lies behind the cursor. *)
Definition inbox_remaining (uid : string) (o : IGetNotificationsOptions)
    (ns : gmap string INotificationDocument) : list (string * INotificationDocument) :=
  List.filter (behind (cursor_start o ns)) (inbox_listing uid o ns).

(** The same query, continued from [cursor]. *)
Definition with_cursor (o : IGetNotificationsOptions) (cursor : string)
    : IGetNotificationsOptions :=
  {| g_limit := g_limit o; g_unreadOnly := g_unreadOnly o; g_type := g_type o;
     g_cursor := Some cursor |}.

(* ================================================================== *)
(** ** Sample data *)

Module Sample.

Definition token : string := "ExponentPushToken[bob-device]".

(** A host whose push service accepts every message. *)
Definition host : Host :=
  {| clock := fun k => 1700000000000 + Z.of_nat k;
     autoId := fun k =>
       match k with
       | O => "doc-0" | 1%nat => "doc-1" | 2%nat => "doc-2" | _ => "doc-n"
       end;
     expo := fun _ _ => Tickets [TicketOk "ticket-1"];
     isExpoPushToken := fun s => String.prefix "ExponentPushToken[" s;
     toLowerCase := fun s => s;
     trim := fun s => s |}.

(** The same host with a push service that answers every message with
    an error ticket. *)
Definition rejecting_host : Host :=
  {| clock := clock host; autoId := autoId host;
     expo := fun _ _ => Tickets [TicketError "DeviceNotRegistered"];
     isExpoPushToken := isExpoPushToken host;
     toLowerCase := toLowerCase host; trim := trim host |}.

(** The same host with a push service that cannot be reached: every call
    to it is rejected. *)
Definition unreachable_host : Host :=
  {| clock := clock host; autoId := autoId host;
     expo := fun _ _ => Rejected "connect ECONNREFUSED";
     isExpoPushToken := isExpoPushToken host;
     toLowerCase := toLowerCase host; trim := trim host |}.

Definition alice : TaskUser :=
  {| uid := "alice"; email := "alice@example.org"; name := "Alice" |}.
Definition bob : TaskUser :=
  {| uid := "bob"; email := "bob@example.org"; name := "Bob" |}.

Definition user_docs : list (string * FirebaseUser) :=
  [("alice", {| user_email := Some "alice@example.org"; user_name := Some "Alice";
                fcmToken := Some "ExponentPushToken[alice-device]" |});
   ("bob", {| user_email := Some "bob@example.org"; user_name := Some "Bob";
              fcmToken := Some token |});
   ("carol", {| user_email := Some "carol@example.org"; user_name := Some "Carol";
                fcmToken := None |})].

(** A task created by alice for bob, 30 minutes long. *)
Definition a_task (s : TaskStatus.t) (expires : Z) (extensions : Z) : TaskDocument :=
  {| title := "Bring the keys"; note := None; createdBy := alice; assignedTo := bob;
     status := s; assigneeReaction := None;
     urgency := {| expiresAt := expires; durationMinutes := 30 |};
     notification := {| sent := true; sentAt := Some 1699999000000; error := None |};
     createdAt := 1699999000000; updatedAt := 1699999000000;
     ttl := expires + TASK_TIME_MS.DEFAULT_TTL_AFTER_EXPIRY;
     extensionCount := Some extensions |}.

Definition world_with (d : TaskDocument) : World :=
  {| tasks := {[ "task-1" := d ]}; users := user_docs; notifications := ∅;
     journal := []; clock_reads := 0; ids_drawn := 0; push_calls := 0 |}.

Definition empty_world : World :=
  {| tasks := ∅; users := user_docs; notifications := ∅;
     journal := []; clock_reads := 0; ids_drawn := 0; push_calls := 0 |}.

Definition a_dto : CreateTaskDto :=
  {| dto_title := "Bring the keys"; dto_note := None; dto_durationMinutes := 30;
     assignToEmail := "bob@example.org" |}.

(** The assignment trigger of task-1 for [recipient]. *)
Definition a_trigger (recipient : string) : ISendPushNotificationParams :=
  {| p_taskId := "task-1"; p_recipientUid := recipient; p_senderUid := "alice";
     p_type := NotificationType.TASK_ASSIGNED; p_title := "New task from Alice";
     p_body := "Bring the keys"; p_dataType := "task_assigned" |}.

Definition later : Z := 1700000000000 + 600000.
Definition earlier : Z := 1700000000000 - 600000.

End Sample.

(** Sample notifications. *)
Module AlertSample.

(** A notification to [recipient], created at [created]. *)
Definition a_note (recipient : string) (created : Z) (read : bool) : INotificationDocument :=
  {| n_type := NotificationType.TASK_ASSIGNED; recipientUid := recipient;
     senderUid := "alice"; n_taskId := "task-1"; n_title := "New task from Alice";
     n_body := "Bring the keys";
     n_data := {| data_taskId := "task-1"; data_type := "task_assigned" |};
     n_status := if read then NotificationStatus.READ else NotificationStatus.SENT;
     isRead := read; n_createdAt := created; n_sentAt := Some created;
     readAt := if read then Some (created + 1000) else None;
     fcmMessageId := None; n_error := None |}.

Definition notes : gmap string INotificationDocument :=
  <[ "n-1" := a_note "bob" 1699999000000 false ]>
    (<[ "n-2" := a_note "bob" 1699999100000 true ]>
       (<[ "n-3" := a_note "bob" 1699999200000 false ]>
          (<[ "n-4" := a_note "carol" 1699999300000 false ]> ∅))).

Definition inbox : World := set_notifications notes Sample.empty_world.

End AlertSample.


(** Sample tasks. *)
Module TaskSample.

(** Three pending tasks of alice for bob; task-a and task-c have the
    same deadline, task-b a later one. *)
Definition three_tasks : gmap string TaskDocument :=
  <[ "task-a" := Sample.a_task TaskStatus.PENDING Sample.later 0 ]>
    (<[ "task-b" := Sample.a_task TaskStatus.PENDING (Sample.later + 1800000) 1 ]>
       (<[ "task-c" := Sample.a_task TaskStatus.PENDING Sample.later 0 ]> ∅)).

Definition board : World :=
  {| tasks := three_tasks; users := Sample.user_docs; notifications := ∅;
     journal := []; clock_reads := 0; ids_drawn := 0; push_calls := 0 |}.

End TaskSample.
(* ================================================================== *)
(** * Properties *)

(** ** Pagination metadata *)

Lemma math_ceil_div_floor (a b : Z) :
  0 < b -> math_ceil_div a b = - ((- a) / b).
Proof.
  intros Hb. destruct b as [|p|p]; try lia.
  unfold math_ceil_div, Qceiling, Qfloor, Qdiv, Qinv, Qmult, Qopp, inject_Z.
  simpl. rewrite Z.mul_1_r. reflexivity.
Qed.

(** [math_ceil_div a b] is the ceiling of a/b: the one integer k with
    (k-1)*b < a <= k*b. *)
Lemma math_ceil_div_bounds (a b : Z) :
  0 < b ->
  a <= math_ceil_div a b * b /\ (math_ceil_div a b - 1) * b < a.
Proof.
  intros Hb. rewrite math_ceil_div_floor by assumption.
  pose proof (Z.div_mod (- a) b ltac:(lia)) as Hdm.
  pose proof (Z.mod_pos_bound (- a) b Hb) as Hm.
  nia.
Qed.

Lemma math_ceil_div_unique (a b k : Z) :
  0 < b -> (k - 1) * b < a <= k * b -> math_ceil_div a b = k.
Proof.
  intros Hb Hk. destruct (math_ceil_div_bounds a b Hb) as [Hu Hl]. nia.
Qed.

(** C9. For integers page >= 1, pageSize >= 1 and totalItems >= 0, the
    metadata built by [buildPaginationMeta] has totalPages equal to the
    ceiling of totalItems / pageSize (the one integer k with
    (k-1)*pageSize < totalItems <= k*pageSize), hasPreviousPage exactly when
    page > 1, and hasNextPage, computed as page < totalPages, exactly when
    page * pageSize < totalItems. *)
Theorem pagination_meta_correct (total page limit : Z) :
  1 <= page -> 1 <= limit -> 0 <= total ->
  let m := buildPaginationMeta total page limit in
  ((totalPages m - 1) * limit < total <= totalPages m * limit) /\
  (forall k, (k - 1) * limit < total <= k * limit -> totalPages m = k) /\
  (hasPreviousPage m = true <-> page > 1) /\
  hasNextPage m = bool_decide (page < totalPages m) /\
  (hasNextPage m = true <-> page * limit < total) /\
  currentPage m = page /\ itemsPerPage m = limit /\ totalItems m = total.
Proof.
  intros Hp Hl Ht m. subst m.
  cbn [buildPaginationMeta totalPages hasNextPage hasPreviousPage
       currentPage itemsPerPage totalItems].
  assert (Hb : 0 < limit) by lia.
  destruct (math_ceil_div_bounds total limit Hb) as [Hu Hlow].
  repeat split; try assumption.
  - intros k Hk. by apply math_ceil_div_unique.
  - intros H. by apply bool_decide_eq_true in H.
  - intros H. by apply bool_decide_eq_true.
  - intros H. apply bool_decide_eq_true in H. nia.
  - intros H. apply bool_decide_eq_true. nia.
Qed.

Lemma pagination_meta_correct_witness :
  let m := buildPaginationMeta 41 2 20 in
  ((totalPages m - 1) * 20 < 41 <= totalPages m * 20) /\
  (forall k, (k - 1) * 20 < 41 <= k * 20 -> totalPages m = k) /\
  (hasPreviousPage m = true <-> 2 > 1) /\
  hasNextPage m = bool_decide (2 < totalPages m) /\
  (hasNextPage m = true <-> 2 * 20 < 41) /\
  currentPage m = 2 /\ itemsPerPage m = 20 /\ totalItems m = 41.
Proof. apply (pagination_meta_correct 41 2 20); lia. Defined.

(** ** How the task service methods run *)

Ltac run_monad :=
  unfold bind, ret, throw, when, tasks_get, attempt, try_catch; cbn.

Lemma transformToResponse_run (host : Host) (t : Task) (w : World) :
  exists resp,
    transformToResponse host t w = (Returned resp, after_clock_reads 2 w) /\
    r_id resp = id t /\
    r_status resp = status (doc t) /\
    r_assigneeReaction resp = assigneeReaction (doc t) /\
    r_expiresAt (r_urgency resp) = expiresAt (urgency (doc t)) /\
    r_notification resp = notification (doc t) /\
    r_updatedAt resp = updatedAt (doc t) /\
    r_extensionCount resp = default 0 (extensionCount (doc t)).
Proof.
  eexists. split; [reflexivity |]. cbn.
  destruct (notification (doc t)); repeat split; reflexivity.
Qed.

Opaque transformToResponse.

Lemma updateTaskStatus_run (host : Host) (w : World) (taskId : string) (d : TaskDocument)
    (new_status : TaskStatus.t) (userUid : option string) :
  tasks w !! taskId = Some d ->
  updateTaskStatus host taskId new_status userUid w =
  match status_update_denied d new_status userUid with
  | Some m => (Thrown (ForbiddenException m), w)
  | None =>
      if bool_decide (status d = TaskStatus.PENDING) then
        let now_ms := clock host (clock_reads w) in
        let us := [Set_status new_status; Set_updatedAt now_ms] in
        transformToResponse host
          {| id := taskId; doc := with_status d new_status now_ms |}
          (with_tasks (<[taskId := with_status d new_status now_ms]> (tasks w))
             (TaskUpdated taskId us) (after_clock_reads 1 w))
      else (Thrown (BadRequestException (terminal_reason (status d))), w)
  end.
Proof.
  intros Hd. unfold updateTaskStatus, status_update_denied. run_monad. rewrite Hd.
  destruct (status d) eqn:Es; destruct (truthy_opt userUid); cbn;
    repeat (case_bool_decide; cbn); try reflexivity; try congruence.
  all: unfold tasks_update; cbn; rewrite Hd; reflexivity.
Qed.

Transparent transformToResponse.

Lemma updateTaskStatus_absent (host : Host) (w : World) (taskId : string)
    (new_status : TaskStatus.t) (userUid : option string) :
  tasks w !! taskId = None ->
  updateTaskStatus host taskId new_status userUid w =
  (Thrown (NotFoundException TASK_ERROR_MESSAGES.TASK_NOT_FOUND), w).
Proof. intros Hd. unfold updateTaskStatus. run_monad. by rewrite Hd. Qed.

Lemma status_update_denied_cases (d : TaskDocument) (new_status : TaskStatus.t)
    (userUid : option string) (m : string) :
  status_update_denied d new_status userUid = Some m <->
  truthy_opt userUid = true /\
  ((new_status = TaskStatus.CANCELLED /\ Some (uid (createdBy d)) <> userUid /\
    m = TASK_ERROR_MESSAGES.ONLY_CREATOR_CAN_CANCEL) \/
   (new_status = TaskStatus.COMPLETED /\ Some (uid (assignedTo d)) <> userUid /\
    m = TASK_ERROR_MESSAGES.ONLY_ASSIGNEE_CAN_COMPLETE)).
Proof.
  unfold status_update_denied.
  destruct (truthy_opt userUid); cbn.
  2:{ split; [discriminate | intros [? _]; discriminate]. }
  repeat (case_bool_decide; cbn); split;
    try (intros [= <-]); try (intros [_ [(? & ? & ?) | (? & ? & ?)]]);
    subst; try congruence; try discriminate; auto 6.
Qed.

(** ** Terminal statuses *)

(** C1 (counterexample). On a completed task, a cancel request by a user
    who is not the creator fails with the authorization message, not with
    the sub-reason of the completed state; a reaction by a user who is not
    the assignee fails with the authorization message, not with the
    non-pending message. *)
Lemma terminal_rejection_reason_counterexample :
  let d := Sample.a_task TaskStatus.COMPLETED Sample.later 0 in
  let w := Sample.world_with d in
  let by_status :=
    fst (updateTaskStatus Sample.host "task-1" TaskStatus.CANCELLED (Some "carol") w) in
  let by_reaction :=
    fst (updateTaskReaction Sample.host "task-1" TaskReaction.ON_IT "carol" w) in
  tasks w !! "task-1" = Some d /\
  status d = TaskStatus.COMPLETED /\
  by_status = Thrown (ForbiddenException TASK_ERROR_MESSAGES.ONLY_CREATOR_CAN_CANCEL) /\
  (forall e, by_status = Thrown e ->
             error_message e <> TASK_ERROR_MESSAGES.ALREADY_COMPLETED) /\
  by_reaction = Thrown (ForbiddenException TASK_ERROR_MESSAGES.ONLY_ASSIGNEE_CAN_REACT) /\
  (forall e, by_reaction = Thrown e ->
             error_message e <> TASK_ERROR_MESSAGES.CANNOT_REACT).
Proof.
  repeat split; try (vm_compute; reflexivity).
  - intros e He. vm_compute in He. inversion He; subst. vm_compute. discriminate.
  - intros e He. vm_compute in He. inversion He; subst. vm_compute. discriminate.
Qed.

(** C1 (amended). For a task whose stored status is completed, cancelled
    or expired, every [updateTaskStatus] call fails and leaves the world as
    it was: with the Forbidden message of the authorization block when that
    block rejects the requester, and otherwise with the sub-reason of the
    stored state.  Every [updateTaskReaction] call fails and leaves the
    world as it was: with Forbidden for a requester who is not the
    assignee, and otherwise with the non-pending message.  So the three
    states are absorbing, and a call that returns found the task pending. *)
Theorem terminal_states_absorbing (host : Host) (w : World) (taskId : string)
    (d : TaskDocument) :
  tasks w !! taskId = Some d ->
  status d <> TaskStatus.PENDING ->
  (forall new_status userUid,
      updateTaskStatus host taskId new_status userUid w =
      (Thrown (match status_update_denied d new_status userUid with
               | Some m => ForbiddenException m
               | None => BadRequestException (terminal_reason (status d))
               end), w)) /\
  (forall reaction userUid,
      updateTaskReaction host taskId reaction userUid w =
      (Thrown (if bool_decide (uid (assignedTo d) = userUid)
               then BadRequestException TASK_ERROR_MESSAGES.CANNOT_REACT
               else ForbiddenException TASK_ERROR_MESSAGES.ONLY_ASSIGNEE_CAN_REACT), w)).
Proof.
  intros Hd Hs. split.
  - intros new_status userUid.
    unfold updateTaskStatus, status_update_denied. run_monad. rewrite Hd.
    destruct (status d) eqn:Es; [congruence | ..];
      destruct (truthy_opt userUid); cbn;
      repeat (case_bool_decide; cbn); reflexivity || congruence.
  - intros reaction userUid.
    unfold updateTaskReaction. run_monad. rewrite Hd.
    repeat (case_bool_decide; cbn); reflexivity || congruence.
Qed.

Lemma terminal_states_absorbing_witness :
  let d := Sample.a_task TaskStatus.EXPIRED Sample.earlier 1 in
  let w := Sample.world_with d in
  (forall new_status userUid,
      updateTaskStatus Sample.host "task-1" new_status userUid w =
      (Thrown (match status_update_denied d new_status userUid with
               | Some m => ForbiddenException m
               | None => BadRequestException (terminal_reason (status d))
               end), w)) /\
  (forall reaction userUid,
      updateTaskReaction Sample.host "task-1" reaction userUid w =
      (Thrown (if bool_decide (uid (assignedTo d) = userUid)
               then BadRequestException TASK_ERROR_MESSAGES.CANNOT_REACT
               else ForbiddenException TASK_ERROR_MESSAGES.ONLY_ASSIGNEE_CAN_REACT), w)).
Proof.
  apply (terminal_states_absorbing Sample.host
           (Sample.world_with (Sample.a_task TaskStatus.EXPIRED Sample.earlier 1))
           "task-1" (Sample.a_task TaskStatus.EXPIRED Sample.earlier 1)).
  - vm_compute. reflexivity.
  - simpl. discriminate.
Defined.

(** ** Authorization of status updates *)

(** C10. [updateTaskStatus] raises Forbidden in exactly two cases: a
    requester is supplied and the target status is cancelled with the
    requester not the creator, or the target status is completed with the
    requester not the assignee.  For the target statuses expired and pending
    no membership check is made: whoever the authenticated user is (so also
    a user who is neither creator nor assignee), the status endpoint
    [TaskController.updateTaskStatus] succeeds on a pending task and stores
    the requested status. *)
Theorem status_update_forbidden_exactly (host : Host) (w : World) (taskId : string)
    (new_status : TaskStatus.t) (userUid : option string) :
  (forall m,
      fst (updateTaskStatus host taskId new_status userUid w) = Thrown (ForbiddenException m)
      <->
      exists d, tasks w !! taskId = Some d /\ truthy_opt userUid = true /\
        ((new_status = TaskStatus.CANCELLED /\ Some (uid (createdBy d)) <> userUid /\
          m = TASK_ERROR_MESSAGES.ONLY_CREATOR_CAN_CANCEL) \/
         (new_status = TaskStatus.COMPLETED /\ Some (uid (assignedTo d)) <> userUid /\
          m = TASK_ERROR_MESSAGES.ONLY_ASSIGNEE_CAN_COMPLETE))) /\
  (forall d user_uid,
      tasks w !! taskId = Some d ->
      status d = TaskStatus.PENDING ->
      new_status = TaskStatus.EXPIRED \/ new_status = TaskStatus.PENDING ->
      exists resp w',
        TaskController_updateTaskStatus host taskId new_status user_uid w =
          (Returned {| task := resp; api_message := TASK_SUCCESS_MESSAGES.STATUS_UPDATED |}, w') /\
        r_status resp = new_status /\
        tasks w' !! taskId =
          Some (with_status d new_status (clock host (clock_reads w)))).
Proof.
  split.
  - intros m. destruct (tasks w !! taskId) as [d|] eqn:Hd.
    2:{ rewrite updateTaskStatus_absent by assumption. cbn.
        split; [discriminate | intros (d & Hd' & _); discriminate]. }
    rewrite (updateTaskStatus_run _ _ _ d) by assumption.
    pose proof (status_update_denied_cases d new_status userUid) as Hc.
    destruct (status_update_denied d new_status userUid) as [m'|] eqn:Hden.
    + cbn. split.
      * intros [= <-]. exists d. split; [reflexivity |]. by apply Hc.
      * intros (d' & [= <-] & Hrest). apply Hc in Hrest. congruence.
    + split.
      * intros H. exfalso. case_bool_decide; [| discriminate]. cbv zeta in H.
        match type of H with
        | context [transformToResponse host ?t ?w1] =>
            destruct (transformToResponse_run host t w1) as (resp & Hrun & _)
        end.
        rewrite Hrun in H. discriminate.
      * intros (d' & [= <-] & Hrest). apply Hc in Hrest. discriminate.
  - intros d user_uid Hd Hs Hnew.
    unfold TaskController_updateTaskStatus, bind.
    rewrite (updateTaskStatus_run _ _ _ d) by assumption.
    assert (Hden : status_update_denied d new_status (Some user_uid) = None).
    { unfold status_update_denied. destruct Hnew as [-> | ->]; cbn;
        by destruct (truthy user_uid). }
    rewrite Hden, bool_decide_eq_true_2 by assumption. cbv zeta.
    match goal with
    | |- context [transformToResponse host ?t ?w1] =>
        destruct (transformToResponse_run host t w1) as (resp & Hrun & _ & Hst & _)
    end.
    rewrite Hrun. exists resp. eexists. split; [reflexivity |].
    split; [exact Hst |]. cbn. apply lookup_insert_eq.
Qed.

Lemma status_update_forbidden_exactly_witness :
  let d := Sample.a_task TaskStatus.PENDING Sample.later 0 in
  let w := Sample.world_with d in
  exists resp w',
    TaskController_updateTaskStatus Sample.host "task-1" TaskStatus.EXPIRED "carol" w =
      (Returned {| task := resp; api_message := TASK_SUCCESS_MESSAGES.STATUS_UPDATED |}, w') /\
    r_status resp = TaskStatus.EXPIRED /\
    tasks w' !! "task-1" =
      Some (with_status d TaskStatus.EXPIRED (clock Sample.host (clock_reads w))).
Proof.
  apply (proj2 (status_update_forbidden_exactly Sample.host
                  (Sample.world_with (Sample.a_task TaskStatus.PENDING Sample.later 0))
                  "task-1" TaskStatus.EXPIRED (Some "carol"))
               (Sample.a_task TaskStatus.PENDING Sample.later 0) "carol").
  - vm_compute. reflexivity.
  - reflexivity.
  - left. reflexivity.
Defined.

(** ** The dispatch coordinator never writes to tasks or users *)

Section Frame.
Context {A B : Type}.

Lemma keeps_tasks_ret (a : A) : keeps_tasks (ret a).
Proof. intros w. cbn. repeat split. exists []. by rewrite app_nil_r. Qed.

Lemma keeps_tasks_throw (e : Exception) : keeps_tasks (@throw A e).
Proof. intros w. cbn. repeat split. exists []. by rewrite app_nil_r. Qed.

Lemma keeps_tasks_bind (m : M A) (k : A -> M B) :
  keeps_tasks m -> (forall a, keeps_tasks (k a)) -> keeps_tasks (bind m k).
Proof.
  intros Hm Hk w. unfold bind. specialize (Hm w).
  destruct (m w) as [[a|e] w1]; cbn in *.
  - destruct Hm as (<- & <- & l1 & Hl1).
    destruct (Hk a w1) as (-> & -> & l2 & ->).
    repeat split. exists (l1 ++ l2). by rewrite Hl1, app_assoc.
  - exact Hm.
Qed.

Lemma keeps_tasks_try_catch (m : M A) (h : Exception -> M A) :
  keeps_tasks m -> (forall e, keeps_tasks (h e)) -> keeps_tasks (try_catch m h).
Proof.
  intros Hm Hh w. unfold try_catch. specialize (Hm w).
  destruct (m w) as [[a|e] w1]; cbn in *.
  - exact Hm.
  - destruct Hm as (<- & <- & l1 & Hl1).
    destruct (Hh e w1) as (-> & -> & l2 & ->).
    repeat split. exists (l1 ++ l2). by rewrite Hl1, app_assoc.
Qed.
End Frame.

Section AlertFrame.
Variable host : Host.

Lemma keeps_tasks_now : keeps_tasks (now host).
Proof. intros w. cbn. repeat split. exists []. by rewrite app_nil_r. Qed.

Lemma keeps_tasks_users_get u : keeps_tasks (users_get u).
Proof. intros w. cbn. repeat split. exists []. by rewrite app_nil_r. Qed.

Lemma keeps_tasks_notifications_add n : keeps_tasks (notifications_add host n).
Proof. intros w. cbn. repeat split. by eexists. Qed.

Lemma keeps_tasks_notifications_update ref us : keeps_tasks (notifications_update ref us).
Proof.
  intros w. unfold notifications_update.
  destruct (notifications w !! ref); cbn; repeat split.
  - by eexists.
  - exists []. by rewrite app_nil_r.
Qed.

Lemma keeps_tasks_push chunk : keeps_tasks (sendPushNotificationsAsync host chunk).
Proof.
  intros w. unfold sendPushNotificationsAsync.
  destruct (expo host _ _); cbn; repeat split; by eexists.
Qed.

Lemma keeps_tasks_check taskId r ty : keeps_tasks (checkExistingNotification taskId r ty).
Proof. intros w. cbn. repeat split. exists []. by rewrite app_nil_r. Qed.

Lemma keeps_tasks_send_chunks chunks tickets : keeps_tasks (send_chunks host chunks tickets).
Proof.
  revert tickets. induction chunks as [|c rest IH]; intros tickets; cbn.
  - apply keeps_tasks_ret.
  - apply keeps_tasks_bind; [apply keeps_tasks_push | intros ts; apply IH].
Qed.

Ltac frame :=
  repeat first
    [ apply keeps_tasks_ret | apply keeps_tasks_throw | apply keeps_tasks_now
    | apply keeps_tasks_users_get | apply keeps_tasks_notifications_add
    | apply keeps_tasks_notifications_update | apply keeps_tasks_check
    | apply keeps_tasks_send_chunks
    | apply keeps_tasks_bind; [| intros ?]
    | apply keeps_tasks_try_catch; [| intros ?]
    | match goal with
      | |- keeps_tasks (if ?b then _ else _) => destruct b
      | |- keeps_tasks (match ?x with _ => _ end) => destruct x
      end ].

Lemma keeps_tasks_sendPushNotification params : keeps_tasks (sendPushNotification host params).
Proof.
  unfold sendPushNotification, createNotificationRecord, getUser,
    updateNotificationStatus, sendExpoNotification.
  frame.
Qed.

Lemma keeps_tasks_reaction_notification taskId c a an tt r :
  keeps_tasks (sendTaskReactionNotification host taskId c a an tt r).
Proof. apply keeps_tasks_sendPushNotification. Qed.

Lemma keeps_tasks_assignment_notification taskId a c cn tt :
  keeps_tasks (sendTaskAssignmentNotification host taskId a c cn tt).
Proof. apply keeps_tasks_sendPushNotification. Qed.
End AlertFrame.


(** ** Reactions and the extension limit *)

Opaque transformToResponse sendTaskReactionNotification.

Ltac swallow_notification :=
  match goal with
  | |- _ = _ (snd (?f ?w1)) =>
      match goal with
      | |- context [f ?w1'] =>
          change w1 with w1'; destruct (f w1') as [[[]|?] ?]; reflexivity
      end
  end.

Lemma updateTaskReaction_run (host : Host) (w : World) (taskId : string) (d : TaskDocument)
    (reaction : TaskReaction.t) (userUid : string) :
  tasks w !! taskId = Some d ->
  updateTaskReaction host taskId reaction userUid w =
  if bool_decide (uid (assignedTo d) ≠ userUid) then
    (Thrown (ForbiddenException TASK_ERROR_MESSAGES.ONLY_ASSIGNEE_CAN_REACT), w)
  else if bool_decide (status d ≠ TaskStatus.PENDING) then
    (Thrown (BadRequestException TASK_ERROR_MESSAGES.CANNOT_REACT), w)
  else if limit_reached d reaction then
    (Thrown (BadRequestException TASK_ERROR_MESSAGES.MAX_EXTENSIONS), after_clock_reads 1 w)
  else
    let now_ms := clock host (clock_reads w) in
    let us := reaction_update d reaction now_ms in
    let w1 := with_tasks (<[taskId := apply_task_update us d]> (tasks w))
                (TaskUpdated taskId us) (after_clock_reads 1 w) in
    let w2 := snd (sendTaskReactionNotification host taskId (uid (createdBy d))
                     (uid (assignedTo d)) (name (assignedTo d)) (title d)
                     (TaskReaction.value reaction) w1) in
    transformToResponse host
      {| id := taskId;
         doc := with_reaction d reaction now_ms
                  (if bool_decide (reaction = TaskReaction.RUNNING_LATE)
                   then expiresAt (urgency d) + TASK_TIME_MS.RUNNING_LATE_EXTENSION
                   else expiresAt (urgency d))
                  (if bool_decide (reaction = TaskReaction.RUNNING_LATE)
                   then default 0 (extensionCount d) + 1
                   else default 0 (extensionCount d)) |}
      w2.
Proof.
  intros Hd. unfold updateTaskReaction, limit_reached, reaction_update. run_monad.
  rewrite Hd.
  case_bool_decide; cbn; [reflexivity |].
  case_bool_decide; cbn; [reflexivity |].
  case_bool_decide; cbn.
  - case_bool_decide; cbn; [reflexivity |].
    unfold tasks_update; cbn. rewrite Hd.
    swallow_notification.
  - unfold tasks_update; cbn. rewrite Hd.
    swallow_notification.
Qed.

Transparent transformToResponse sendTaskReactionNotification.

Lemma updateTaskReaction_limit (host : Host) (w : World) (taskId : string)
    (d : TaskDocument) :
  tasks w !! taskId = Some d ->
  status d = TaskStatus.PENDING ->
  default 0 (extensionCount d) >= 3 ->
  updateTaskReaction host taskId TaskReaction.RUNNING_LATE (uid (assignedTo d)) w =
  (Thrown (BadRequestException TASK_ERROR_MESSAGES.MAX_EXTENSIONS), after_clock_reads 1 w).
Proof.
  intros Hd Hs Hn.
  rewrite (updateTaskReaction_run _ _ _ d) by assumption.
  rewrite bool_decide_eq_false_2 by (intros H; by apply H).
  rewrite bool_decide_eq_false_2 by (intros H; by apply H).
  unfold limit_reached.
  by rewrite !bool_decide_eq_true_2 by (reflexivity || exact Hn).
Qed.

Lemma updateTaskReaction_accepted (host : Host) (w : World) (taskId : string)
    (d : TaskDocument) (reaction : TaskReaction.t) :
  tasks w !! taskId = Some d ->
  status d = TaskStatus.PENDING ->
  limit_reached d reaction = false ->
  exists resp w',
    updateTaskReaction host taskId reaction (uid (assignedTo d)) w = (Returned resp, w') /\
    tasks w' =
      <[taskId := apply_task_update
                    (reaction_update d reaction (clock host (clock_reads w))) d]> (tasks w) /\
    users w' = users w /\
    r_status resp = TaskStatus.PENDING /\
    r_assigneeReaction resp = Some reaction /\
    r_expiresAt (r_urgency resp) =
      (if bool_decide (reaction = TaskReaction.RUNNING_LATE)
       then expiresAt (urgency d) + TASK_TIME_MS.RUNNING_LATE_EXTENSION
       else expiresAt (urgency d)) /\
    r_extensionCount resp =
      (if bool_decide (reaction = TaskReaction.RUNNING_LATE)
       then default 0 (extensionCount d) + 1
       else default 0 (extensionCount d)).
Proof.
  intros Hd Hs Hlim.
  rewrite (updateTaskReaction_run _ _ _ d) by assumption.
  rewrite bool_decide_eq_false_2 by (intros H; by apply H).
  rewrite bool_decide_eq_false_2 by (intros H; by apply H).
  rewrite Hlim. cbv zeta.
  match goal with
  | |- context [transformToResponse host ?t ?w2] =>
      destruct (transformToResponse_run host t w2)
        as (resp & Hrun & _ & Hst & Hre & Hex & _ & _ & Hcnt)
  end.
  exists resp. eexists. split; [exact Hrun |].
  cbn [after_clock_reads tasks users].
  match goal with
  | |- context [sendTaskReactionNotification ?h ?a ?b ?c ?e ?f ?g ?w1] =>
      destruct (keeps_tasks_reaction_notification h a b c e f g w1) as (Ht & Hu & _)
  end.
  rewrite Ht, Hu. cbn in Hst, Hre, Hex, Hcnt.
  repeat split; try assumption. congruence.
Qed.

Lemma running_late_update_fields (d : TaskDocument) (now_ms : Z) :
  let d' := apply_task_update (reaction_update d TaskReaction.RUNNING_LATE now_ms) d in
  expiresAt (urgency d') = expiresAt (urgency d) + 30 * 60 * 1000 /\
  ttl d' = expiresAt (urgency d') + 7 * 24 * 60 * 60 * 1000 /\
  extensionCount d' = Some (default 0 (extensionCount d) + 1) /\
  status d' = status d /\
  assigneeReaction d' = Some TaskReaction.RUNNING_LATE /\
  updatedAt d' = now_ms /\
  assignedTo d' = assignedTo d /\
  createdBy d' = createdBy d.
Proof. cbn. repeat split; reflexivity. Qed.

Lemma running_late_times_run (host : Host) (taskId : string) (n : nat) :
  forall (w : World) (d : TaskDocument),
    tasks w !! taskId = Some d ->
    status d = TaskStatus.PENDING ->
    default 0 (extensionCount d) + Z.of_nat n <= 3 ->
    exists w' d',
      running_late_times host taskId (uid (assignedTo d)) n w = (Returned tt, w') /\
      tasks w' !! taskId = Some d' /\
      status d' = TaskStatus.PENDING /\
      assignedTo d' = assignedTo d /\
      default 0 (extensionCount d') = default 0 (extensionCount d) + Z.of_nat n /\
      expiresAt (urgency d') =
        expiresAt (urgency d) + Z.of_nat n * TASK_TIME_MS.RUNNING_LATE_EXTENSION.
Proof.
  induction n as [|n IH]; intros w d Hd Hs Hn.
  - exists w, d. cbn. repeat split; try assumption; lia.
  - assert (Hlim : limit_reached d TaskReaction.RUNNING_LATE = false).
    { unfold limit_reached. rewrite bool_decide_eq_true_2 by reflexivity. cbn.
      apply bool_decide_eq_false_2. unfold TASK_TIME_MINUTES.MAX_EXTENSIONS. lia. }
    destruct (updateTaskReaction_accepted host w taskId d _ Hd Hs Hlim)
      as (resp & w1 & Hrun & Ht & _).
    destruct (running_late_update_fields d (clock host (clock_reads w)))
      as (Hex & _ & Hcnt & Hst & _ & _ & Has & _).
    set (d1 := apply_task_update
                 (reaction_update d TaskReaction.RUNNING_LATE (clock host (clock_reads w))) d)
      in *.
    assert (Hd1 : tasks w1 !! taskId = Some d1) by (rewrite Ht; apply lookup_insert_eq).
    destruct (IH w1 d1 Hd1) as (w' & d' & Hrun' & Hd' & Hs' & Has' & Hcnt' & Hex').
    { congruence. }
    { rewrite Hcnt. cbn. lia. }
    exists w', d'. cbn [running_late_times]. unfold bind. rewrite Hrun.
    rewrite <- Has. split; [exact Hrun' |].
    split; [exact Hd' |]. split; [exact Hs' |]. split; [congruence |].
    rewrite Hcnt', Hex', Hcnt, Hex. cbn [default from_option Datatypes.id].
    unfold TASK_TIME_MS.RUNNING_LATE_EXTENSION. split; lia.
Qed.

(** C3. A running-late reaction by the assignee on a pending task whose
    extension count is 3 or more throws the max-extensions BadRequest (the
    spec's LimitExceeded) before any write: the task, user and notification
    collections are as before, nothing was written to the store or handed
    to the push service, and the task document is the one stored before. *)
Theorem extension_limit_rejected_before_any_write (host : Host) (w : World)
    (taskId : string) (d : TaskDocument) :
  tasks w !! taskId = Some d ->
  status d = TaskStatus.PENDING ->
  default 0 (extensionCount d) >= 3 ->
  exists w',
    updateTaskReaction host taskId TaskReaction.RUNNING_LATE (uid (assignedTo d)) w =
      (Thrown (BadRequestException TASK_ERROR_MESSAGES.MAX_EXTENSIONS), w') /\
    tasks w' = tasks w /\
    notifications w' = notifications w /\
    journal w' = journal w /\
    push_calls w' = push_calls w /\
    users w' = users w /\
    tasks w' !! taskId = Some d.
Proof.
  intros Hd Hs Hn. exists (after_clock_reads 1 w).
  rewrite updateTaskReaction_limit by assumption.
  cbn. repeat split; try reflexivity. exact Hd.
Qed.

Lemma extension_limit_rejected_before_any_write_witness :
  let d := Sample.a_task TaskStatus.PENDING Sample.later 3 in
  let w := Sample.world_with d in
  exists w',
    updateTaskReaction Sample.host "task-1" TaskReaction.RUNNING_LATE (uid (assignedTo d)) w =
      (Thrown (BadRequestException TASK_ERROR_MESSAGES.MAX_EXTENSIONS), w') /\
    tasks w' = tasks w /\
    notifications w' = notifications w /\
    journal w' = journal w /\
    push_calls w' = push_calls w /\
    users w' = users w /\
    tasks w' !! "task-1" = Some d.
Proof.
  apply (extension_limit_rejected_before_any_write Sample.host
           (Sample.world_with (Sample.a_task TaskStatus.PENDING Sample.later 3))
           "task-1" (Sample.a_task TaskStatus.PENDING Sample.later 3)).
  - vm_compute. reflexivity.
  - reflexivity.
  - simpl. lia.
Defined.

(** C2. For a pending task with extensionCount = N, a running-late
    reaction by the assignee: if N < 3 it succeeds, the stored expiresAt is
    the previous one plus 30 minutes, the stored ttl is the new expiresAt
    plus 7 days and the stored extensionCount is N + 1; if N = 3 it fails
    with the max-extensions BadRequest (the spec's LimitExceeded).  Hence,
    starting from extensionCount 0, n <= 3 running-late reactions are all
    accepted and leave extensionCount = n, and the attempt after the third
    fails. *)
Theorem running_late_extension (host : Host) (w : World) (taskId : string)
    (d : TaskDocument) (N : Z) :
  tasks w !! taskId = Some d ->
  status d = TaskStatus.PENDING ->
  extensionCount d = Some N ->
  let userUid := uid (assignedTo d) in
  let call := updateTaskReaction host taskId TaskReaction.RUNNING_LATE userUid w in
  (N < 3 ->
   exists resp w' d',
     call = (Returned resp, w') /\
     tasks w' !! taskId = Some d' /\
     expiresAt (urgency d') = expiresAt (urgency d) + 30 * 60 * 1000 /\
     ttl d' = expiresAt (urgency d') + 7 * 24 * 60 * 60 * 1000 /\
     extensionCount d' = Some (N + 1) /\
     status d' = TaskStatus.PENDING /\
     r_extensionCount resp = N + 1 /\
     r_expiresAt (r_urgency resp) = expiresAt (urgency d) + 30 * 60 * 1000) /\
  (N = 3 -> fst call = Thrown (BadRequestException TASK_ERROR_MESSAGES.MAX_EXTENSIONS)) /\
  (N = 0 ->
   forall n : nat, (n <= 3)%nat ->
     exists w' d',
       running_late_times host taskId userUid n w = (Returned tt, w') /\
       tasks w' !! taskId = Some d' /\
       default 0 (extensionCount d') = Z.of_nat n /\
       (n = 3%nat ->
        fst (updateTaskReaction host taskId TaskReaction.RUNNING_LATE userUid w') =
        Thrown (BadRequestException TASK_ERROR_MESSAGES.MAX_EXTENSIONS))).
Proof.
  intros Hd Hs HN userUid call. subst userUid call.
  assert (Hdef : default 0 (extensionCount d) = N) by (by rewrite HN).
  split; [| split].
  - intros Hlt.
    assert (Hlim : limit_reached d TaskReaction.RUNNING_LATE = false).
    { unfold limit_reached. rewrite bool_decide_eq_true_2 by reflexivity. cbn.
      apply bool_decide_eq_false_2. unfold TASK_TIME_MINUTES.MAX_EXTENSIONS. lia. }
    destruct (updateTaskReaction_accepted host w taskId d _ Hd Hs Hlim)
      as (resp & w1 & Hrun & Ht & _ & _ & _ & Hex & Hcnt).
    destruct (running_late_update_fields d (clock host (clock_reads w)))
      as (Hex' & Httl & Hcnt' & Hst & _).
    exists resp, w1. eexists. split; [exact Hrun |].
    split; [rewrite Ht; apply lookup_insert_eq |].
    rewrite bool_decide_eq_true_2 in Hex, Hcnt by reflexivity.
    rewrite Hdef in *. unfold TASK_TIME_MS.RUNNING_LATE_EXTENSION in Hex.
    repeat split; try assumption; congruence.
  - intros ->.
    rewrite updateTaskReaction_limit; [reflexivity | assumption .. |].
    rewrite Hdef. lia.
  - intros -> n Hn.
    destruct (running_late_times_run host taskId n w d Hd Hs)
      as (w' & d' & Hrun & Hd' & Hs' & Has' & Hcnt' & _).
    { rewrite Hdef. lia. }
    exists w', d'. split; [exact Hrun |]. split; [exact Hd' |].
    split; [rewrite Hcnt', Hdef; lia |].
    intros ->. rewrite <- Has'.
    rewrite updateTaskReaction_limit; [reflexivity | assumption .. |].
    rewrite Hcnt', Hdef. lia.
Qed.

Lemma running_late_extension_witness :
  let d := Sample.a_task TaskStatus.PENDING Sample.later 0 in
  let w := Sample.world_with d in
  (exists resp w' d',
     updateTaskReaction Sample.host "task-1" TaskReaction.RUNNING_LATE "bob" w =
       (Returned resp, w') /\
     tasks w' !! "task-1" = Some d' /\
     expiresAt (urgency d') = expiresAt (urgency d) + 30 * 60 * 1000 /\
     ttl d' = expiresAt (urgency d') + 7 * 24 * 60 * 60 * 1000 /\
     extensionCount d' = Some (0 + 1) /\
     status d' = TaskStatus.PENDING /\
     r_extensionCount resp = 0 + 1 /\
     r_expiresAt (r_urgency resp) = expiresAt (urgency d) + 30 * 60 * 1000) /\
  (forall n : nat, (n <= 3)%nat ->
     exists w' d',
       running_late_times Sample.host "task-1" "bob" n w = (Returned tt, w') /\
       tasks w' !! "task-1" = Some d' /\
       default 0 (extensionCount d') = Z.of_nat n /\
       (n = 3%nat ->
        fst (updateTaskReaction Sample.host "task-1" TaskReaction.RUNNING_LATE "bob" w') =
        Thrown (BadRequestException TASK_ERROR_MESSAGES.MAX_EXTENSIONS))).
Proof.
  destruct (running_late_extension Sample.host
              (Sample.world_with (Sample.a_task TaskStatus.PENDING Sample.later 0))
              "task-1" (Sample.a_task TaskStatus.PENDING Sample.later 0) 0)
    as (Hstep & _ & Hall).
  - vm_compute. reflexivity.
  - reflexivity.
  - reflexivity.
  - split; [apply Hstep; lia | apply Hall; reflexivity].
Defined.

(** ** Lazy expiry on read *)

Opaque transformToResponse.

Lemma getTaskById_run (host : Host) (w : World) (taskId userUid : string)
    (d : TaskDocument) :
  tasks w !! taskId = Some d ->
  getTaskById host taskId userUid w =
  if bool_decide (uid (createdBy d) ≠ userUid) && bool_decide (uid (assignedTo d) ≠ userUid)
  then (Thrown (ForbiddenException TASK_ERROR_MESSAGES.ACCESS_DENIED), w)
  else if bool_decide (status d = TaskStatus.PENDING) then
    if bool_decide (expiresAt (urgency d) <= clock host (clock_reads w)) then
      let now_ms := clock host (S (clock_reads w)) in
      let us := [Set_status TaskStatus.EXPIRED; Set_updatedAt now_ms] in
      transformToResponse host
        {| id := taskId; doc := with_status d TaskStatus.EXPIRED now_ms |}
        (with_tasks (<[taskId := with_status d TaskStatus.EXPIRED now_ms]> (tasks w))
           (TaskUpdated taskId us) (after_clock_reads 2 w))
    else transformToResponse host {| id := taskId; doc := d |} (after_clock_reads 1 w)
  else transformToResponse host {| id := taskId; doc := d |} w.
Proof.
  intros Hd. unfold getTaskById, getAuthorizedTask, isExpired. run_monad. rewrite Hd.
  destruct (bool_decide (uid (createdBy d) ≠ userUid)
            && bool_decide (uid (assignedTo d) ≠ userUid)); cbn; [reflexivity |].
  case_bool_decide; cbn; [| reflexivity].
  case_bool_decide; cbn; [| reflexivity].
  unfold tasks_update; cbn. rewrite Hd. reflexivity.
Qed.

Transparent transformToResponse.

(** C4. A read by the creator or the assignee returns.  If the stored
    status is pending and the expiry instant is at or before the clock
    reading of the check, the returned status is expired and the read writes
    status = expired and updatedAt = now (the next clock reading) to the
    task document.  If the stored status is not pending, or the expiry is
    still after the clock reading, the stored status is returned and the
    read writes nothing. *)
Theorem lazy_expiry_on_read (host : Host) (w : World) (taskId userUid : string)
    (d : TaskDocument) :
  tasks w !! taskId = Some d ->
  uid (createdBy d) = userUid \/ uid (assignedTo d) = userUid ->
  let checked_at := clock host (clock_reads w) in
  let now_ms := clock host (S (clock_reads w)) in
  exists resp w',
    getTaskById host taskId userUid w = (Returned resp, w') /\
    (status d = TaskStatus.PENDING -> expiresAt (urgency d) <= checked_at ->
       r_status resp = TaskStatus.EXPIRED /\
       r_updatedAt resp = now_ms /\
       tasks w' = <[taskId := with_status d TaskStatus.EXPIRED now_ms]> (tasks w) /\
       journal w' =
         journal w ++ [TaskUpdated taskId [Set_status TaskStatus.EXPIRED;
                                           Set_updatedAt now_ms]]) /\
    (status d <> TaskStatus.PENDING \/ checked_at < expiresAt (urgency d) ->
       r_status resp = status d /\
       tasks w' = tasks w /\
       journal w' = journal w).
Proof.
  intros Hd Hauth checked_at now_ms. subst checked_at now_ms.
  rewrite (getTaskById_run _ _ _ _ d) by assumption.
  assert (Hok : bool_decide (uid (createdBy d) ≠ userUid)
                && bool_decide (uid (assignedTo d) ≠ userUid) = false).
  { destruct Hauth as [H | H].
    - rewrite (bool_decide_eq_false_2 _ (fun Hne => Hne H)). reflexivity.
    - rewrite (bool_decide_eq_false_2 (uid (assignedTo d) ≠ userUid) (fun Hne => Hne H)).
      apply andb_false_r. }
  rewrite Hok.
  repeat case_bool_decide; cbv zeta;
    match goal with
    | |- context [transformToResponse host ?t ?w1] =>
        destruct (transformToResponse_run host t w1)
          as (resp & Hrun & _ & Hst & _ & _ & _ & Hup & _)
    end;
    rewrite Hrun; exists resp; eexists; (split; [reflexivity |]);
    cbn in Hst, Hup; cbn; split.
  all: try (intros ? ?; repeat split; (assumption || reflexivity || lia || congruence)).
  all: try (intros [? | ?]; repeat split; (assumption || reflexivity || lia || congruence)).
Qed.

Lemma lazy_expiry_on_read_witness :
  let d := Sample.a_task TaskStatus.PENDING Sample.earlier 0 in
  let w := Sample.world_with d in
  let checked_at := clock Sample.host (clock_reads w) in
  let now_ms := clock Sample.host (S (clock_reads w)) in
  exists resp w',
    getTaskById Sample.host "task-1" "bob" w = (Returned resp, w') /\
    (status d = TaskStatus.PENDING -> expiresAt (urgency d) <= checked_at ->
       r_status resp = TaskStatus.EXPIRED /\
       r_updatedAt resp = now_ms /\
       tasks w' = <[ "task-1" := with_status d TaskStatus.EXPIRED now_ms]> (tasks w) /\
       journal w' =
         journal w ++ [TaskUpdated "task-1" [Set_status TaskStatus.EXPIRED;
                                             Set_updatedAt now_ms]]) /\
    (status d <> TaskStatus.PENDING \/ checked_at < expiresAt (urgency d) ->
       r_status resp = status d /\
       tasks w' = tasks w /\
       journal w' = journal w).
Proof.
  apply (lazy_expiry_on_read Sample.host
           (Sample.world_with (Sample.a_task TaskStatus.PENDING Sample.earlier 0))
           "task-1" "bob" (Sample.a_task TaskStatus.PENDING Sample.earlier 0)).
  - vm_compute. reflexivity.
  - right. reflexivity.
Defined.

(** ** Creation *)

Opaque transformToResponse sendTaskAssignmentNotification.

Lemma createTask_rejected (host : Host) (dto : CreateTaskDto) (creatorUid : string)
    (w : World) :
  create_lookups host dto creatorUid w = None ->
  exists e, createTask host dto creatorUid w = (Thrown e, w).
Proof.
  unfold create_lookups, createTask, getTaskUser, findUserByEmail, users_get,
    users_where_email.
  run_monad.
  destruct (user_doc (users w) creatorUid) as [cu|]; cbn; [| by eexists].
  destruct (user_by_email (users w) _) as [[aid au]|]; cbn; [| by eexists].
  case_bool_decide; [by eexists | discriminate].
Qed.

Lemma createTask_run (host : Host) (dto : CreateTaskDto) (creatorUid : string)
    (w : World) (creator assignee : TaskUser) :
  create_lookups host dto creatorUid w = Some (creator, assignee) ->
  let now_ms := clock host (clock_reads w) in
  let taskRef := autoId host (ids_drawn w) in
  let taskData := new_task_data host dto creator assignee now_ms in
  let w1 := with_tasks (<[taskRef := taskData]> (tasks w)) (TaskAdded taskRef taskData)
              (after_now_and_id w) in
  let sending :=
    sendTaskAssignmentNotification host taskRef (uid assignee) (uid creator)
      (name creator) (dto_title dto) w1 in
  let w2 := snd sending in
  createTask host dto creatorUid w =
  match fst sending with
  | Thrown error =>
      let us := [Set_notification_sent false;
                 Set_notification_error (error_message error)] in
      let outcome := {| sent := false; sentAt := None;
                        error := Some (error_message error) |} in
      transformToResponse host
        {| id := taskRef; doc := with_notification taskData outcome |}
        (with_tasks (<[taskRef := apply_task_update us taskData]> (tasks w2))
           (TaskUpdated taskRef us) w2)
  | Returned _ =>
      let notificationSentAt := clock host (clock_reads w2) in
      let us := [Set_notification_sent true;
                 Set_notification_sentAt notificationSentAt] in
      let outcome := {| sent := true; sentAt := Some notificationSentAt;
                        error := None |} in
      transformToResponse host
        {| id := taskRef; doc := with_notification taskData outcome |}
        (with_tasks (<[taskRef := apply_task_update us taskData]> (tasks w2))
           (TaskUpdated taskRef us) (after_clock_reads 1 w2))
  end.
Proof.
  intros Hl now_ms taskRef taskData w1 sending w2.
  unfold create_lookups in Hl.
  unfold createTask, getTaskUser, findUserByEmail, users_get, users_where_email.
  run_monad.
  destruct (user_doc (users w) creatorUid) as [cu|]; cbn in *; [| discriminate].
  destruct (user_by_email (users w) _) as [[aid au]|]; cbn in *; [| discriminate].
  case_bool_decide; [discriminate |]. injection Hl as <- <-. cbn.
  assert (Hstored : tasks w2 !! taskRef = Some taskData).
  { subst w2 sending.
    destruct (keeps_tasks_assignment_notification host taskRef
                (uid (task_user aid au)) (uid (task_user creatorUid cu))
                (name (task_user creatorUid cu)) (dto_title dto) w1) as (-> & _).
    subst w1. cbn. apply lookup_insert_eq. }
  subst w2.
  change (sendTaskAssignmentNotification host _ _ _ _ _ _) with sending.
  destruct sending as [[[]|error] w2]; cbn in Hstored |- *.
  all: unfold taskRef in Hstored; unfold tasks_update; cbn; rewrite Hstored; reflexivity.
Qed.

Transparent transformToResponse sendTaskAssignmentNotification.

Lemma new_task_data_fields (host : Host) (dto : CreateTaskDto) (creator assignee : TaskUser)
    (now_ms : Z) :
  let d := new_task_data host dto creator assignee now_ms in
  expiresAt (urgency d) = now_ms + dto_durationMinutes dto * (60 * 1000) /\
  ttl d = expiresAt (urgency d) + 7 * 24 * 60 * 60 * 1000 /\
  status d = TaskStatus.PENDING /\
  assigneeReaction d = None /\
  extensionCount d = Some 0 /\
  notification d = {| sent := false; sentAt := None; error := None |} /\
  createdAt d = now_ms /\ updatedAt d = now_ms /\
  durationMinutes (urgency d) = dto_durationMinutes dto /\
  createdBy d = creator /\ assignedTo d = assignee.
Proof. cbn. repeat split; reflexivity. Qed.

(** C5. Every create that returns wrote, as its first store write, a task
    document with expiry = creation time + durationMinutes (in
    milliseconds), ttl = expiry + 7 days, status pending, no reaction,
    extensionCount 0 and notification {sent: false}; the document stored
    under the new id afterwards differs from it at most in the notification
    sub-record, and the response reports the same status, count and
    expiry. *)
Theorem created_task_fields (host : Host) (dto : CreateTaskDto) (creatorUid : string)
    (w w' : World) (resp : TaskResponse) :
  createTask host dto creatorUid w = (Returned resp, w') ->
  let now_ms := clock host (clock_reads w) in
  let taskRef := autoId host (ids_drawn w) in
  exists persisted later_writes stored,
    journal w' = journal w ++ TaskAdded taskRef persisted :: later_writes /\
    expiresAt (urgency persisted) = now_ms + dto_durationMinutes dto * (60 * 1000) /\
    ttl persisted = expiresAt (urgency persisted) + 7 * 24 * 60 * 60 * 1000 /\
    status persisted = TaskStatus.PENDING /\
    assigneeReaction persisted = None /\
    extensionCount persisted = Some 0 /\
    notification persisted = {| sent := false; sentAt := None; error := None |} /\
    createdAt persisted = now_ms /\
    tasks w' !! taskRef = Some stored /\
    same_but_notification persisted stored /\
    r_id resp = taskRef /\
    r_status resp = TaskStatus.PENDING /\
    r_assigneeReaction resp = None /\
    r_extensionCount resp = 0 /\
    r_expiresAt (r_urgency resp) = now_ms + dto_durationMinutes dto * (60 * 1000).
Proof.
  intros Hrun now_ms taskRef.
  destruct (create_lookups host dto creatorUid w) as [[creator assignee]|] eqn:Hl.
  2:{ destruct (createTask_rejected host dto creatorUid w Hl) as [e He]. congruence. }
  rewrite (createTask_run host dto creatorUid w creator assignee Hl) in Hrun.
  cbv zeta in Hrun. fold now_ms taskRef in Hrun.
  set (taskData := new_task_data host dto creator assignee now_ms) in *.
  set (w1 := with_tasks _ (TaskAdded taskRef taskData) _) in *.
  destruct (keeps_tasks_assignment_notification host taskRef (uid assignee) (uid creator)
              (name creator) (dto_title dto) w1) as (_ & _ & more & Hj).
  destruct (new_task_data_fields host dto creator assignee now_ms)
    as (Hex & Httl & Hst & Hre & Hcnt & Hno & Hcr & _).
  fold taskData in Hex, Httl, Hst, Hre, Hcnt, Hno, Hcr.
  destruct (sendTaskAssignmentNotification host taskRef (uid assignee) (uid creator)
              (name creator) (dto_title dto) w1) as [[[]|error] w2];
    cbn [fst snd] in Hrun, Hj;
    match type of Hrun with
    | context [transformToResponse host ?t ?wx] =>
        destruct (transformToResponse_run host t wx)
          as (resp' & Hrun' & Hid & Hrst & Hrre & Hrex & _ & _ & Hrcnt)
    end;
    rewrite Hrun' in Hrun; injection Hrun as <- <-;
    exists taskData; eexists; eexists;
    (split; [cbn; rewrite Hj; subst w1; cbn; rewrite <- !app_assoc; reflexivity |]);
    cbn in Hid, Hrst, Hrre, Hrex, Hrcnt;
    repeat split; try assumption; try (cbn; apply lookup_insert_eq);
    reflexivity.
Qed.


Lemma created_task_fields_witness :
  let run := createTask Sample.host Sample.a_dto "alice" Sample.empty_world in
  let now_ms := clock Sample.host 0 in
  exists resp persisted later_writes stored,
    fst run = Returned resp /\
    journal (snd run) = TaskAdded "doc-0" persisted :: later_writes /\
    expiresAt (urgency persisted) = now_ms + 30 * (60 * 1000) /\
    ttl persisted = expiresAt (urgency persisted) + 7 * 24 * 60 * 60 * 1000 /\
    status persisted = TaskStatus.PENDING /\
    assigneeReaction persisted = None /\
    extensionCount persisted = Some 0 /\
    notification persisted = {| sent := false; sentAt := None; error := None |} /\
    tasks (snd run) !! "doc-0" = Some stored /\
    same_but_notification persisted stored /\
    r_extensionCount resp = 0.
Proof.
  destruct (createTask Sample.host Sample.a_dto "alice" Sample.empty_world)
    as [[resp|e] w'] eqn:Hrun; [| vm_compute in Hrun; discriminate].
  destruct (created_task_fields Sample.host Sample.a_dto "alice" Sample.empty_world
              w' resp Hrun)
    as (persisted & later_writes & stored & Hj & Hex & Httl & Hst & Hre & Hcnt & Hno
        & _ & Hstored & Hsame & _ & _ & _ & Hrcnt & _).
  exists resp, persisted, later_writes, stored. cbn [fst snd].
  repeat split; assumption.
Defined.

(** ** Notification failures and the lifecycle operations *)

(** C6. Create: when both users are found and differ, [createTask]
    returns, whatever the dispatch of the assignment notification does; if
    the dispatch throws, the task stays stored as persisted, with
    notification = {sent: false, error: the failure message}, and the
    response carries the same sub-record.  Reaction: when the reaction is
    accepted, [updateTaskReaction] returns in the world the dispatch left
    behind, whatever its outcome, and the task document still carries the
    reaction update. *)
Theorem notification_failure_never_aborts (host : Host) (w : World) :
  (forall dto creatorUid creator assignee,
      create_lookups host dto creatorUid w = Some (creator, assignee) ->
      let now_ms := clock host (clock_reads w) in
      let taskRef := autoId host (ids_drawn w) in
      let taskData := new_task_data host dto creator assignee now_ms in
      let dispatch :=
        sendTaskAssignmentNotification host taskRef (uid assignee) (uid creator)
          (name creator) (dto_title dto)
          (with_tasks (<[taskRef := taskData]> (tasks w)) (TaskAdded taskRef taskData)
             (after_now_and_id w)) in
      exists resp w',
        createTask host dto creatorUid w = (Returned resp, w') /\
        forall failure, fst dispatch = Thrown failure ->
          let recorded := {| sent := false; sentAt := None;
                             error := Some (error_message failure) |} in
          tasks w' !! taskRef = Some (with_notification taskData recorded) /\
          r_notification resp = recorded /\
          r_status resp = TaskStatus.PENDING) /\
  (forall taskId d reaction,
      tasks w !! taskId = Some d ->
      status d = TaskStatus.PENDING ->
      limit_reached d reaction = false ->
      let us := reaction_update d reaction (clock host (clock_reads w)) in
      let dispatch :=
        sendTaskReactionNotification host taskId (uid (createdBy d)) (uid (assignedTo d))
          (name (assignedTo d)) (title d) (TaskReaction.value reaction)
          (with_tasks (<[taskId := apply_task_update us d]> (tasks w))
             (TaskUpdated taskId us) (after_clock_reads 1 w)) in
      exists resp,
        updateTaskReaction host taskId reaction (uid (assignedTo d)) w =
          (Returned resp, after_clock_reads 2 (snd dispatch)) /\
        tasks (snd dispatch) !! taskId = Some (apply_task_update us d) /\
        r_assigneeReaction resp = Some reaction).
Proof.
  split.
  - intros dto creatorUid creator assignee Hl now_ms taskRef taskData dispatch.
    rewrite (createTask_run host dto creatorUid w creator assignee Hl).
    cbv zeta. fold now_ms taskRef taskData. fold dispatch.
    destruct dispatch as [[[]|error] w2]; cbn [fst snd];
      match goal with
      | |- context [transformToResponse host ?t ?wx] =>
          destruct (transformToResponse_run host t wx)
            as (resp' & Hrun' & _ & Hrst & _ & _ & Hno & _)
      end;
      rewrite Hrun'; exists resp'; eexists; (split; [reflexivity |]).
    + intros failure [=].
    + intros failure [= <-]. cbn in Hrst, Hno |- *.
      repeat split; try assumption. apply lookup_insert_eq.
  - intros taskId d reaction Hd Hs Hlim us dispatch.
    rewrite (updateTaskReaction_run _ _ _ d) by assumption.
    rewrite bool_decide_eq_false_2 by (intros H; by apply H).
    rewrite bool_decide_eq_false_2 by (intros H; by apply H).
    rewrite Hlim. cbv zeta. fold us. fold dispatch.
    match goal with
    | |- context [transformToResponse host ?t ?wx] =>
        destruct (transformToResponse_run host t wx)
          as (resp & Hrun & _ & _ & Hre & _)
    end.
    exists resp. split; [exact Hrun |]. split; [| exact Hre].
    subst dispatch.
    match goal with
    | |- context [sendTaskReactionNotification ?h ?a ?b ?c ?e ?f ?g ?w1] =>
        destruct (keeps_tasks_reaction_notification h a b c e f g w1) as (-> & _)
    end.
    cbn. apply lookup_insert_eq.
Qed.

Lemma notification_failure_never_aborts_witness :
  (let dispatch :=
     sendTaskAssignmentNotification Sample.rejecting_host "doc-0" "bob" "alice" "Alice"
       "Bring the keys"
       (with_tasks
          {[ "doc-0" := new_task_data Sample.rejecting_host Sample.a_dto Sample.alice
                          Sample.bob (clock Sample.rejecting_host 0) ]}
          (TaskAdded "doc-0"
             (new_task_data Sample.rejecting_host Sample.a_dto Sample.alice Sample.bob
                (clock Sample.rejecting_host 0)))
          (after_now_and_id Sample.empty_world)) in
   fst dispatch = Thrown (Error "DeviceNotRegistered") /\
   exists resp w',
     createTask Sample.rejecting_host Sample.a_dto "alice" Sample.empty_world =
       (Returned resp, w') /\
     r_notification resp =
       {| sent := false; sentAt := None; error := Some "DeviceNotRegistered" |} /\
     r_status resp = TaskStatus.PENDING) /\
  (let d := Sample.a_task TaskStatus.PENDING Sample.later 0 in
   let w := Sample.world_with d in
   let us := reaction_update d TaskReaction.ON_IT (clock Sample.rejecting_host 0) in
   let dispatch :=
     sendTaskReactionNotification Sample.rejecting_host "task-1" "alice" "bob" "Bob"
       "Bring the keys" "on_it"
       (with_tasks (<[ "task-1" := apply_task_update us d]> (tasks w))
          (TaskUpdated "task-1" us) (after_clock_reads 1 w)) in
   fst dispatch = Thrown (Error "DeviceNotRegistered") /\
   exists resp,
     updateTaskReaction Sample.rejecting_host "task-1" TaskReaction.ON_IT "bob" w =
       (Returned resp, after_clock_reads 2 (snd dispatch)) /\
     tasks (snd dispatch) !! "task-1" = Some (apply_task_update us d) /\
     r_assigneeReaction resp = Some TaskReaction.ON_IT).
Proof.
  split.
  - cbv zeta. split; [vm_compute; reflexivity |].
    destruct (proj1 (notification_failure_never_aborts Sample.rejecting_host
                       Sample.empty_world)
                Sample.a_dto "alice" Sample.alice Sample.bob)
      as (resp & w' & Hrun & Hfail).
    + vm_compute. reflexivity.
    + exists resp, w'. split; [exact Hrun |].
      destruct (Hfail (Error "DeviceNotRegistered")) as (_ & Hno & Hst).
      * vm_compute. reflexivity.
      * split; [exact Hno | exact Hst].
  - cbv zeta. split; [vm_compute; reflexivity |].
    apply (proj2 (notification_failure_never_aborts Sample.rejecting_host
                    (Sample.world_with (Sample.a_task TaskStatus.PENDING Sample.later 0)))
             "task-1" (Sample.a_task TaskStatus.PENDING Sample.later 0)
             TaskReaction.ON_IT).
    + vm_compute. reflexivity.
    + reflexivity.
    + reflexivity.
Defined.

(** ** The dispatch coordinator *)

Arguments user_doc : simpl never.
Arguments user_by_email : simpl never.

Lemma gate_open_check (p : ISendPushNotificationParams) (w : World) :
  gate_open p w ->
  (if decide (p_type p = NotificationType.TASK_ASSIGNED)
   then checkExistingNotification (p_taskId p) (p_recipientUid p) (p_type p)
   else ret false) w = (Returned false, w).
Proof.
  intros Hg. destruct (decide _) as [Ht|Ht]; [| reflexivity].
  unfold checkExistingNotification. rewrite (Hg Ht).
  by rewrite bool_decide_eq_true_2.
Qed.

Ltac dispatch_start Hg Hrun :=
  unfold sendPushNotification, try_catch in Hrun; unfold bind at 1 in Hrun;
  rewrite (gate_open_check _ _ Hg) in Hrun;
  unfold createNotificationRecord, getUser, users_get, notifications_add, draw_id, now
    in Hrun;
  unfold bind, ret in Hrun; cbn in Hrun.

Ltac update_record Hrun :=
  unfold updateNotificationStatus, notifications_update in Hrun; cbn in Hrun;
  rewrite ?lookup_insert_eq in Hrun; cbn in Hrun.

Ltac dispatch_done Hrun :=
  injection Hrun as <- <-; cbn.

(** A call of the push service that is rejected outright (no ticket comes
    back) is not handled by [sendExpoNotification]: the exception reaches
    the caller and the record stays as it was created. *)
Lemma dispatch_rejected_call (host : Host) (p : ISendPushNotificationParams) (w : World)
    (token m : string) :
  gate_open p w ->
  deliverable_token host w (p_recipientUid p) = Some token ->
  expo host (push_calls w) [push_message p (autoId host (ids_drawn w)) token] = Rejected m ->
  let run := sendPushNotification host p w in
  fst run = Thrown (Error m) /\
  exists r,
    notifications (snd run) !! autoId host (ids_drawn w) = Some r /\
    n_status r = NotificationStatus.PENDING /\
    n_error r = None /\
    n_sentAt r = None.
Proof.
  intros Hg Htok Hreply run. subst run. unfold deliverable_token in Htok.
  destruct (sendPushNotification host p w) as [o w'] eqn:Hrun. cbn [fst snd].
  dispatch_start Hg Hrun.
  destruct (user_doc (users w) (p_recipientUid p)) as [user|]; [| discriminate].
  destruct (truthy_opt (fcmToken user)); [| discriminate].
  destruct (isExpoPushToken host (default "" (fcmToken user))) eqn:Hf; [| discriminate].
  cbn in Htok, Hrun. rewrite Htok in Hrun. cbn in Hrun.
  unfold sendExpoNotification in Hrun.
  cbn [chunkPushNotifications send_chunks] in Hrun.
  unfold bind, sendPushNotificationsAsync, ret in Hrun. cbn in Hrun.
  change (expo host (push_calls w) _) with
    (expo host (push_calls w) [push_message p (autoId host (ids_drawn w)) token]) in Hrun.
  rewrite Hreply in Hrun. dispatch_done Hrun.
  split; [reflexivity |]. eexists. split; [apply lookup_insert_eq |]. by repeat split.
Qed.

(** C7. A provider error after which the record is not marked failed.
    [sendTaskAssignmentNotification] is called for task-1, created by
    alice for bob.  The recipient bob has a delivery token of the right
    format and no notification is stored, so the dispatch passes the gate
    and reaches the push service; the push service rejects the call itself
    ([sendPushNotificationsAsync] throws, no ticket comes back).
    [sendPushNotification] raises the provider's error to the caller, as it
    does for an error ticket, but the record it created is left pending,
    with no error text and no sent-at instant: the failed delivery is
    recorded nowhere. *)
Theorem provider_rejection_leaves_record_pending :
  let run := sendTaskAssignmentNotification Sample.unreachable_host
               "task-1" "bob" "alice" "Alice" "Bring the keys" Sample.empty_world in
  run = sendPushNotification Sample.unreachable_host (Sample.a_trigger "bob")
          Sample.empty_world /\
  deliverable_token Sample.unreachable_host Sample.empty_world "bob" = Some Sample.token /\
  expo Sample.unreachable_host 0
    [push_message (Sample.a_trigger "bob") "doc-0" Sample.token]
    = Rejected "connect ECONNREFUSED" /\
  fst run = Thrown (Error "connect ECONNREFUSED") /\
  push_calls (snd run) = 1%nat /\
  exists r,
    notifications (snd run) = {[ "doc-0" := r ]} /\
    n_status r = NotificationStatus.PENDING /\
    n_status r <> NotificationStatus.FAILED /\
    n_error r = None /\
    n_sentAt r = None.
Proof.
  cbv zeta.
  change (sendTaskAssignmentNotification Sample.unreachable_host
            "task-1" "bob" "alice" "Alice" "Bring the keys" Sample.empty_world)
    with (sendPushNotification Sample.unreachable_host (Sample.a_trigger "bob")
            Sample.empty_world).
  split; [reflexivity |]. split; [reflexivity |]. split; [reflexivity |].
  destruct (dispatch_rejected_call Sample.unreachable_host (Sample.a_trigger "bob")
              Sample.empty_world Sample.token "connect ECONNREFUSED")
    as (Hthrow & r & Hr & Hst & Herr & Hat).
  - intros _. apply map_filter_empty.
  - reflexivity.
  - reflexivity.
  - split; [exact Hthrow |]. split; [vm_compute; reflexivity |].
    eexists. split; [vm_compute; reflexivity |]. by repeat split.
Qed.

(** ** At most one assignment notification *)

Lemma dispatch_skips_existing (host : Host) (p : ISendPushNotificationParams) (w : World) :
  p_type p = NotificationType.TASK_ASSIGNED ->
  existing_notifications (p_taskId p) (p_recipientUid p) (p_type p) (notifications w) <> ∅ ->
  sendPushNotification host p w = (Returned tt, w).
Proof.
  intros Ht Hex. unfold sendPushNotification, try_catch. unfold bind at 1.
  destruct (decide _) as [_|Hn]; [| done].
  unfold checkExistingNotification. by rewrite bool_decide_eq_false_2.
Qed.

Lemma dispatch_creates_record (host : Host) (p : ISendPushNotificationParams) (w : World) :
  gate_open p w ->
  exists r,
    notifications (snd (sendPushNotification host p w)) =
      <[autoId host (ids_drawn w) := r]> (notifications w) /\
    same_event (p_taskId p) (p_recipientUid p) (p_type p) r.
Proof.
  intros Hg.
  destruct (sendPushNotification host p w) as [o w'] eqn:Hrun. cbn [snd].
  dispatch_start Hg Hrun.
  destruct (user_doc (users w) (p_recipientUid p)) as [user|]; cbn in Hrun.
  2:{ update_record Hrun. dispatch_done Hrun. rewrite insert_insert_eq. by eexists. }
  destruct (truthy_opt (fcmToken user)); cbn in Hrun.
  2:{ update_record Hrun. dispatch_done Hrun. rewrite insert_insert_eq. by eexists. }
  destruct (isExpoPushToken host _); cbn in Hrun.
  2:{ update_record Hrun. dispatch_done Hrun. rewrite insert_insert_eq. by eexists. }
  unfold sendExpoNotification in Hrun.
  cbn [chunkPushNotifications send_chunks] in Hrun.
  unfold bind, sendPushNotificationsAsync, ret in Hrun. cbn in Hrun.
  destruct (expo host (push_calls w) _) as [[|[i|m] rest]|m]; cbn in Hrun.
  - update_record Hrun. dispatch_done Hrun. rewrite insert_insert_eq. by eexists.
  - update_record Hrun. dispatch_done Hrun. rewrite insert_insert_eq. by eexists.
  - update_record Hrun.
    destruct (truthy (or_else m "Unknown Expo error")); cbn in Hrun;
      rewrite ?lookup_insert_eq in Hrun; cbn in Hrun; unfold throw in Hrun;
      dispatch_done Hrun; rewrite insert_insert_eq; by eexists.
  - dispatch_done Hrun. by eexists.
Qed.

Lemma triggers_skip_existing (host : Host) (taskId recipient : string)
    (ps : list ISendPushNotificationParams) (w : World) :
  Forall (assignment_trigger taskId recipient) ps ->
  assignment_records taskId recipient w <> ∅ ->
  triggers host ps w = w.
Proof.
  intros Hps Hex. induction Hps as [|p ps (Hid & Hrec & Hty) _ IH]; [reflexivity |].
  cbn. rewrite dispatch_skips_existing.
  - exact IH.
  - exact Hty.
  - rewrite Hid, Hrec, Hty. exact Hex.
Qed.

(** C8. For assignment triggers of one (taskId, recipientUid) pair,
    counting as the pair's records the stored notifications whose taskId
    and recipientUid are the pair's and whose type is 'task_assigned': if
    no record of the pair is stored, the first trigger adds exactly one
    notification to the store, a record of the pair (whatever the delivery
    does, and whatever else is stored), every further trigger finds it and
    returns without changing the world (no record, no delivery attempt),
    and so any number of triggers ends in the world the first one left.  If
    a record is stored already, no trigger changes anything.  Hence a store
    with at most one record of the pair has exactly one after any number of
    triggers. *)
Theorem assignment_notification_at_most_once (host : Host) (taskId recipient : string)
    (w : World) (p : ISendPushNotificationParams) (ps : list ISendPushNotificationParams) :
  assignment_trigger taskId recipient p ->
  Forall (assignment_trigger taskId recipient) ps ->
  let records (w0 : World) : gmap string INotificationDocument :=
    filter (fun kv : string * INotificationDocument =>
              n_taskId kv.2 = taskId /\ recipientUid kv.2 = recipient /\
              n_type kv.2 = NotificationType.TASK_ASSIGNED)
      (notifications w0) in
  let w1 := snd (sendPushNotification host p w) in
  (records w = ∅ ->
     (exists r,
        notifications w1 = <[autoId host (ids_drawn w) := r]> (notifications w) /\
        n_taskId r = taskId /\ recipientUid r = recipient /\
        n_type r = NotificationType.TASK_ASSIGNED) /\
     size (records w1) = 1%nat /\
     (forall p2, assignment_trigger taskId recipient p2 ->
        sendPushNotification host p2 w1 = (Returned tt, w1)) /\
     triggers host (p :: ps) w = w1) /\
  (records w <> ∅ -> triggers host (p :: ps) w = w) /\
  ((size (records w) <= 1)%nat ->
     size (records (triggers host (p :: ps) w)) = 1%nat).
Proof.
  intros Hp Hps records w1.
  change records with (assignment_records taskId recipient). clear records.
  assert (Hfresh : assignment_records taskId recipient w = ∅ ->
            (exists r,
               notifications w1 = <[autoId host (ids_drawn w) := r]> (notifications w) /\
               n_taskId r = taskId /\ recipientUid r = recipient /\
               n_type r = NotificationType.TASK_ASSIGNED) /\
            size (assignment_records taskId recipient w1) = 1%nat /\
            (forall p2, assignment_trigger taskId recipient p2 ->
               sendPushNotification host p2 w1 = (Returned tt, w1)) /\
            triggers host (p :: ps) w = w1).
  { intros Hnone. destruct Hp as (Hid & Hrec & Hty).
    assert (Hg : gate_open p w).
    { intros _. rewrite Hid, Hrec, Hty. exact Hnone. }
    destruct (dispatch_creates_record host p w Hg) as (r & Hn & Hr).
    fold w1 in Hn.
    assert (Hone : assignment_records taskId recipient w1 =
                   {[ autoId host (ids_drawn w) := r ]}).
    { unfold assignment_records, existing_notifications in *. rewrite Hn.
      rewrite map_filter_insert_True.
      - by rewrite Hnone, insert_empty.
      - cbn. by rewrite <- Hid, <- Hrec, <- Hty. }
    assert (Hsize : size (assignment_records taskId recipient w1) = 1%nat).
    { rewrite Hone. apply map_size_singleton. }
    assert (Hne : assignment_records taskId recipient w1 <> ∅).
    { apply map_size_non_empty_iff. rewrite Hsize. discriminate. }
    split; [| repeat split].
    - exists r. split; [exact Hn |].
      destruct Hr as (H1 & H2 & H3). rewrite <- Hid, <- Hrec, <- Hty. by repeat split.
    - exact Hsize.
    - intros p2 (Hid2 & Hrec2 & Hty2). apply dispatch_skips_existing; [exact Hty2 |].
      rewrite Hid2, Hrec2, Hty2. exact Hne.
    - cbn. fold w1. by apply (triggers_skip_existing host taskId recipient). }
  assert (Hold : assignment_records taskId recipient w <> ∅ ->
            triggers host (p :: ps) w = w).
  { intros Hne. apply (triggers_skip_existing host taskId recipient); [| exact Hne].
    by constructor. }
  split; [exact Hfresh |]. split; [exact Hold |].
  intros Hle.
  destruct (decide (assignment_records taskId recipient w = ∅)) as [Hnone | Hne].
  - destruct (Hfresh Hnone) as (_ & Hsize & _ & ->). exact Hsize.
  - rewrite (Hold Hne). apply map_size_non_empty_iff in Hne. lia.
Qed.

Lemma assignment_notification_at_most_once_witness :
  let p := Sample.a_trigger "alice" in
  let w := AlertSample.inbox in
  let w1 := snd (sendPushNotification Sample.host p w) in
  let records (w0 : World) : gmap string INotificationDocument :=
    filter (fun kv : string * INotificationDocument =>
              n_taskId kv.2 = "task-1" /\ recipientUid kv.2 = "alice" /\
              n_type kv.2 = NotificationType.TASK_ASSIGNED)
      (notifications w0) in
  size (notifications w) = 4%nat /\
  records w = ∅ /\
  (exists r,
     notifications w1 = <["doc-0" := r]> (notifications w) /\
     n_taskId r = "task-1" /\ recipientUid r = "alice" /\
     n_type r = NotificationType.TASK_ASSIGNED) /\
  size (notifications w1) = 5%nat /\
  size (records w1) = 1%nat /\
  (forall p2, assignment_trigger "task-1" "alice" p2 ->
     sendPushNotification Sample.host p2 w1 = (Returned tt, w1)) /\
  triggers Sample.host [p; p; p] w = w1.
Proof.
  cbv zeta.
  split; [vm_compute; reflexivity |].
  assert (Hnone :
    filter (fun kv : string * INotificationDocument =>
              n_taskId kv.2 = "task-1" /\ recipientUid kv.2 = "alice" /\
              n_type kv.2 = NotificationType.TASK_ASSIGNED)
      (notifications AlertSample.inbox) = ∅).
  { vm_compute. reflexivity. }
  split; [exact Hnone |].
  destruct (proj1 (assignment_notification_at_most_once Sample.host "task-1" "alice"
                     AlertSample.inbox (Sample.a_trigger "alice")
                     [Sample.a_trigger "alice"; Sample.a_trigger "alice"]
                     ltac:(by repeat split)
                     ltac:(repeat constructor))
             Hnone)
    as (Hrec & Hsize & Hskip & Hall).
  split; [exact Hrec |].
  split; [vm_compute; reflexivity |].
  split; [exact Hsize |]. split; [exact Hskip |]. exact Hall.
Defined.

(* ================================================================== *)
(** * Further properties of the task service *)

(** ** What a dispatch leaves behind *)

Lemma dispatch_leaves_record (host : Host) (p : ISendPushNotificationParams) (w : World) :
  gate_open p w ->
  let ref := autoId host (ids_drawn w) in
  let run := sendPushNotification host p w in
  exists r,
    notifications (snd run) = <[ref := r]> (notifications w) /\
    trigger_record p (clock host (clock_reads w)) r /\
    (deliverable_token host w (p_recipientUid p) = None ->
       fst run = Returned tt /\
       push_calls (snd run) = push_calls w /\
       n_status r = NotificationStatus.FAILED).
Proof.
  intros Hg ref run. subst ref run.
  destruct (sendPushNotification host p w) as [o w'] eqn:Hrun. cbn [fst snd].
  dispatch_start Hg Hrun. unfold deliverable_token, trigger_record.
  destruct (user_doc (users w) (p_recipientUid p)) as [user|]; cbn in Hrun.
  2:{ update_record Hrun. dispatch_done Hrun. rewrite insert_insert_eq.
      eexists. split; [reflexivity |]. by repeat split. }
  destruct (truthy_opt (fcmToken user)) eqn:Htok; cbn in Hrun.
  2:{ update_record Hrun. dispatch_done Hrun. rewrite insert_insert_eq.
      eexists. split; [reflexivity |]. by repeat split. }
  destruct (isExpoPushToken host _) eqn:Hfmt; cbn in Hrun.
  2:{ update_record Hrun. dispatch_done Hrun. rewrite insert_insert_eq.
      eexists. split; [reflexivity |]. by repeat split. }
  assert (Hsome : fcmToken user <> None).
  { intros Hnone. rewrite Hnone in Htok. discriminate. }
  unfold sendExpoNotification in Hrun.
  cbn [chunkPushNotifications send_chunks] in Hrun.
  unfold bind, sendPushNotificationsAsync, ret in Hrun. cbn in Hrun.
  destruct (expo host (push_calls w) _) as [[|[i|m] rest]|m]; cbn in Hrun.
  - update_record Hrun. dispatch_done Hrun. rewrite insert_insert_eq.
    eexists. split; [reflexivity |]. split; [by repeat split |].
    destruct (fcmToken user); [discriminate | done].
  - update_record Hrun. dispatch_done Hrun. rewrite insert_insert_eq.
    eexists. split; [reflexivity |]. split; [by repeat split |].
    destruct (fcmToken user); [discriminate | done].
  - update_record Hrun.
    destruct (truthy (or_else m "Unknown Expo error")); cbn in Hrun;
      rewrite ?lookup_insert_eq in Hrun; cbn in Hrun; unfold throw in Hrun;
      dispatch_done Hrun; rewrite insert_insert_eq;
      (eexists; split; [reflexivity |]; split; [by repeat split |]);
      destruct (fcmToken user); (discriminate || done).
  - dispatch_done Hrun.
    eexists. split; [reflexivity |]. split; [by repeat split |].
    destruct (fcmToken user); [discriminate | done].
Qed.

(** ** Creation: rejections *)

(** X1. [createTask] checks the creator first, then the assignee's email
    (lower-cased), then self-assignment: an unknown creator gives NotFound
    "Creator user not found"; a known creator with an unknown assignee
    email gives NotFound naming the email as it was sent; an email that
    resolves to the creator gives BadRequest "Cannot assign task to
    yourself".  None of the three writes anything or reads the clock. *)
Theorem createTask_rejections (host : Host) (dto : CreateTaskDto) (creatorUid : string)
    (w : World) :
  let lowered := toLowerCase host (assignToEmail dto) in
  (user_doc (users w) creatorUid = None ->
     createTask host dto creatorUid w =
     (Thrown (NotFoundException TASK_ERROR_MESSAGES.CREATOR_NOT_FOUND), w)) /\
  (forall creatorData,
     user_doc (users w) creatorUid = Some creatorData ->
     user_by_email (users w) lowered = None ->
     createTask host dto creatorUid w =
     (Thrown (NotFoundException
                (TASK_ERROR_MESSAGES.ASSIGNEE_NOT_FOUND (assignToEmail dto))), w)) /\
  (forall creatorData assigneeData,
     user_doc (users w) creatorUid = Some creatorData ->
     user_by_email (users w) lowered = Some (creatorUid, assigneeData) ->
     createTask host dto creatorUid w =
     (Thrown (BadRequestException TASK_ERROR_MESSAGES.SELF_ASSIGNMENT), w)).
Proof.
  intros lowered. subst lowered.
  repeat split.
  - intros Hc. unfold createTask, getTaskUser, users_get. run_monad. by rewrite Hc.
  - intros cu Hc Ha.
    unfold createTask, getTaskUser, findUserByEmail, users_get, users_where_email.
    run_monad. rewrite Hc. cbn. by rewrite Ha.
  - intros cu au Hc Ha.
    unfold createTask, getTaskUser, findUserByEmail, users_get, users_where_email.
    run_monad. rewrite Hc. cbn. rewrite Ha. cbn.
    by rewrite bool_decide_eq_true_2.
Qed.

Lemma createTask_rejections_witness :
  createTask Sample.host Sample.a_dto "nobody" Sample.empty_world =
    (Thrown (NotFoundException "Creator user not found"), Sample.empty_world) /\
  createTask Sample.host
    {| dto_title := "Bring the keys"; dto_note := None; dto_durationMinutes := 30;
       assignToEmail := "dave@example.org" |} "alice" Sample.empty_world =
    (Thrown (NotFoundException "User with email dave@example.org not found"),
     Sample.empty_world) /\
  createTask Sample.host Sample.a_dto "bob" Sample.empty_world =
    (Thrown (BadRequestException "Cannot assign task to yourself"), Sample.empty_world).
Proof.
  split; [| split].
  - apply (proj1 (createTask_rejections Sample.host Sample.a_dto "nobody"
                    Sample.empty_world)).
    vm_compute. reflexivity.
  - eapply (proj1 (proj2 (createTask_rejections Sample.host
                            {| dto_title := "Bring the keys"; dto_note := None;
                               dto_durationMinutes := 30;
                               assignToEmail := "dave@example.org" |}
                            "alice" Sample.empty_world))).
    + vm_compute. reflexivity.
    + vm_compute. reflexivity.
  - eapply (proj2 (proj2 (createTask_rejections Sample.host Sample.a_dto "bob"
                            Sample.empty_world))).
    + vm_compute. reflexivity.
    + vm_compute. reflexivity.
Defined.

(** ** Creation: the sent flag *)

(** X2. [createTask] sets notification.sent = true whenever the dispatch
    call returns without throwing, also when nothing was delivered: if the
    assignee is absent from the users collection, has no delivery token or
    has a malformed one (and no assignment record exists yet for the new
    task id), the create returns, the response and the stored task say
    sent = true with no error, nothing was handed to the push service, and
    the assignment's Notification record is marked failed. *)
Theorem createTask_sent_flag_without_delivery (host : Host) (dto : CreateTaskDto)
    (creatorUid : string) (w : World) (creator assignee : TaskUser) :
  create_lookups host dto creatorUid w = Some (creator, assignee) ->
  existing_notifications (autoId host (ids_drawn w)) (uid assignee)
    NotificationType.TASK_ASSIGNED (notifications w) = ∅ ->
  deliverable_token host w (uid assignee) = None ->
  exists resp w' stored r,
    createTask host dto creatorUid w = (Returned resp, w') /\
    sent (r_notification resp) = true /\
    error (r_notification resp) = None /\
    tasks w' !! autoId host (ids_drawn w) = Some stored /\
    sent (notification stored) = true /\
    push_calls w' = push_calls w /\
    notifications w' !! autoId host (S (ids_drawn w)) = Some r /\
    n_status r = NotificationStatus.FAILED /\
    recipientUid r = uid assignee /\
    n_taskId r = autoId host (ids_drawn w).
Proof.
  intros Hl Hnone Htok.
  rewrite (createTask_run host dto creatorUid w creator assignee Hl). cbv zeta.
  set (taskRef := autoId host (ids_drawn w)).
  set (taskData := new_task_data host dto creator assignee (clock host (clock_reads w))).
  set (w1 := with_tasks _ (TaskAdded taskRef taskData) _).
  change (sendTaskAssignmentNotification host taskRef (uid assignee) (uid creator)
            (name creator) (dto_title dto) w1)
    with (sendPushNotification host
            (assignment_trigger_of taskRef creator assignee (dto_title dto)) w1).
  destruct (dispatch_leaves_record host
              (assignment_trigger_of taskRef creator assignee (dto_title dto)) w1)
    as (r & Hn & Hr & Hfail).
  { intros _. exact Hnone. }
  destruct (Hfail Htok) as (Hret & Hpush & Hst).
  destruct Hr as (_ & Hrec & _ & Htid & _).
  destruct (sendPushNotification host _ w1) as [o w2]. cbn [fst snd] in *. subst o.
  match goal with
  | |- context [transformToResponse host ?t ?wx] =>
      destruct (transformToResponse_run host t wx)
        as (resp & Hrun & _ & _ & _ & _ & Hno & _)
  end.
  rewrite Hrun. exists resp. do 3 eexists. split; [reflexivity |].
  cbn in Hno. rewrite Hno. cbn.
  split; [reflexivity |]. split; [reflexivity |].
  split; [apply lookup_insert_eq |]. split; [reflexivity |].
  split; [exact Hpush |]. rewrite Hn.
  split; [apply lookup_insert_eq |]. by repeat split.
Qed.

Lemma createTask_sent_flag_without_delivery_witness :
  let dto := {| dto_title := "Bring the keys"; dto_note := None;
                dto_durationMinutes := 30; assignToEmail := "carol@example.org" |} in
  exists resp w' stored r,
    createTask Sample.host dto "alice" Sample.empty_world = (Returned resp, w') /\
    sent (r_notification resp) = true /\
    error (r_notification resp) = None /\
    tasks w' !! "doc-0" = Some stored /\
    sent (notification stored) = true /\
    push_calls w' = 0%nat /\
    notifications w' !! "doc-1" = Some r /\
    n_status r = NotificationStatus.FAILED /\
    recipientUid r = "carol" /\
    n_taskId r = "doc-0".
Proof.
  apply (createTask_sent_flag_without_delivery Sample.host
           {| dto_title := "Bring the keys"; dto_note := None;
              dto_durationMinutes := 30; assignToEmail := "carol@example.org" |}
           "alice" Sample.empty_world Sample.alice
           {| uid := "carol"; email := "carol@example.org"; name := "Carol" |}).
  - vm_compute. reflexivity.
  - apply map_filter_empty.
  - vm_compute. reflexivity.
Defined.

(** ** Reads *)

(** X3. [getTaskById] fails with NotFound for an unknown id and with
    Forbidden "You do not have access to this task" for a requester who is
    neither creator nor assignee; in both cases nothing is written, so a
    stale pending task is not expired by a read that is refused. *)
Theorem getTaskById_rejections (host : Host) (w : World) (taskId userUid : string) :
  (tasks w !! taskId = None ->
     getTaskById host taskId userUid w =
     (Thrown (NotFoundException TASK_ERROR_MESSAGES.TASK_NOT_FOUND), w)) /\
  (forall d,
     tasks w !! taskId = Some d ->
     uid (createdBy d) <> userUid ->
     uid (assignedTo d) <> userUid ->
     getTaskById host taskId userUid w =
     (Thrown (ForbiddenException TASK_ERROR_MESSAGES.ACCESS_DENIED), w)).
Proof.
  split.
  - intros Hd. unfold getTaskById, getAuthorizedTask. run_monad. by rewrite Hd.
  - intros d Hd Hc Ha. rewrite (getTaskById_run _ _ _ _ d) by assumption.
    rewrite (bool_decide_eq_true_2 _ Hc), (bool_decide_eq_true_2 _ Ha). reflexivity.
Qed.

Lemma getTaskById_rejections_witness :
  let d := Sample.a_task TaskStatus.PENDING Sample.earlier 0 in
  let w := Sample.world_with d in
  getTaskById Sample.host "task-9" "bob" w =
    (Thrown (NotFoundException "Task not found"), w) /\
  getTaskById Sample.host "task-1" "carol" w =
    (Thrown (ForbiddenException "You do not have access to this task"), w).
Proof.
  split.
  - apply (proj1 (getTaskById_rejections Sample.host
                    (Sample.world_with (Sample.a_task TaskStatus.PENDING Sample.earlier 0))
                    "task-9" "bob")).
    vm_compute. reflexivity.
  - apply (proj2 (getTaskById_rejections Sample.host
                    (Sample.world_with (Sample.a_task TaskStatus.PENDING Sample.earlier 0))
                    "task-1" "carol")
             (Sample.a_task TaskStatus.PENDING Sample.earlier 0)).
    + vm_compute. reflexivity.
    + discriminate.
    + discriminate.
Defined.

(** X4. Reconciling is done once: after a read that found a pending task
    stale and stored it as expired, a further read by the creator or the
    assignee returns status expired with the updated-at instant of the
    first read, and writes nothing. *)
Theorem second_read_writes_nothing (host : Host) (w : World) (taskId first second : string)
    (d : TaskDocument) :
  tasks w !! taskId = Some d ->
  uid (createdBy d) = first \/ uid (assignedTo d) = first ->
  uid (createdBy d) = second \/ uid (assignedTo d) = second ->
  status d = TaskStatus.PENDING ->
  expiresAt (urgency d) <= clock host (clock_reads w) ->
  let w1 := snd (getTaskById host taskId first w) in
  exists resp w2,
    getTaskById host taskId second w1 = (Returned resp, w2) /\
    r_status resp = TaskStatus.EXPIRED /\
    r_updatedAt resp = clock host (S (clock_reads w)) /\
    tasks w2 = tasks w1 /\
    journal w2 = journal w1.
Proof.
  intros Hd H1 H2 Hs Hstale w1. subst w1.
  assert (Hauth : forall u, uid (createdBy d) = u \/ uid (assignedTo d) = u ->
            bool_decide (uid (createdBy d) ≠ u) && bool_decide (uid (assignedTo d) ≠ u)
            = false).
  { intros u [H | H].
    - rewrite (bool_decide_eq_false_2 _ (fun Hne => Hne H)). reflexivity.
    - rewrite (bool_decide_eq_false_2 (uid (assignedTo d) ≠ u) (fun Hne => Hne H)).
      apply andb_false_r. }
  rewrite (getTaskById_run host w taskId first d Hd).
  rewrite (Hauth first H1).
  rewrite (bool_decide_eq_true_2 _ Hs), (bool_decide_eq_true_2 _ Hstale). cbv zeta.
  match goal with
  | |- context [transformToResponse host ?t ?wx] =>
      destruct (transformToResponse_run host t wx) as (resp1 & Hrun1 & _)
  end.
  rewrite Hrun1. cbn [snd].
  set (d1 := with_status d TaskStatus.EXPIRED (clock host (S (clock_reads w)))).
  match goal with
  | |- context [getTaskById host taskId second ?wx] =>
      rewrite (getTaskById_run host wx taskId second d1)
        by (cbn; apply lookup_insert_eq)
  end.
  change (uid (createdBy d1)) with (uid (createdBy d)).
  change (uid (assignedTo d1)) with (uid (assignedTo d)).
  rewrite (Hauth second H2).
  rewrite (bool_decide_eq_false_2 (status d1 = TaskStatus.PENDING)) by discriminate.
  match goal with
  | |- context [transformToResponse host ?t ?wx] =>
      destruct (transformToResponse_run host t wx)
        as (resp & Hrun & _ & Hst & _ & _ & _ & Hup & _)
  end.
  rewrite Hrun. exists resp. eexists. split; [reflexivity |].
  cbn in Hst, Hup. by repeat split.
Qed.

Lemma second_read_writes_nothing_witness :
  let d := Sample.a_task TaskStatus.PENDING Sample.earlier 0 in
  let w := Sample.world_with d in
  let w1 := snd (getTaskById Sample.host "task-1" "bob" w) in
  exists resp w2,
    getTaskById Sample.host "task-1" "alice" w1 = (Returned resp, w2) /\
    r_status resp = TaskStatus.EXPIRED /\
    r_updatedAt resp = clock Sample.host 1 /\
    tasks w2 = tasks w1 /\
    journal w2 = journal w1.
Proof.
  apply (second_read_writes_nothing Sample.host
           (Sample.world_with (Sample.a_task TaskStatus.PENDING Sample.earlier 0))
           "task-1" "bob" "alice" (Sample.a_task TaskStatus.PENDING Sample.earlier 0)).
  - vm_compute. reflexivity.
  - right. reflexivity.
  - left. reflexivity.
  - reflexivity.
  - vm_compute. discriminate.
Defined.

(** ** Status updates *)

(** X5. [updateTaskStatus] never touches anything but the task it is
    given: whatever its outcome, the notification and user collections are
    as before and nothing is handed to the push service (a status change
    sends no notification), every other task is as before, and the task
    itself is either unchanged or differs from the stored one in status and
    updatedAt only. *)
Theorem updateTaskStatus_changes_only_status (host : Host) (w : World) (taskId : string)
    (new_status : TaskStatus.t) (userUid : option string) :
  let w' := snd (updateTaskStatus host taskId new_status userUid w) in
  notifications w' = notifications w /\
  push_calls w' = push_calls w /\
  users w' = users w /\
  (forall other, other <> taskId -> tasks w' !! other = tasks w !! other) /\
  (tasks w !! taskId = None -> tasks w' !! taskId = None) /\
  (forall d, tasks w !! taskId = Some d ->
     tasks w' !! taskId = Some d \/
     tasks w' !! taskId = Some (with_status d new_status (clock host (clock_reads w)))).
Proof.
  intros w'. subst w'.
  destruct (tasks w !! taskId) as [d|] eqn:Hd.
  - rewrite (updateTaskStatus_run _ _ _ d) by assumption.
    destruct (status_update_denied d new_status userUid).
    { cbn. repeat split; try done. intros ? [= <-]. by left. }
    case_bool_decide.
    2:{ cbn. repeat split; try done. intros ? [= <-]. by left. }
    cbv zeta.
    match goal with
    | |- context [transformToResponse host ?t ?wx] =>
        destruct (transformToResponse_run host t wx) as (resp & Hrun & _)
    end.
    rewrite Hrun. cbn. repeat split; try done.
    + intros other Hne. by rewrite lookup_insert_ne.
    + intros ? [= <-]. right. apply lookup_insert_eq.
  - rewrite updateTaskStatus_absent by assumption. cbn.
    repeat split; try done.
Qed.

Lemma updateTaskStatus_changes_only_status_witness :
  let d := Sample.a_task TaskStatus.PENDING Sample.later 2 in
  let w := Sample.world_with d in
  let w' := snd (updateTaskStatus Sample.host "task-1" TaskStatus.COMPLETED (Some "bob") w) in
  notifications w' = notifications w /\
  push_calls w' = push_calls w /\
  (tasks w' !! "task-1" = Some d \/
   tasks w' !! "task-1" =
     Some (with_status d TaskStatus.COMPLETED (clock Sample.host (clock_reads w)))).
Proof.
  destruct (updateTaskStatus_changes_only_status Sample.host
              (Sample.world_with (Sample.a_task TaskStatus.PENDING Sample.later 2))
              "task-1" TaskStatus.COMPLETED (Some "bob"))
    as (Hn & Hp & _ & _ & _ & Hd).
  split; [exact Hn |]. split; [exact Hp |].
  apply Hd. vm_compute. reflexivity.
Defined.

(** X6. The two shortcut endpoints on a pending task.  PATCH
    /tasks/:id/cancel succeeds for the creator and stores status cancelled;
    for any other (non-empty) user id it fails with Forbidden "Only task
    creator can cancel the task".  PATCH /tasks/:id/complete succeeds for
    the assignee and stores status completed; for any other user id, the
    creator included, it fails with Forbidden "Only assignee can mark task
    as completed".  A refused call leaves the world as it was, so the
    status remains pending. *)
Theorem complete_and_cancel_endpoints (host : Host) (w : World) (taskId user_uid : string)
    (d : TaskDocument) :
  tasks w !! taskId = Some d ->
  status d = TaskStatus.PENDING ->
  user_uid <> "" ->
  let now_ms := clock host (clock_reads w) in
  (uid (createdBy d) = user_uid ->
     exists resp w',
       TaskController_cancelTask host taskId user_uid w =
         (Returned {| task := resp; api_message := TASK_MESSAGES.TASK_CANCELLED |}, w') /\
       r_status resp = TaskStatus.CANCELLED /\
       tasks w' !! taskId = Some (with_status d TaskStatus.CANCELLED now_ms)) /\
  (uid (createdBy d) <> user_uid ->
     TaskController_cancelTask host taskId user_uid w =
     (Thrown (ForbiddenException TASK_ERROR_MESSAGES.ONLY_CREATOR_CAN_CANCEL), w)) /\
  (uid (assignedTo d) = user_uid ->
     exists resp w',
       TaskController_completeTask host taskId user_uid w =
         (Returned {| task := resp; api_message := TASK_MESSAGES.TASK_COMPLETED |}, w') /\
       r_status resp = TaskStatus.COMPLETED /\
       tasks w' !! taskId = Some (with_status d TaskStatus.COMPLETED now_ms)) /\
  (uid (assignedTo d) <> user_uid ->
     TaskController_completeTask host taskId user_uid w =
     (Thrown (ForbiddenException TASK_ERROR_MESSAGES.ONLY_ASSIGNEE_CAN_COMPLETE), w)).
Proof.
  intros Hd Hs Hu now_ms. subst now_ms.
  assert (Htruthy : truthy_opt (Some user_uid) = true).
  { cbn. unfold truthy. by destruct (String.eqb_spec user_uid ""). }
  assert (Haccept : forall new_status,
            status_update_denied d new_status (Some user_uid) = None ->
            exists resp w',
              updateTaskStatus host taskId new_status (Some user_uid) w = (Returned resp, w') /\
              r_status resp = new_status /\
              tasks w' !! taskId =
                Some (with_status d new_status (clock host (clock_reads w)))).
  { intros new_status Hden. rewrite (updateTaskStatus_run _ _ _ d) by assumption.
    rewrite Hden, bool_decide_eq_true_2 by assumption. cbv zeta.
    match goal with
    | |- context [transformToResponse host ?t ?wx] =>
        destruct (transformToResponse_run host t wx) as (resp & Hrun & _ & Hst & _)
    end.
    rewrite Hrun. exists resp. eexists. split; [reflexivity |].
    split; [exact Hst |]. cbn. apply lookup_insert_eq. }
  unfold TaskController_cancelTask, TaskController_completeTask, bind.
  repeat split.
  - intros Hc. destruct (Haccept TaskStatus.CANCELLED) as (resp & w' & Hrun & Hst & Ht).
    { unfold status_update_denied. rewrite Htruthy. cbn.
      rewrite (bool_decide_eq_false_2 (Some (uid (createdBy d)) ≠ Some user_uid))
        by (intros Hne; apply Hne; by rewrite Hc).
      reflexivity. }
    rewrite Hrun. by exists resp, w'.
  - intros Hc. rewrite (updateTaskStatus_run _ _ _ d) by assumption.
    replace (status_update_denied d TaskStatus.CANCELLED (Some user_uid))
      with (Some TASK_ERROR_MESSAGES.ONLY_CREATOR_CAN_CANCEL); [reflexivity |].
    symmetry. apply status_update_denied_cases. split; [exact Htruthy |].
    left. repeat split. congruence.
  - intros Ha. destruct (Haccept TaskStatus.COMPLETED) as (resp & w' & Hrun & Hst & Ht).
    { unfold status_update_denied. rewrite Htruthy. cbn.
      rewrite (bool_decide_eq_false_2 (Some (uid (assignedTo d)) ≠ Some user_uid))
        by (intros Hne; apply Hne; by rewrite Ha).
      reflexivity. }
    rewrite Hrun. by exists resp, w'.
  - intros Ha. rewrite (updateTaskStatus_run _ _ _ d) by assumption.
    replace (status_update_denied d TaskStatus.COMPLETED (Some user_uid))
      with (Some TASK_ERROR_MESSAGES.ONLY_ASSIGNEE_CAN_COMPLETE); [reflexivity |].
    symmetry. apply status_update_denied_cases. split; [exact Htruthy |].
    right. repeat split. congruence.
Qed.

Lemma complete_and_cancel_endpoints_witness :
  let d := Sample.a_task TaskStatus.PENDING Sample.later 0 in
  let w := Sample.world_with d in
  (exists resp w',
     TaskController_cancelTask Sample.host "task-1" "alice" w =
       (Returned {| task := resp; api_message := TASK_MESSAGES.TASK_CANCELLED |}, w') /\
     r_status resp = TaskStatus.CANCELLED /\
     tasks w' !! "task-1" =
       Some (with_status d TaskStatus.CANCELLED (clock Sample.host 0))) /\
  TaskController_completeTask Sample.host "task-1" "alice" w =
    (Thrown (ForbiddenException "Only assignee can mark task as completed"), w).
Proof.
  destruct (complete_and_cancel_endpoints Sample.host
              (Sample.world_with (Sample.a_task TaskStatus.PENDING Sample.later 0))
              "task-1" "alice" (Sample.a_task TaskStatus.PENDING Sample.later 0))
    as (Hcancel & _ & _ & Hcomplete).
  - vm_compute. reflexivity.
  - reflexivity.
  - discriminate.
  - split; [apply Hcancel; reflexivity | apply Hcomplete; discriminate].
Defined.

(** ** Deletion *)

(** X7. [deleteTask]: an unknown id gives NotFound; a requester who is
    not the creator (the assignee included) gives Forbidden "Only task
    creator can delete the task" and changes nothing; the creator's call
    removes the task whatever its status, leaves every other task and all
    Notification records as they were, and a later read of the id by
    anyone gives NotFound. *)
Theorem deleteTask_outcomes (host : Host) (w : World) (taskId userUid : string) :
  (tasks w !! taskId = None ->
     deleteTask taskId userUid w =
     (Thrown (NotFoundException TASK_ERROR_MESSAGES.TASK_NOT_FOUND), w)) /\
  (forall d, tasks w !! taskId = Some d -> uid (createdBy d) <> userUid ->
     deleteTask taskId userUid w =
     (Thrown (ForbiddenException TASK_MESSAGES.ONLY_CREATOR_CAN_DELETE), w)) /\
  (forall d, tasks w !! taskId = Some d -> uid (createdBy d) = userUid ->
     exists w',
       TaskController_deleteTask taskId userUid w =
         (Returned {| delete_message := TASK_MESSAGES.TASK_DELETED |}, w') /\
       tasks w' = delete taskId (tasks w) /\
       notifications w' = notifications w /\
       users w' = users w /\
       (forall other, other <> taskId -> tasks w' !! other = tasks w !! other) /\
       (forall reader,
          getTaskById host taskId reader w' =
          (Thrown (NotFoundException TASK_ERROR_MESSAGES.TASK_NOT_FOUND), w'))).
Proof.
  repeat split.
  - intros Hd. unfold deleteTask. run_monad. by rewrite Hd.
  - intros d Hd Hc. unfold deleteTask. run_monad. rewrite Hd. cbn.
    by rewrite bool_decide_eq_true_2.
  - intros d Hd Hc. unfold TaskController_deleteTask, deleteTask. run_monad.
    rewrite Hd. cbn. rewrite bool_decide_eq_false_2 by (intros Hne; by apply Hne).
    cbn. eexists. split; [reflexivity |]. cbn. repeat split.
    + intros other Hne. by rewrite lookup_delete_ne.
    + intros reader. unfold getTaskById, getAuthorizedTask. run_monad.
      by rewrite lookup_delete_eq.
Qed.

Lemma deleteTask_outcomes_witness :
  let d := Sample.a_task TaskStatus.COMPLETED Sample.later 0 in
  let w := Sample.world_with d in
  deleteTask "task-1" "bob" w =
    (Thrown (ForbiddenException "Only task creator can delete the task"), w) /\
  exists w',
    TaskController_deleteTask "task-1" "alice" w =
      (Returned {| delete_message := "Task deleted successfully" |}, w') /\
    tasks w' = delete "task-1" (tasks w) /\
    getTaskById Sample.host "task-1" "alice" w' =
      (Thrown (NotFoundException "Task not found"), w').
Proof.
  destruct (deleteTask_outcomes Sample.host
              (Sample.world_with (Sample.a_task TaskStatus.COMPLETED Sample.later 0))
              "task-1" "bob") as (_ & Hforbidden & _).
  destruct (deleteTask_outcomes Sample.host
              (Sample.world_with (Sample.a_task TaskStatus.COMPLETED Sample.later 0))
              "task-1" "alice") as (_ & _ & Hdeleted).
  split.
  - apply (Hforbidden (Sample.a_task TaskStatus.COMPLETED Sample.later 0)).
    + vm_compute. reflexivity.
    + discriminate.
  - destruct (Hdeleted (Sample.a_task TaskStatus.COMPLETED Sample.later 0))
      as (w' & Hrun & Ht & _ & _ & _ & Hread).
    + vm_compute. reflexivity.
    + reflexivity.
    + exists w'. split; [exact Hrun |]. split; [exact Ht |]. apply Hread.
Defined.

(** ** Responses *)

Lemma transformToResponse_at (host : Host) (t : Task) (w : World) :
  transformToResponse host t w =
  (Returned (response_at t (clock host (clock_reads w)) (clock host (S (clock_reads w)))),
   after_clock_reads 2 w).
Proof. reflexivity. Qed.

(** X8. The urgency block of a response: remainingMinutes is the number
    of whole minutes between the first clock reading and the deadline,
    rounded down, and 0 from the deadline on; isExpired compares the
    deadline with the second clock reading and is true from the deadline
    itself on.  So a task with less than a minute to go shows 0 minutes
    remaining while it is not yet expired. *)
Theorem response_urgency_in_whole_minutes (host : Host) (t : Task) (w : World) :
  let t1 := clock host (clock_reads w) in
  let t2 := clock host (S (clock_reads w)) in
  let deadline := expiresAt (urgency (doc t)) in
  exists resp w',
    transformToResponse host t w = (Returned resp, w') /\
    0 <= remainingMinutes (r_urgency resp) /\
    (deadline <= t1 -> remainingMinutes (r_urgency resp) = 0) /\
    (t1 <= deadline ->
       remainingMinutes (r_urgency resp) * 60000 <= deadline - t1
         < (remainingMinutes (r_urgency resp) + 1) * 60000) /\
    (r_isExpired (r_urgency resp) = true <-> deadline <= t2) /\
    (t2 < deadline -> deadline < t1 + 60000 ->
       r_isExpired (r_urgency resp) = false /\ remainingMinutes (r_urgency resp) = 0).
Proof.
  intros t1 t2 deadline. rewrite transformToResponse_at.
  do 2 eexists. split; [reflexivity |]. cbn -[Z.mul Z.div].
  fold t1 t2 deadline. unfold TASK_TIME_MS.MINUTE. change (60 * 1000) with 60000.
  pose proof (Z.div_mod (deadline - t1) 60000 ltac:(lia)) as Hdm.
  pose proof (Z.mod_pos_bound (deadline - t1) 60000 ltac:(lia)) as Hm.
  split; [lia |]. split; [intros; lia |]. split; [intros; lia |].
  split; [apply bool_decide_eq_true |].
  intros H12 Hlast. split; [apply bool_decide_eq_false; lia | lia].
Qed.

Lemma response_urgency_in_whole_minutes_witness :
  exists resp w',
    transformToResponse Sample.host
      {| id := "task-1"; doc := Sample.a_task TaskStatus.PENDING 1700000030000 0 |}
      Sample.empty_world = (Returned resp, w') /\
    r_isExpired (r_urgency resp) = false /\ remainingMinutes (r_urgency resp) = 0.
Proof.
  destruct (response_urgency_in_whole_minutes Sample.host
              {| id := "task-1"; doc := Sample.a_task TaskStatus.PENDING 1700000030000 0 |}
              Sample.empty_world)
    as (resp & w' & Hrun & _ & _ & _ & _ & Hlast).
  exists resp, w'. split; [exact Hrun |].
  apply Hlast; vm_compute; reflexivity.
Defined.

(** ** Reactions *)

Lemma updateTaskReaction_accepted_run (host : Host) (w : World) (taskId : string)
    (d : TaskDocument) (reaction : TaskReaction.t) :
  tasks w !! taskId = Some d ->
  status d = TaskStatus.PENDING ->
  limit_reached d reaction = false ->
  let w2 := snd (sendPushNotification host (reaction_trigger taskId d reaction)
                   (reaction_stored host taskId d reaction w)) in
  updateTaskReaction host taskId reaction (uid (assignedTo d)) w =
  (Returned (response_at (reacted_task taskId d reaction (clock host (clock_reads w)))
               (clock host (clock_reads w2)) (clock host (S (clock_reads w2)))),
   after_clock_reads 2 w2).
Proof.
  intros Hd Hs Hlim w2.
  rewrite (updateTaskReaction_run _ _ _ d) by assumption.
  rewrite bool_decide_eq_false_2 by (intros H; by apply H).
  rewrite bool_decide_eq_false_2 by (intros H; by apply H).
  rewrite Hlim. cbv zeta. rewrite transformToResponse_at. reflexivity.
Qed.

Lemma reaction_stored_tasks (host : Host) (w : World) (taskId : string)
    (d : TaskDocument) (reaction : TaskReaction.t) :
  let w2 := snd (sendPushNotification host (reaction_trigger taskId d reaction)
                   (reaction_stored host taskId d reaction w)) in
  tasks w2 =
    <[taskId := apply_task_update
                  (reaction_update d reaction (clock host (clock_reads w))) d]> (tasks w) /\
  users w2 = users w.
Proof.
  intros w2. subst w2.
  destruct (keeps_tasks_sendPushNotification host (reaction_trigger taskId d reaction)
              (reaction_stored host taskId d reaction w)) as (Ht & Hu & _).
  rewrite Ht, Hu. split; reflexivity.
Qed.

(** X9. A reaction other than running-late by the assignee of a pending
    task is accepted whatever the extension count (also at the limit of
    three), answers with the message "Reaction updated successfully", and
    changes in the stored task the reaction and updatedAt only: deadline,
    ttl and extension count stay as they were. *)
Theorem plain_reaction_keeps_deadline (host : Host) (w : World) (taskId : string)
    (d : TaskDocument) (reaction : TaskReaction.t) :
  tasks w !! taskId = Some d ->
  status d = TaskStatus.PENDING ->
  reaction <> TaskReaction.RUNNING_LATE ->
  exists resp w' d',
    TaskController_updateTaskReaction host taskId reaction (uid (assignedTo d)) w =
      (Returned {| task := resp; api_message := TASK_MESSAGES.REACTION_UPDATED |}, w') /\
    tasks w' !! taskId = Some d' /\
    assigneeReaction d' = Some reaction /\
    updatedAt d' = clock host (clock_reads w) /\
    urgency d' = urgency d /\
    ttl d' = ttl d /\
    extensionCount d' = extensionCount d /\
    status d' = TaskStatus.PENDING /\
    title d' = title d /\ note d' = note d /\
    createdBy d' = createdBy d /\ assignedTo d' = assignedTo d /\
    notification d' = notification d /\ createdAt d' = createdAt d /\
    r_assigneeReaction resp = Some reaction /\
    r_expiresAt (r_urgency resp) = expiresAt (urgency d) /\
    r_extensionCount resp = default 0 (extensionCount d).
Proof.
  intros Hd Hs Hr.
  assert (Hlim : limit_reached d reaction = false).
  { unfold limit_reached. by rewrite bool_decide_eq_false_2. }
  unfold TaskController_updateTaskReaction, bind.
  rewrite (updateTaskReaction_accepted_run host w taskId d reaction Hd Hs Hlim).
  cbv zeta. rewrite (bool_decide_eq_false_2 _ Hr).
  do 3 eexists. split; [reflexivity |].
  cbn [after_clock_reads tasks].
  rewrite (proj1 (reaction_stored_tasks host w taskId d reaction)).
  split; [apply lookup_insert_eq |].
  unfold reaction_update, reacted_task. rewrite (bool_decide_eq_false_2 _ Hr). cbn.
  destruct (urgency d). by repeat split.
Qed.

Lemma plain_reaction_keeps_deadline_witness :
  let d := Sample.a_task TaskStatus.PENDING Sample.later 3 in
  exists resp w' d',
    TaskController_updateTaskReaction Sample.host "task-1" TaskReaction.NEED_HELP "bob"
      (Sample.world_with d) =
      (Returned {| task := resp; api_message := "Reaction updated successfully" |}, w') /\
    tasks w' !! "task-1" = Some d' /\
    assigneeReaction d' = Some TaskReaction.NEED_HELP /\
    urgency d' = urgency d /\
    ttl d' = ttl d /\
    extensionCount d' = Some 3.
Proof.
  destruct (plain_reaction_keeps_deadline Sample.host
              (Sample.world_with (Sample.a_task TaskStatus.PENDING Sample.later 3))
              "task-1" (Sample.a_task TaskStatus.PENDING Sample.later 3)
              TaskReaction.NEED_HELP)
    as (resp & w' & d' & Hrun & Ht & Hre & _ & Hu & Httl & Hex & _).
  - vm_compute. reflexivity.
  - reflexivity.
  - discriminate.
  - exists resp, w', d'. by repeat split.
Defined.

(** X10. [updateTaskReaction] never looks at the deadline.  On a pending
    task whose deadline lies so far back that even a 30-minute extension
    is in the past at every instant the clock reports, a reaction by the
    assignee is accepted all the same: the call returns, the stored task
    stays pending (it is not turned to expired), and the response shows
    status pending together with isExpired true and 0 minutes remaining. *)
Theorem reaction_accepted_after_deadline (host : Host) (w : World) (taskId : string)
    (d : TaskDocument) (reaction : TaskReaction.t) :
  tasks w !! taskId = Some d ->
  status d = TaskStatus.PENDING ->
  limit_reached d reaction = false ->
  (forall k, expiresAt (urgency d) + TASK_TIME_MS.RUNNING_LATE_EXTENSION <= clock host k) ->
  exists resp w' d',
    updateTaskReaction host taskId reaction (uid (assignedTo d)) w = (Returned resp, w') /\
    r_status resp = TaskStatus.PENDING /\
    r_isExpired (r_urgency resp) = true /\
    remainingMinutes (r_urgency resp) = 0 /\
    tasks w' !! taskId = Some d' /\
    status d' = TaskStatus.PENDING /\
    assigneeReaction d' = Some reaction.
Proof.
  intros Hd Hs Hlim Hpast.
  rewrite (updateTaskReaction_accepted_run host w taskId d reaction Hd Hs Hlim).
  cbv zeta. do 3 eexists. split; [reflexivity |].
  cbn [after_clock_reads tasks].
  rewrite (proj1 (reaction_stored_tasks host w taskId d reaction)).
  set (w2 := snd (sendPushNotification host _ _)).
  pose proof (Hpast (clock_reads w2)) as H1.
  pose proof (Hpast (S (clock_reads w2))) as H2.
  unfold TASK_TIME_MS.RUNNING_LATE_EXTENSION in H1, H2.
  unfold response_at, reacted_task, reaction_update.
  cbn -[Z.mul Z.div Z.add].
  unfold TASK_TIME_MS.RUNNING_LATE_EXTENSION, TASK_TIME_MS.MINUTE.
  split; [exact Hs |].
  split.
  { apply bool_decide_eq_true. case_bool_decide; lia. }
  split.
  { match goal with
    | |- 0 `max` (?a `div` ?m) = 0 =>
        assert (a `div` m <= 0); [| lia]
    end.
    apply Z.div_le_upper_bound; [lia |]. case_bool_decide; lia. }
  split; [apply lookup_insert_eq |].
  case_bool_decide; cbn; by split.
Qed.

Lemma reaction_accepted_after_deadline_witness :
  let d := Sample.a_task TaskStatus.PENDING 1699990000000 0 in
  exists resp w' d',
    updateTaskReaction Sample.host "task-1" TaskReaction.RUNNING_LATE "bob"
      (Sample.world_with d) = (Returned resp, w') /\
    r_status resp = TaskStatus.PENDING /\
    r_isExpired (r_urgency resp) = true /\
    remainingMinutes (r_urgency resp) = 0 /\
    tasks w' !! "task-1" = Some d' /\
    status d' = TaskStatus.PENDING /\
    assigneeReaction d' = Some TaskReaction.RUNNING_LATE.
Proof.
  apply (reaction_accepted_after_deadline Sample.host
           (Sample.world_with (Sample.a_task TaskStatus.PENDING 1699990000000 0))
           "task-1" (Sample.a_task TaskStatus.PENDING 1699990000000 0)
           TaskReaction.RUNNING_LATE).
  - vm_compute. reflexivity.
  - reflexivity.
  - vm_compute. reflexivity.
  - intros k. unfold TASK_TIME_MS.RUNNING_LATE_EXTENSION, Sample.host, Sample.a_task.
    simpl. lia.
Defined.

(** X11. Every accepted reaction leaves a Notification record of type
    task-reaction for the creator, under the next document id, created at
    the clock reading after the update: recipient the creator, sender the
    assignee, title "<assignee name> responded", body the reaction in
    quotes with underscores as spaces followed by " on: " and the task
    title, unread.  There is no check for an earlier record of the same
    reaction. *)
Theorem reaction_notification_recorded (host : Host) (w : World) (taskId : string)
    (d : TaskDocument) (reaction : TaskReaction.t) :
  tasks w !! taskId = Some d ->
  status d = TaskStatus.PENDING ->
  limit_reached d reaction = false ->
  exists resp w' r,
    updateTaskReaction host taskId reaction (uid (assignedTo d)) w = (Returned resp, w') /\
    notifications w' = <[autoId host (ids_drawn w) := r]> (notifications w) /\
    n_type r = NotificationType.TASK_REACTION /\
    recipientUid r = uid (createdBy d) /\
    senderUid r = uid (assignedTo d) /\
    n_taskId r = taskId /\
    n_title r = name (assignedTo d) +:+ " responded" /\
    n_body r = double_quote +:+ replace_underscores (TaskReaction.value reaction)
               +:+ double_quote +:+ " on: " +:+ title d /\
    isRead r = false /\
    n_createdAt r = clock host (S (clock_reads w)).
Proof.
  intros Hd Hs Hlim.
  rewrite (updateTaskReaction_accepted_run host w taskId d reaction Hd Hs Hlim).
  cbv zeta.
  destruct (dispatch_leaves_record host (reaction_trigger taskId d reaction)
              (reaction_stored host taskId d reaction w))
    as (r & Hn & (Hty & Hrec & Hsen & Htid & Htitle & Hbody & _ & Hread & Hcr & _) & _).
  { intros Hty. discriminate Hty. }
  do 2 eexists. exists r. split; [reflexivity |].
  cbn [after_clock_reads notifications]. rewrite Hn.
  by repeat split.
Qed.

Lemma reaction_notification_recorded_witness :
  let d := Sample.a_task TaskStatus.PENDING Sample.later 0 in
  exists resp w' r,
    updateTaskReaction Sample.host "task-1" TaskReaction.ON_IT "bob" (Sample.world_with d)
      = (Returned resp, w') /\
    notifications w' = <[ "doc-0" := r ]> ∅ /\
    n_type r = NotificationType.TASK_REACTION /\
    recipientUid r = "alice" /\
    senderUid r = "bob" /\
    n_title r = "Bob responded".
Proof.
  destruct (reaction_notification_recorded Sample.host
              (Sample.world_with (Sample.a_task TaskStatus.PENDING Sample.later 0))
              "task-1" (Sample.a_task TaskStatus.PENDING Sample.later 0) TaskReaction.ON_IT)
    as (resp & w' & r & Hrun & Hn & Hty & Hrec & Hsen & _ & Htitle & _).
  - vm_compute. reflexivity.
  - reflexivity.
  - vm_compute. reflexivity.
  - exists resp, w', r. by repeat split.
Defined.

(** ** Listing *)

Lemma after_clock_reads_add (a b : nat) (w : World) :
  after_clock_reads a (after_clock_reads b w) = after_clock_reads (a + b) w.
Proof. unfold after_clock_reads. cbn. f_equal. lia. Qed.

Lemma list_loop_run (host : Host) (now_ms : Z) (docs : list (string * TaskDocument)) :
  forall acc batch flag w,
    list_loop host now_ms docs acc batch flag w =
    (Returned (acc ++ responses_from host (clock_reads w) now_ms docs,
               batch ++ expiry_batch now_ms docs,
               flag || existsb (fun kv => stale now_ms kv.2) docs),
     after_clock_reads (2 * length docs) w).
Proof.
  induction docs as [|[k d] rest IH]; intros acc batch flag w.
  - cbn. rewrite !app_nil_r, orb_false_r. unfold ret. do 2 f_equal.
    by destruct w.
  - cbn [list_loop]. unfold expiry_batch, reconciled. cbn [List.filter existsb fst snd].
    fold (stale now_ms d).
    destruct (stale now_ms d) eqn:Hst.
    + unfold bind. rewrite transformToResponse_at. rewrite IH.
      rewrite after_clock_reads_add. cbn [fmap list_fmap responses_from fst snd].
      unfold reconciled. rewrite Hst.
      rewrite <- !app_assoc. cbn [app].
      replace (2 * length rest + 2)%nat with (2 * length ((k, d) :: rest))%nat
        by (cbn; lia).
      rewrite orb_true_r. reflexivity.
    + unfold bind. rewrite transformToResponse_at. rewrite IH.
      rewrite after_clock_reads_add. cbn [responses_from fst snd].
      unfold reconciled. rewrite Hst.
      rewrite <- !app_assoc. cbn [app].
      replace (2 * length rest + 2)%nat with (2 * length ((k, d) :: rest))%nat
        by (cbn; lia).
      reflexivity.
Qed.

Lemma page_docs_sublist (userUid : string) (o : GetTasksOptions)
    (ts : gmap string TaskDocument) :
  exists sorted,
    sorted ≡ₚ listed userUid o ts /\ page_docs userUid o ts `sublist_of` sorted.
Proof.
  exists (merge_sort (query_order (default TaskSortField.CREATED_AT (o_sortBy o))
                        (default SortOrder.DESC (o_sortOrder o)))
            (listed userUid o ts)).
  split; [apply merge_sort_Permutation |].
  unfold page_docs. etrans; [apply sublist_take | apply sublist_drop].
Qed.

Lemma listed_elem (userUid : string) (o : GetTasksOptions) (ts : gmap string TaskDocument)
    (k : string) (d : TaskDocument) :
  (k, d) ∈ listed userUid o ts <->
  ts !! k = Some d /\
  task_matches (o_type o) userUid (o_status o) (o_reaction o) d = true.
Proof.
  unfold listed, matching_tasks.
  rewrite list_elem_of_In, filter_In, <- list_elem_of_In, elem_of_map_to_list.
  reflexivity.
Qed.

Lemma listed_NoDup (userUid : string) (o : GetTasksOptions) (ts : gmap string TaskDocument) :
  NoDup (listed userUid o ts).*1.
Proof.
  unfold listed, matching_tasks.
  eapply sublist_NoDup; [apply (NoDup_fst_map_to_list ts) |].
  apply fmap_sublist.
  induction (map_to_list ts) as [|x l IH]; cbn; [constructor |].
  destruct (task_matches _ _ _ _ x.2); by constructor.
Qed.

Lemma page_docs_elem (userUid : string) (o : GetTasksOptions) (ts : gmap string TaskDocument)
    (k : string) (d : TaskDocument) :
  (k, d) ∈ page_docs userUid o ts ->
  ts !! k = Some d /\
  task_matches (o_type o) userUid (o_status o) (o_reaction o) d = true.
Proof.
  intros Hin. destruct (page_docs_sublist userUid o ts) as (sorted & Hp & Hsub).
  apply listed_elem. rewrite <- Hp. by eapply elem_of_sublist.
Qed.

Lemma page_docs_NoDup (userUid : string) (o : GetTasksOptions)
    (ts : gmap string TaskDocument) :
  NoDup (page_docs userUid o ts).*1.
Proof.
  destruct (page_docs_sublist userUid o ts) as (sorted & Hp & Hsub).
  eapply sublist_NoDup; [| apply fmap_sublist, Hsub].
  rewrite Hp. apply listed_NoDup.
Qed.

Lemma page_docs_length (userUid : string) (o : GetTasksOptions)
    (ts : gmap string TaskDocument) :
  1 <= page_of o -> 1 <= limit_of o ->
  Z.of_nat (length (page_docs userUid o ts)) =
  Z.min (limit_of o)
    (Z.max 0 (Z.of_nat (length (listed userUid o ts)) - (page_of o - 1) * limit_of o)).
Proof.
  intros Hp Hl. unfold page_docs.
  rewrite length_take, length_drop, (Permutation_length (merge_sort_Permutation _ _)).
  nia.
Qed.

Lemma expiry_batch_cons (now_ms : Z) (k : string) (d : TaskDocument)
    (rest : list (string * TaskDocument)) :
  expiry_batch now_ms ((k, d) :: rest) =
  if stale now_ms d
  then (k, [Set_status TaskStatus.EXPIRED; Set_updatedAt now_ms]) :: expiry_batch now_ms rest
  else expiry_batch now_ms rest.
Proof. unfold expiry_batch. cbn. by destruct (stale now_ms d). Qed.

(** The batch of a page, applied to a world that holds the page's
    documents. *)
Lemma expiry_batch_applied (now_ms : Z) (docs : list (string * TaskDocument)) :
  forall w,
    NoDup docs.*1 ->
    (forall k d, (k, d) ∈ docs -> tasks w !! k = Some d) ->
    let w' := fold_left apply_task_write (expiry_batch now_ms docs) w in
    users w' = users w /\
    notifications w' = notifications w /\
    push_calls w' = push_calls w /\
    clock_reads w' = clock_reads w /\
    ids_drawn w' = ids_drawn w /\
    journal w' =
      journal w ++
      ((fun op : string * list TaskFieldUpdate => TaskUpdated op.1 op.2)
         <$> expiry_batch now_ms docs) /\
    (forall k, tasks w' !! k =
       (fun d => if bool_decide (k ∈ docs.*1) then reconciled now_ms d else d)
       <$> tasks w !! k).
Proof.
  induction docs as [|[k d] rest IH]; intros w Hnd Hin w'; subst w'.
  - cbn. rewrite app_nil_r. repeat split; try done.
    intros k. destruct (tasks w !! k); [| done]. cbn.
    rewrite bool_decide_eq_false_2; [done | apply not_elem_of_nil].
  - rewrite fmap_cons in Hnd. apply NoDup_cons in Hnd as [Hk Hnd].
    change ((k, d).1) with k in Hk.
    assert (Hd : tasks w !! k = Some d) by (apply Hin; left).
    rewrite expiry_batch_cons.
    destruct (stale now_ms d) eqn:Hst.
    + set (us := [Set_status TaskStatus.EXPIRED; Set_updatedAt now_ms]).
      rewrite fmap_cons.
      change (fold_left apply_task_write ((k, us) :: expiry_batch now_ms rest) w)
        with (fold_left apply_task_write (expiry_batch now_ms rest)
                (apply_task_write w (k, us))).
      assert (Hw1 : apply_task_write w (k, us) =
                    with_tasks (<[k := apply_task_update us d]> (tasks w))
                      (TaskUpdated k us) w).
      { unfold apply_task_write. cbn [fst snd]. by rewrite Hd. }
      rewrite Hw1. set (w1 := with_tasks _ _ w).
      destruct (IH w1 Hnd) as (Hu & Hn & Hp & Hc & Hi & Hj & Ht).
      { intros k' d' Hin'. subst w1. cbn.
        rewrite lookup_insert_ne; [apply Hin; by right |].
        intros <-. apply Hk. apply list_elem_of_fmap. by exists (k, d'). }
      rewrite Hu, Hn, Hp, Hc, Hi, Hj. subst w1.
      cbn [with_tasks users notifications push_calls clock_reads ids_drawn journal
           tasks fst snd].
      rewrite <- app_assoc. repeat split; try done.
      intros k'. rewrite Ht. cbn [tasks with_tasks]. rewrite fmap_cons.
      destruct (decide (k' = k)) as [-> | Hne].
      * rewrite lookup_insert_eq, Hd. cbn [fmap option_fmap option_map].
        rewrite (bool_decide_eq_false_2 _ Hk).
        rewrite bool_decide_eq_true_2 by left.
        unfold reconciled. rewrite Hst. reflexivity.
      * rewrite lookup_insert_ne by done.
        destruct (tasks w !! k') as [d'|]; [| done]. cbn [fmap option_fmap option_map].
        f_equal.
        assert (Hiff : k' ∈ rest.*1 <-> k' ∈ (k, d).1 :: rest.*1)
          by (rewrite elem_of_cons; cbn; intuition congruence).
        destruct (decide (k' ∈ rest.*1)) as [Hr | Hr].
        { by rewrite (bool_decide_eq_true_2 _ Hr),
                     (bool_decide_eq_true_2 _ (proj1 Hiff Hr)). }
        { by rewrite (bool_decide_eq_false_2 _ Hr),
                     (bool_decide_eq_false_2 _ (fun H => Hr (proj2 Hiff H))). }
    + destruct (IH w Hnd) as (Hu & Hn & Hp & Hc & Hi & Hj & Ht).
      { intros k' d' Hin'. apply Hin. by right. }
      repeat split; try done.
      intros k'. rewrite Ht. rewrite fmap_cons.
      destruct (tasks w !! k') as [d'|] eqn:Hd'; [| done].
      cbn [fmap option_fmap option_map].
      f_equal.
      destruct (decide (k' = k)) as [-> | Hne].
      * assert (d' = d) as -> by congruence.
        rewrite (bool_decide_eq_false_2 _ Hk).
        rewrite bool_decide_eq_true_2 by left.
        unfold reconciled. by rewrite Hst.
      * assert (Hiff : k' ∈ rest.*1 <-> k' ∈ (k, d).1 :: rest.*1)
          by (rewrite elem_of_cons; cbn; intuition congruence).
        destruct (decide (k' ∈ rest.*1)) as [Hr | Hr].
        { by rewrite (bool_decide_eq_true_2 _ Hr),
                     (bool_decide_eq_true_2 _ (proj1 Hiff Hr)). }
        { by rewrite (bool_decide_eq_false_2 _ Hr),
                     (bool_decide_eq_false_2 _ (fun H => Hr (proj2 Hiff H))). }
Qed.

Lemma getMyTasks_run (host : Host) (userUid : string) (o : GetTasksOptions) (w : World) :
  1 <= page_of o -> 1 <= limit_of o <= TASK_PAGINATION_DEFAULTS.MAX_LIMIT ->
  let now_ms := clock host (clock_reads w) in
  let docs := page_docs userUid o (tasks w) in
  getMyTasks host userUid o w =
  (Returned
     {| items := responses_from host (S (clock_reads w)) now_ms docs;
        meta := buildPaginationMeta (Z.of_nat (length (listed userUid o (tasks w))))
                  (page_of o) (limit_of o) |},
   fold_left apply_task_write (expiry_batch now_ms docs)
     (after_clock_reads (2 * length docs + 1) w)).
Proof.
  intros Hp Hl now_ms docs.
  unfold getMyTasks, bind, now, tasks_count, tasks_page.
  fold (page_of o) (limit_of o).
  cbn [tasks clock_reads].
  replace (((page_of o - 1) * limit_of o <? 0) || (limit_of o <? 0)) with false
    by (symmetry; apply orb_false_intro; apply Z.ltb_ge; nia).
  unfold TASK_PAGINATION_DEFAULTS.MAX_LIMIT in Hl.
  change (take _ (drop _ (merge_sort _ (matching_tasks _ (tasks w))))) with docs.
  change (matching_tasks _ (tasks w)) with (listed userUid o (tasks w)).
  change {| tasks := tasks w; users := users w; notifications := notifications w;
            journal := journal w; clock_reads := S (clock_reads w);
            ids_drawn := ids_drawn w; push_calls := push_calls w |}
    with (after_clock_reads 1 w).
  fold now_ms. rewrite list_loop_run, after_clock_reads_add.
  cbn [app orb clock_reads after_clock_reads Nat.add].
  change {| tasks := tasks w; users := users w; notifications := notifications w;
            journal := journal w; clock_reads := (2 * length docs + 1 + clock_reads w)%nat;
            ids_drawn := ids_drawn w; push_calls := push_calls w |}
    with (after_clock_reads (2 * length docs + 1) w).
  destruct (existsb (fun kv => stale now_ms kv.2) docs) eqn:Hany; cbn [when].
  - unfold tasks_batch_commit.
    replace (BATCH_WRITE_LIMIT <? length (expiry_batch now_ms docs))%nat with false.
    2:{ symmetry. apply Nat.ltb_ge. unfold expiry_batch, BATCH_WRITE_LIMIT.
        rewrite length_fmap.
        pose proof (filter_length_le
                      (fun kv : string * TaskDocument => stale now_ms kv.2) docs) as Hf.
        pose proof (page_docs_length userUid o (tasks w) Hp (proj1 Hl)) as Hlen.
        fold docs in Hlen. lia. }
    rewrite (proj2 (forallb_forall _ _)); [reflexivity |].
    intros [k us] Hin. apply bool_decide_eq_true. cbn [fst after_clock_reads tasks].
    apply in_map_iff in Hin as ([k' d] & [= <- <-] & Hin).
    apply filter_In in Hin as [Hin _]. apply list_elem_of_In in Hin.
    apply page_docs_elem in Hin as [Hd _]. by exists d.
  - unfold expiry_batch.
    replace (List.filter (fun kv : string * TaskDocument => stale now_ms kv.2) docs)
      with (@nil (string * TaskDocument)); [reflexivity |].
    symmetry. induction docs as [|kv rest IH]; [reflexivity |].
    cbn in Hany |- *. apply orb_false_elim in Hany as [-> Hrest]. by apply IH.
Qed.

Lemma responses_from_length (host : Host) (now_ms : Z) (docs : list (string * TaskDocument)) :
  forall k, length (responses_from host k now_ms docs) = length docs.
Proof. induction docs as [|kv rest IH]; intros k; cbn; [done | by rewrite IH]. Qed.

Lemma responses_from_ids (host : Host) (now_ms : Z) (docs : list (string * TaskDocument)) :
  forall k, r_id <$> responses_from host k now_ms docs = docs.*1.
Proof. induction docs as [|kv rest IH]; intros k; cbn; [done | by rewrite IH]. Qed.

Lemma responses_from_elem (host : Host) (now_ms : Z) (docs : list (string * TaskDocument))
    (r : TaskResponse) :
  forall k,
    r ∈ responses_from host k now_ms docs ->
    exists id d t1 t2,
      (id, d) ∈ docs /\
      r = response_at {| id := id; doc := reconciled now_ms d |} t1 t2.
Proof.
  induction docs as [|[id d] rest IH]; intros k Hin; cbn in Hin.
  - by apply elem_of_nil in Hin.
  - apply elem_of_cons in Hin as [-> | Hin].
    + do 4 eexists. split; [left | reflexivity].
    + destruct (IH _ Hin) as (id' & d' & t1 & t2 & Hin' & ->).
      exists id', d', t1, t2. split; [by right | reflexivity].
Qed.

Lemma getMyTasks_world (host : Host) (userUid : string) (o : GetTasksOptions) (w : World) :
  let now_ms := clock host (clock_reads w) in
  let docs := page_docs userUid o (tasks w) in
  let w' := fold_left apply_task_write (expiry_batch now_ms docs)
              (after_clock_reads (2 * length docs + 1) w) in
  users w' = users w /\
  notifications w' = notifications w /\
  push_calls w' = push_calls w /\
  journal w' =
    journal w ++
    ((fun op : string * list TaskFieldUpdate => TaskUpdated op.1 op.2)
       <$> expiry_batch now_ms docs) /\
  (forall k, tasks w' !! k =
     (fun d => if bool_decide (k ∈ docs.*1) then reconciled now_ms d else d)
     <$> tasks w !! k).
Proof.
  intros now_ms docs w'. subst w'.
  destruct (expiry_batch_applied now_ms docs (after_clock_reads (2 * length docs + 1) w))
    as (Hu & Hn & Hp & _ & _ & Hj & Ht).
  - apply page_docs_NoDup.
  - intros k d Hin. by apply page_docs_elem in Hin as [Hd _].
  - by repeat split.
Qed.

(** X12. [getMyTasks] with page >= 1 and limit from 1 to 100 (the
    bounds the request validation enforces) returns; the page holds
    min(limit, max(0, total - (page-1)*limit)) items, total being the
    number of stored tasks that match the role and the filters; the
    metadata reports that total, the page and the limit, and hasNextPage is
    true exactly when matching tasks remain after this page.  A page past
    the end is empty, not an error. *)
Theorem getMyTasks_page_size (host : Host) (userUid : string) (o : GetTasksOptions)
    (w : World) :
  1 <= page_of o -> 1 <= limit_of o <= TASK_PAGINATION_DEFAULTS.MAX_LIMIT ->
  let total := Z.of_nat (length (listed userUid o (tasks w))) in
  exists res w',
    TaskController_getMyTasks host o userUid w =
      (Returned {| api_items := items res; api_meta := meta res;
                   tasks_message := TASK_MESSAGES.TASKS_RETRIEVED |}, w') /\
    Z.of_nat (length (items res)) =
      Z.min (limit_of o) (Z.max 0 (total - (page_of o - 1) * limit_of o)) /\
    totalItems (meta res) = total /\
    currentPage (meta res) = page_of o /\
    itemsPerPage (meta res) = limit_of o /\
    (hasNextPage (meta res) = true <-> page_of o * limit_of o < total) /\
    (total <= (page_of o - 1) * limit_of o -> items res = []).
Proof.
  intros Hp Hl total.
  unfold TaskController_getMyTasks, bind.
  rewrite (getMyTasks_run host userUid o w Hp Hl). cbv zeta.
  do 2 eexists. split; [reflexivity |].
  cbn [items meta totalItems currentPage itemsPerPage hasNextPage buildPaginationMeta].
  rewrite responses_from_length.
  pose proof (page_docs_length userUid o (tasks w) Hp (proj1 Hl)) as Hlen. fold total in Hlen |- *.
  split; [exact Hlen |]. do 3 (split; [reflexivity |]).
  destruct (math_ceil_div_bounds total (limit_of o) ltac:(lia)) as [Hu Hlow].
  split; [split |].
  - intros H. apply bool_decide_eq_true in H. nia.
  - intros H. apply bool_decide_eq_true. nia.
  - intros Hpast.
    destruct (page_docs userUid o (tasks w)) as [|kv rest]; [reflexivity |].
    cbn [length] in Hlen. lia.
Qed.

Lemma getMyTasks_page_size_witness :
  let o := {| o_type := TaskQueryType.ASSIGNED; o_page := Some 2; o_limit := Some 5;
              o_sortBy := None; o_sortOrder := None; o_status := None;
              o_reaction := None |} in
  exists res w',
    TaskController_getMyTasks Sample.host o "bob"
      (Sample.world_with (Sample.a_task TaskStatus.PENDING Sample.later 0)) =
      (Returned {| api_items := items res; api_meta := meta res;
                   tasks_message := "Tasks retrieved successfully" |}, w') /\
    totalItems (meta res) = 1 /\
    items res = [].
Proof.
  destruct (getMyTasks_page_size Sample.host "bob"
              {| o_type := TaskQueryType.ASSIGNED; o_page := Some 2; o_limit := Some 5;
                 o_sortBy := None; o_sortOrder := None; o_status := None;
                 o_reaction := None |}
              (Sample.world_with (Sample.a_task TaskStatus.PENDING Sample.later 0)))
    as (res & w' & Hrun & _ & Htotal & _ & _ & _ & Hempty).
  - vm_compute. discriminate.
  - vm_compute. split; discriminate.
  - exists res, w'. split; [exact Hrun |]. split.
    + rewrite Htotal. vm_compute. reflexivity.
    + apply Hempty. vm_compute. discriminate.
Defined.

(** X13. What a page of [getMyTasks] holds.  The items have distinct
    ids; each item is a task in which the requester has the role asked for
    (creator or assignee), and shows status, reaction, deadline and
    updatedAt as the store has them after the call.  A reaction filter
    holds of every item.  A status filter holds of every item with one
    exception: under the filter pending, a task found stale is returned
    with status expired. *)
Theorem getMyTasks_items (host : Host) (userUid : string) (o : GetTasksOptions)
    (w : World) :
  1 <= page_of o -> 1 <= limit_of o <= TASK_PAGINATION_DEFAULTS.MAX_LIMIT ->
  let now_ms := clock host (clock_reads w) in
  exists res w',
    getMyTasks host userUid o w = (Returned res, w') /\
    NoDup (r_id <$> items res) /\
    (forall r, r ∈ items res ->
       exists d',
         tasks w' !! r_id r = Some d' /\
         r_status r = status d' /\
         r_assigneeReaction r = assigneeReaction d' /\
         r_expiresAt (r_urgency r) = expiresAt (urgency d') /\
         r_updatedAt r = updatedAt d' /\
         uid (match o_type o with
              | TaskQueryType.CREATED => r_createdBy r
              | TaskQueryType.ASSIGNED => r_assignedTo r
              end) = userUid /\
         (forall x, o_reaction o = Some x -> r_assigneeReaction r = Some x) /\
         (forall s, o_status o = Some s ->
            r_status r = s \/
            (s = TaskStatus.PENDING /\ r_status r = TaskStatus.EXPIRED /\
             r_updatedAt r = now_ms /\ expiresAt (urgency d') <= now_ms))).
Proof.
  intros Hp Hl now_ms.
  rewrite (getMyTasks_run host userUid o w Hp Hl). cbv zeta.
  do 2 eexists. split; [reflexivity |]. cbn [items].
  rewrite responses_from_ids. split; [apply page_docs_NoDup |].
  intros r Hin.
  apply responses_from_elem in Hin as (k & d & t1 & t2 & Hin & ->).
  destruct (getMyTasks_world host userUid o w) as (_ & _ & _ & _ & Ht).
  cbv zeta in Ht. fold now_ms in Ht |- *.
  pose proof (page_docs_elem _ _ _ _ _ Hin) as [Hd Hm].
  exists (reconciled now_ms d). cbn [response_at r_id id doc r_status r_assigneeReaction
    r_urgency r_expiresAt r_updatedAt r_createdBy r_assignedTo].
  split.
  { rewrite Ht, Hd. cbn. rewrite bool_decide_eq_true_2; [done |].
    apply list_elem_of_fmap. by exists (k, d). }
  do 4 (split; [reflexivity |]).
  unfold task_matches in Hm.
  apply andb_true_iff in Hm as [Hm Hre]. apply andb_true_iff in Hm as [Hrole Hst].
  apply bool_decide_eq_true in Hrole.
  unfold reconciled, stale.
  split; [| split].
  - destruct (_ && _); destruct (o_type o); exact Hrole.
  - intros x Hx. rewrite Hx in Hre. apply bool_decide_eq_true in Hre.
    by destruct (_ && _).
  - intros s Hs. rewrite Hs in Hst. apply bool_decide_eq_true in Hst.
    destruct (bool_decide (status d = TaskStatus.PENDING)) eqn:Hpen; cbn [andb].
    2:{ by left. }
    destruct (bool_decide (expiresAt (urgency d) <= now_ms)) eqn:Hpast.
    2:{ by left. }
    apply bool_decide_eq_true in Hpen, Hpast.
    right. cbn. repeat split; try done. congruence.
Qed.

Lemma getMyTasks_items_witness :
  let o := {| o_type := TaskQueryType.ASSIGNED; o_page := None; o_limit := None;
              o_sortBy := None; o_sortOrder := None;
              o_status := Some TaskStatus.PENDING; o_reaction := None |} in
  exists res w',
    getMyTasks Sample.host "bob" o
      (Sample.world_with (Sample.a_task TaskStatus.PENDING Sample.earlier 0)) =
      (Returned res, w') /\
    (forall r, r ∈ items res ->
       uid (r_assignedTo r) = "bob" /\
       (r_status r = TaskStatus.PENDING \/ r_status r = TaskStatus.EXPIRED)).
Proof.
  destruct (getMyTasks_items Sample.host "bob"
              {| o_type := TaskQueryType.ASSIGNED; o_page := None; o_limit := None;
                 o_sortBy := None; o_sortOrder := None;
                 o_status := Some TaskStatus.PENDING; o_reaction := None |}
              (Sample.world_with (Sample.a_task TaskStatus.PENDING Sample.earlier 0)))
    as (res & w' & Hrun & _ & Hitems).
  - vm_compute. discriminate.
  - vm_compute. split; discriminate.
  - exists res, w'. split; [exact Hrun |].
    intros r Hin. destruct (Hitems r Hin) as (d' & _ & _ & _ & _ & _ & Hrole & _ & Hst).
    split; [exact Hrole |].
    destruct (Hst TaskStatus.PENDING eq_refl) as [H | (_ & H & _)]; [by left | by right].
Defined.

(** X14. What [getMyTasks] writes.  The call touches no user and no
    notification and sends nothing.  In the tasks collection it turns to
    expired (with updatedAt the instant read at the start of the call)
    exactly the stale pending tasks on the page it returns; every other
    task, stale pending tasks outside the page included, stays as it was.
    When the page holds no stale pending task nothing is written at all. *)
Theorem getMyTasks_expires_its_page_only (host : Host) (userUid : string)
    (o : GetTasksOptions) (w : World) :
  1 <= page_of o -> 1 <= limit_of o <= TASK_PAGINATION_DEFAULTS.MAX_LIMIT ->
  let now_ms := clock host (clock_reads w) in
  let docs := page_docs userUid o (tasks w) in
  exists res w',
    getMyTasks host userUid o w = (Returned res, w') /\
    users w' = users w /\
    notifications w' = notifications w /\
    push_calls w' = push_calls w /\
    (forall k d, tasks w !! k = Some d ->
       tasks w' !! k =
       Some (if bool_decide (k ∈ docs.*1) && stale now_ms d
             then with_status d TaskStatus.EXPIRED now_ms else d)) /\
    (forall k, tasks w !! k = None -> tasks w' !! k = None) /\
    ((forall k d, (k, d) ∈ docs -> stale now_ms d = false) ->
       tasks w' = tasks w /\ journal w' = journal w).
Proof.
  intros Hp Hl now_ms docs.
  rewrite (getMyTasks_run host userUid o w Hp Hl). cbv zeta.
  do 2 eexists. split; [reflexivity |].
  destruct (getMyTasks_world host userUid o w) as (Hu & Hn & Hpc & Hj & Ht).
  cbv zeta in Hu, Hn, Hpc, Hj, Ht. fold now_ms docs in Hu, Hn, Hpc, Hj, Ht |- *.
  do 3 (split; [assumption |]).
  split; [| split].
  - intros k d Hd. rewrite Ht, Hd. cbn. unfold reconciled.
    by destruct (bool_decide (k ∈ docs.*1)), (stale now_ms d).
  - intros k Hd. by rewrite Ht, Hd.
  - intros Hnone. split.
    + apply map_eq. intros k. rewrite Ht.
      destruct (tasks w !! k) as [d|] eqn:Hd; [| done]. cbn. f_equal.
      case_bool_decide as Hin; [| done].
      apply list_elem_of_fmap in Hin as ([k' d'] & -> & Hin).
      pose proof (page_docs_elem _ _ _ _ _ Hin) as [Hd' _].
      cbn in Hd. assert (d' = d) as -> by congruence.
      unfold reconciled. by rewrite (Hnone _ _ Hin).
    + rewrite Hj. unfold expiry_batch.
      replace (List.filter (fun kv : string * TaskDocument => stale now_ms kv.2) docs)
        with (@nil (string * TaskDocument)); [apply app_nil_r |].
      symmetry. clearbody docs. clear -Hnone.
      induction docs as [|[k d] rest IH]; [reflexivity |].
      cbn. rewrite (Hnone k d) by left. apply IH.
      intros k' d' Hin. apply (Hnone k' d'). by right.
Qed.

Lemma getMyTasks_expires_its_page_only_witness :
  let o := {| o_type := TaskQueryType.CREATED; o_page := None; o_limit := None;
              o_sortBy := None; o_sortOrder := None; o_status := None;
              o_reaction := None |} in
  let d := Sample.a_task TaskStatus.PENDING Sample.earlier 0 in
  exists res w',
    getMyTasks Sample.host "alice" o (Sample.world_with d) = (Returned res, w') /\
    notifications w' = ∅ /\
    tasks w' !! "task-1" =
      Some (with_status d TaskStatus.EXPIRED (clock Sample.host 0)).
Proof.
  destruct (getMyTasks_expires_its_page_only Sample.host "alice"
              {| o_type := TaskQueryType.CREATED; o_page := None; o_limit := None;
                 o_sortBy := None; o_sortOrder := None; o_status := None;
                 o_reaction := None |}
              (Sample.world_with (Sample.a_task TaskStatus.PENDING Sample.earlier 0)))
    as (res & w' & Hrun & _ & Hn & _ & Hstored & _).
  - vm_compute. discriminate.
  - vm_compute. split; discriminate.
  - exists res, w'. split; [exact Hrun |]. split; [exact Hn |].
    rewrite (Hstored "task-1" (Sample.a_task TaskStatus.PENDING Sample.earlier 0))
      by (vm_compute; reflexivity).
    vm_compute. reflexivity.
Defined.

(** ** The task endpoints together *)

Lemma snd_bind_ret {A B} (m : M A) (f : A -> B) (w : World) :
  snd ((let* x := m in ret (f x)) w) = snd (m w).
Proof. unfold bind, ret. by destruct (m w) as [[?|?] ?]. Qed.

Lemma updateTaskReaction_absent (host : Host) (w : World) (taskId : string)
    (reaction : TaskReaction.t) (userUid : string) :
  tasks w !! taskId = None ->
  updateTaskReaction host taskId reaction userUid w =
  (Thrown (NotFoundException TASK_ERROR_MESSAGES.TASK_NOT_FOUND), w).
Proof. intros Hd. unfold updateTaskReaction. run_monad. by rewrite Hd. Qed.

Lemma getTaskById_absent (host : Host) (w : World) (taskId userUid : string) :
  tasks w !! taskId = None ->
  getTaskById host taskId userUid w =
  (Thrown (NotFoundException TASK_ERROR_MESSAGES.TASK_NOT_FOUND), w).
Proof. intros Hd. unfold getTaskById, getAuthorizedTask. run_monad. by rewrite Hd. Qed.

Lemma entry_step_same (host : Host) (w w' : World) :
  tasks w' = tasks w -> entry_step host w w'.
Proof.
  intros Heq k. rewrite Heq. destruct (tasks w !! k) as [d|] eqn:Hd; [| done].
  left. exists d. split; [done | by left].
Qed.

Lemma entry_step_insert (host : Host) (w w' : World) (taskId : string)
    (d d' : TaskDocument) :
  tasks w !! taskId = Some d ->
  task_change d d' ->
  tasks w' = <[taskId := d']> (tasks w) ->
  entry_step host w w'.
Proof.
  intros Hd Hch Heq k. rewrite Heq.
  destruct (decide (k = taskId)) as [-> | Hne].
  - rewrite lookup_insert_eq. left. by exists d.
  - rewrite lookup_insert_ne by done.
    destruct (tasks w !! k) as [x|] eqn:Hx; [| done].
    left. exists x. split; [done | by left].
Qed.

Lemma updateTaskStatus_step (host : Host) (w : World) (taskId : string)
    (new_status : TaskStatus.t) (userUid : option string) :
  entry_step host w (snd (updateTaskStatus host taskId new_status userUid w)).
Proof.
  destruct (tasks w !! taskId) as [d|] eqn:Hd.
  2:{ rewrite updateTaskStatus_absent by assumption. by apply entry_step_same. }
  rewrite (updateTaskStatus_run _ _ _ d) by assumption.
  destruct (status_update_denied d new_status userUid); [by apply entry_step_same |].
  case_bool_decide as Hs; [| by apply entry_step_same].
  cbv zeta. rewrite transformToResponse_at.
  eapply (entry_step_insert host w _ taskId d); [exact Hd | | reflexivity].
  right; left. split; [exact Hs |]. by do 2 eexists.
Qed.

Lemma handle_step (host : Host) (user_uid : string) (r : TaskRequest) (w : World) :
  valid_request r ->
  entry_step host w (handle host user_uid r w).
Proof.
  intros Hv. destruct r as [dto | id | query | id s | id reaction | id | id | id];
    cbn [handle].
  - (* createTask *)
    unfold TaskController_createTask. rewrite snd_bind_ret.
    destruct (create_lookups host dto user_uid w) as [[creator assignee]|] eqn:Hl.
    2:{ destruct (createTask_rejected host dto user_uid w Hl) as (e & ->).
        by apply entry_step_same. }
    rewrite (createTask_run host dto user_uid w creator assignee Hl). cbv zeta.
    set (taskRef := autoId host (ids_drawn w)).
    set (taskData := new_task_data host dto creator assignee (clock host (clock_reads w))).
    set (w1 := with_tasks _ (TaskAdded taskRef taskData) _).
    destruct (keeps_tasks_assignment_notification host taskRef (uid assignee)
                (uid creator) (name creator) (dto_title dto) w1) as (Ht & _).
    assert (Hne : uid creator <> uid assignee).
    { unfold create_lookups in Hl.
      destruct (user_doc (users w) user_uid); [| discriminate].
      destruct (user_by_email (users w) _) as [[docId ?]|]; [| discriminate].
      case_bool_decide; [discriminate |]. injection Hl as <- <-. cbn. congruence. }
    destruct (sendTaskAssignmentNotification host _ _ _ _ _ w1) as [[[]|error] w2];
      cbn [fst snd] in Ht |- *; rewrite transformToResponse_at; cbn [snd];
      intros k; cbn [after_clock_reads tasks with_tasks]; rewrite Ht;
      subst w1; cbn [after_clock_reads tasks with_tasks];
      rewrite insert_insert_eq;
      (destruct (decide (k = taskRef)) as [-> | Hk];
       [ rewrite lookup_insert_eq; right; split; [reflexivity |];
         exists dto, creator, assignee, (clock host (clock_reads w));
         eexists; split; [exact Hne | reflexivity]
       | rewrite lookup_insert_ne by done;
         destruct (tasks w !! k) as [x|] eqn:Hx; [| done];
         left; exists x; split; [done | by left] ]).
  - (* getTask *)
    destruct (tasks w !! id) as [d|] eqn:Hd.
    2:{ rewrite getTaskById_absent by assumption. by apply entry_step_same. }
    rewrite (getTaskById_run host w id user_uid d Hd).
    destruct (_ && _); [by apply entry_step_same |].
    case_bool_decide as Hs.
    2:{ rewrite transformToResponse_at. by apply entry_step_same. }
    case_bool_decide.
    2:{ rewrite transformToResponse_at. by apply entry_step_same. }
    cbv zeta. rewrite transformToResponse_at.
    eapply (entry_step_insert host w _ id d); [exact Hd | | reflexivity].
    right; left. split; [exact Hs |]. by do 2 eexists.
  - (* getMyTasks *)
    destruct Hv as [Hp Hl].
    unfold TaskController_getMyTasks. rewrite snd_bind_ret.
    rewrite (getMyTasks_run host user_uid query w Hp Hl). cbv zeta. cbn [snd].
    destruct (getMyTasks_world host user_uid query w) as (_ & _ & _ & _ & Ht).
    cbv zeta in Ht. intros k. rewrite Ht.
    destruct (tasks w !! k) as [d|] eqn:Hd; [| done]. cbn.
    left. exists d. split; [done |].
    destruct (bool_decide _); [| by left].
    unfold reconciled, stale.
    destruct (bool_decide (status d = TaskStatus.PENDING)) eqn:Hs; [| by left].
    apply bool_decide_eq_true in Hs.
    destruct (bool_decide (expiresAt (urgency d) <= _)); [| by left].
    right; left. split; [exact Hs |]. by do 2 eexists.
  - (* updateTaskStatus *)
    unfold TaskController_updateTaskStatus. rewrite snd_bind_ret.
    apply updateTaskStatus_step.
  - (* updateTaskReaction *)
    unfold TaskController_updateTaskReaction. rewrite snd_bind_ret.
    destruct (tasks w !! id) as [d|] eqn:Hd.
    2:{ rewrite updateTaskReaction_absent by assumption. by apply entry_step_same. }
    rewrite (updateTaskReaction_run _ _ _ d) by assumption.
    case_bool_decide as Ha; [by apply entry_step_same |].
    case_bool_decide as Hs; [by apply entry_step_same |].
    destruct (limit_reached d reaction) eqn:Hlim; [by apply entry_step_same |].
    cbv zeta. rewrite transformToResponse_at. cbn [snd].
    eapply (entry_step_insert host w _ id d); [exact Hd | |].
    2:{ cbn [after_clock_reads tasks].
        apply (proj1 (reaction_stored_tasks host w id d reaction)). }
    right; right. split; [by destruct (decide (status d = TaskStatus.PENDING)) |].
    by do 2 eexists.
  - (* completeTask *)
    unfold TaskController_completeTask. rewrite snd_bind_ret.
    apply updateTaskStatus_step.
  - (* cancelTask *)
    unfold TaskController_cancelTask. rewrite snd_bind_ret.
    apply updateTaskStatus_step.
  - (* deleteTask *)
    unfold TaskController_deleteTask, deleteTask. run_monad.
    destruct (tasks w !! id) as [d|] eqn:Hd; cbn; [| by apply entry_step_same].
    case_bool_decide; cbn; [by apply entry_step_same |].
    intros k. cbn. destruct (decide (k = id)) as [-> | Hne].
    + by rewrite lookup_delete_eq.
    + rewrite lookup_delete_ne by done.
      destruct (tasks w !! k) as [x|] eqn:Hx; [| done].
      left. exists x. split; [done | by left].
Qed.

Section IdsGrow.
Context {A B : Type}.

Lemma ids_grow_ret (a : A) : ids_grow (ret a).
Proof. intros w. cbn. lia. Qed.

Lemma ids_grow_throw (e : Exception) : ids_grow (@throw A e).
Proof. intros w. cbn. lia. Qed.

Lemma ids_grow_bind (m : M A) (k : A -> M B) :
  ids_grow m -> (forall a, ids_grow (k a)) -> ids_grow (bind m k).
Proof.
  intros Hm Hk w. unfold bind. specialize (Hm w).
  destruct (m w) as [[a|e] w1]; cbn in *; [| exact Hm].
  specialize (Hk a w1). lia.
Qed.

Lemma ids_grow_try_catch (m : M A) (h : Exception -> M A) :
  ids_grow m -> (forall e, ids_grow (h e)) -> ids_grow (try_catch m h).
Proof.
  intros Hm Hh w. unfold try_catch. specialize (Hm w).
  destruct (m w) as [[a|e] w1]; cbn in *; [exact Hm |].
  specialize (Hh e w1). lia.
Qed.
End IdsGrow.

Section AlertIds.
Variable host : Host.

Lemma ids_grow_now : ids_grow (now host).
Proof. intros w. cbn. lia. Qed.

Lemma ids_grow_users_get u : ids_grow (users_get u).
Proof. intros w. cbn. lia. Qed.

Lemma ids_grow_notifications_add n : ids_grow (notifications_add host n).
Proof. intros w. cbn. lia. Qed.

Lemma ids_grow_notifications_update ref us : ids_grow (notifications_update ref us).
Proof. intros w. unfold notifications_update. destruct (notifications w !! ref); cbn; lia. Qed.

Lemma ids_grow_push chunk : ids_grow (sendPushNotificationsAsync host chunk).
Proof. intros w. unfold sendPushNotificationsAsync. destruct (expo host _ _); cbn; lia. Qed.

Lemma ids_grow_check taskId r ty : ids_grow (checkExistingNotification taskId r ty).
Proof. intros w. cbn. lia. Qed.

Lemma ids_grow_send_chunks chunks tickets : ids_grow (send_chunks host chunks tickets).
Proof.
  revert tickets. induction chunks as [|c rest IH]; intros tickets; cbn.
  - apply ids_grow_ret.
  - apply ids_grow_bind; [apply ids_grow_push | intros ts; apply IH].
Qed.

Lemma ids_grow_sendPushNotification params : ids_grow (sendPushNotification host params).
Proof.
  unfold sendPushNotification, createNotificationRecord, getUser,
    updateNotificationStatus, sendExpoNotification.
  repeat first
    [ apply ids_grow_ret | apply ids_grow_throw | apply ids_grow_now
    | apply ids_grow_users_get | apply ids_grow_notifications_add
    | apply ids_grow_notifications_update | apply ids_grow_check
    | apply ids_grow_send_chunks
    | apply ids_grow_bind; [| intros ?]
    | apply ids_grow_try_catch; [| intros ?]
    | match goal with
      | |- ids_grow (if ?b then _ else _) => destruct b
      | |- ids_grow (match ?x with _ => _ end) => destruct x
      end ].
Qed.

Lemma ids_grow_reaction_notification taskId c a an tt r :
  ids_grow (sendTaskReactionNotification host taskId c a an tt r).
Proof. apply ids_grow_sendPushNotification. Qed.

Lemma ids_grow_assignment_notification taskId a c cn tt :
  ids_grow (sendTaskAssignmentNotification host taskId a c cn tt).
Proof. apply ids_grow_sendPushNotification. Qed.
End AlertIds.

Lemma updateTaskStatus_ids (host : Host) (w : World) (taskId : string)
    (new_status : TaskStatus.t) (userUid : option string) :
  ids_drawn (snd (updateTaskStatus host taskId new_status userUid w)) = ids_drawn w.
Proof.
  destruct (tasks w !! taskId) as [d|] eqn:Hd.
  2:{ by rewrite updateTaskStatus_absent by assumption. }
  rewrite (updateTaskStatus_run _ _ _ d) by assumption.
  destruct (status_update_denied d new_status userUid); [reflexivity |].
  case_bool_decide as Hs; [| reflexivity].
  cbv zeta. by rewrite transformToResponse_at.
Qed.

(** No request to the task endpoints takes back an id. *)
Lemma handle_ids (host : Host) (user_uid : string) (r : TaskRequest) (w : World) :
  valid_request r ->
  (ids_drawn w <= ids_drawn (handle host user_uid r w))%nat.
Proof.
  intros Hv. destruct r as [dto | id | query | id s | id reaction | id | id | id];
    cbn [handle].
  - (* createTask *)
    unfold TaskController_createTask. rewrite snd_bind_ret.
    destruct (create_lookups host dto user_uid w) as [[creator assignee]|] eqn:Hl.
    2:{ by destruct (createTask_rejected host dto user_uid w Hl) as (e & ->). }
    rewrite (createTask_run host dto user_uid w creator assignee Hl). cbv zeta.
    match goal with
    | |- context [sendTaskAssignmentNotification host ?a ?b ?c ?d ?e ?w1] =>
        pose proof (ids_grow_assignment_notification host a b c d e w1) as Hg;
        destruct (sendTaskAssignmentNotification host a b c d e w1) as [[[]|error] w2]
    end;
      cbn [fst snd] in Hg |- *; rewrite transformToResponse_at; cbn in Hg |- *; lia.
  - (* getTask *)
    destruct (tasks w !! id) as [d|] eqn:Hd.
    2:{ by rewrite getTaskById_absent by assumption. }
    rewrite (getTaskById_run host w id user_uid d Hd).
    destruct (_ && _); [reflexivity |].
    case_bool_decide as Hs.
    2:{ by rewrite transformToResponse_at. }
    case_bool_decide.
    2:{ by rewrite transformToResponse_at. }
    cbv zeta. by rewrite transformToResponse_at.
  - (* getMyTasks *)
    destruct Hv as [Hp Hl].
    unfold TaskController_getMyTasks. rewrite snd_bind_ret.
    rewrite (getMyTasks_run host user_uid query w Hp Hl). cbv zeta. cbn [snd].
    destruct (expiry_batch_applied (clock host (clock_reads w))
                (page_docs user_uid query (tasks w))
                (after_clock_reads (2 * length (page_docs user_uid query (tasks w)) + 1) w))
      as (_ & _ & _ & _ & Hi & _).
    + apply page_docs_NoDup.
    + intros k d Hin. by apply page_docs_elem in Hin as [Hd _].
    + cbv zeta in Hi. rewrite Hi. reflexivity.
  - (* updateTaskStatus *)
    unfold TaskController_updateTaskStatus. rewrite snd_bind_ret.
    by rewrite updateTaskStatus_ids.
  - (* updateTaskReaction *)
    unfold TaskController_updateTaskReaction. rewrite snd_bind_ret.
    destruct (tasks w !! id) as [d|] eqn:Hd.
    2:{ by rewrite updateTaskReaction_absent by assumption. }
    rewrite (updateTaskReaction_run _ _ _ d) by assumption.
    case_bool_decide as Ha; [reflexivity |].
    case_bool_decide as Hs; [reflexivity |].
    destruct (limit_reached d reaction) eqn:Hlim; [reflexivity |].
    cbv zeta. rewrite transformToResponse_at. cbn [snd after_clock_reads ids_drawn].
    match goal with
    | |- context [sendTaskReactionNotification host ?a ?b ?c ?d ?e ?f ?w1] =>
        pose proof (ids_grow_reaction_notification host a b c d e f w1) as Hg
    end.
    cbn in Hg |- *. lia.
  - (* completeTask *)
    unfold TaskController_completeTask. rewrite snd_bind_ret.
    by rewrite updateTaskStatus_ids.
  - (* cancelTask *)
    unfold TaskController_cancelTask. rewrite snd_bind_ret.
    by rewrite updateTaskStatus_ids.
  - (* deleteTask *)
    unfold TaskController_deleteTask, deleteTask. run_monad.
    destruct (tasks w !! id) as [d|] eqn:Hd; cbn; [| reflexivity].
    case_bool_decide; cbn; reflexivity.
Qed.

Lemma handle_all_step (host : Host) (rs : list (string * TaskRequest)) :
  forall w k d',
    Forall (fun ur => valid_request ur.2) rs ->
    (forall n, (ids_drawn w <= n)%nat -> autoId host n <> k) ->
    tasks (handle_all host rs w) !! k = Some d' ->
    exists d, tasks w !! k = Some d /\ rtc task_change d d'.
Proof.
  induction rs as [|[u r] rest IH]; intros w k d' Hv Hfresh Hd'; cbn in Hd'.
  - by exists d'.
  - apply Forall_cons in Hv as [Hr Hv]. cbn in Hr.
    pose proof (handle_ids host u r w Hr) as Hids.
    destruct (IH _ _ _ Hv (fun n Hn => Hfresh n (Nat.le_trans _ _ _ Hids Hn)) Hd')
      as (d1 & Hd1 & Hrtc).
    pose proof (handle_step host u r w Hr k) as Hstep. rewrite Hd1 in Hstep.
    destruct Hstep as [(d & Hd & Hch) | [Hk _]].
    + exists d. split; [exact Hd |]. by eapply rtc_l.
    + by destruct (Hfresh (ids_drawn w) (Nat.le_refl _)).
Qed.

Lemma task_change_ok (d d' : TaskDocument) :
  task_change d d' -> task_ok d -> task_ok d'.
Proof.
  intros [-> | [(Hs & s & t & ->) | (Hs & r & t & Hlim & ->)]] (Httl & Hexp & Hcnt & Hne).
  - done.
  - unfold task_ok. cbn. tauto.
  - unfold reaction_update, limit_reached in *.
    destruct (bool_decide (r = TaskReaction.RUNNING_LATE)); cbn in Hlim.
    + apply bool_decide_eq_false in Hlim.
      unfold task_ok. cbn.
      unfold TASK_TIME_MINUTES.MAX_EXTENSIONS, TASK_TIME_MS.RUNNING_LATE_EXTENSION,
        TASK_TIME_MS.MINUTE, TASK_TIME_MS.DEFAULT_TTL_AFTER_EXPIRY in *.
      repeat split; try done; lia.
    + unfold task_ok. cbn. tauto.
Qed.

Lemma task_created_ok (host : Host) (d' : TaskDocument) :
  task_created host d' -> task_ok d'.
Proof.
  intros (dto & creator & assignee & now_ms & n & Hne & ->).
  unfold task_ok. cbn.
  unfold TASK_TIME_MINUTES.MAX_EXTENSIONS, TASK_TIME_MS.RUNNING_LATE_EXTENSION,
    TASK_TIME_MS.MINUTE, TASK_TIME_MS.DEFAULT_TTL_AFTER_EXPIRY.
  repeat split; try done; lia.
Qed.

(** X15. An invariant of the tasks collection.  If every stored task has
    ttl = deadline + 7 days, deadline = createdAt + durationMinutes minutes
    + 30 minutes per counted extension, an extension count from 0 to 3,
    and a creator different from the assignee, then the same holds after
    any sequence of requests to the task endpoints, by whatever users and
    whether they succeed or fail.  In particular a deadline never lies
    more than 90 minutes after createdAt + durationMinutes. *)
Theorem task_endpoints_keep_the_store_consistent (host : Host)
    (rs : list (string * TaskRequest)) (w : World) :
  Forall (fun ur => valid_request ur.2) rs ->
  map_Forall (fun _ d => task_ok d) (tasks w) ->
  map_Forall
    (fun _ d =>
       task_ok d /\
       expiresAt (urgency d) <= createdAt d + (durationMinutes (urgency d) + 90) * 60000)
    (tasks (handle_all host rs w)).
Proof.
  intros Hv Hok.
  assert (Hall : map_Forall (fun _ d => task_ok d) (tasks (handle_all host rs w))).
  { revert w Hok. induction rs as [|[u r] rest IH]; intros w Hok; [exact Hok |].
    apply Forall_cons in Hv as [Hr Hv]. cbn in Hr |- *.
    apply (IH Hv). intros k d' Hd'.
    pose proof (handle_step host u r w Hr k) as Hstep. rewrite Hd' in Hstep.
    destruct Hstep as [(d & Hd & Hch) | [_ Hcr]].
    - eapply task_change_ok; [exact Hch | by eapply Hok].
    - by eapply task_created_ok. }
  intros k d Hd. pose proof (Hall k d Hd) as Hd_ok. split; [exact Hd_ok |].
  destruct Hd_ok as (_ & Hexp & Hcnt & _).
  unfold TASK_TIME_MINUTES.MAX_EXTENSIONS, TASK_TIME_MS.RUNNING_LATE_EXTENSION,
    TASK_TIME_MS.MINUTE in *.
  lia.
Qed.

Lemma task_endpoints_keep_the_store_consistent_witness :
  map_Forall
    (fun _ d =>
       task_ok d /\
       expiresAt (urgency d) <= createdAt d + (durationMinutes (urgency d) + 90) * 60000)
    (tasks (handle_all Sample.host
              [("alice", Req_createTask Sample.a_dto);
               ("bob", Req_updateTaskReaction "doc-0" TaskReaction.RUNNING_LATE);
               ("bob", Req_completeTask "doc-0")]
              Sample.empty_world)).
Proof.
  apply (task_endpoints_keep_the_store_consistent Sample.host
           [("alice", Req_createTask Sample.a_dto);
            ("bob", Req_updateTaskReaction "doc-0" TaskReaction.RUNNING_LATE);
            ("bob", Req_completeTask "doc-0")]
           Sample.empty_world).
  - repeat constructor.
  - apply map_Forall_empty.
Defined.

Lemma rtc_task_change_closed (d d' : TaskDocument) :
  rtc task_change d d' -> status d <> TaskStatus.PENDING -> d' = d.
Proof.
  induction 1 as [|x y z Hch _ IH]; intros Hs; [reflexivity |].
  destruct Hch as [-> | [(Hp & _) | (Hp & _)]]; [by apply IH | done | done].
Qed.

(** X16. A task that is not pending is frozen.  Whatever requests follow,
    by whatever users, a stored task whose status is completed, cancelled
    or expired is afterwards either gone (deleted) or stored with every
    field as it was: no endpoint changes its status, reaction, deadline,
    extension count or updatedAt.  This holds of every stored task, those
    the service created included; all it asks of the store's id generator
    is that none of the ids it hands out from now on is the task's. *)
Theorem closed_task_is_frozen (host : Host) (rs : list (string * TaskRequest))
    (w : World) (k : string) (d : TaskDocument) :
  Forall (fun ur => valid_request ur.2) rs ->
  (forall n, (ids_drawn w <= n)%nat -> autoId host n <> k) ->
  tasks w !! k = Some d ->
  status d <> TaskStatus.PENDING ->
  tasks (handle_all host rs w) !! k = Some d \/
  tasks (handle_all host rs w) !! k = None.
Proof.
  intros Hv Hfresh Hd Hs.
  destruct (tasks (handle_all host rs w) !! k) as [d'|] eqn:Hd'; [left | by right].
  destruct (handle_all_step host rs w k d' Hv Hfresh Hd') as (d0 & Hd0 & Hrtc).
  assert (d0 = d) as -> by congruence.
  by rewrite (rtc_task_change_closed d d' Hrtc Hs).
Qed.

Lemma closed_task_is_frozen_witness :
  let w := handle_all Sample.host
             [("alice", Req_createTask Sample.a_dto);
              ("bob", Req_completeTask "doc-0")]
             Sample.empty_world in
  let w' := handle_all Sample.host
              [("bob", Req_updateTaskReaction "doc-0" TaskReaction.RUNNING_LATE);
               ("alice", Req_cancelTask "doc-0");
               ("alice", Req_createTask Sample.a_dto);
               ("bob", Req_getTask "doc-0")]
              w in
  exists d,
    tasks w !! "doc-0" = Some d /\
    status d = TaskStatus.COMPLETED /\
    ids_drawn w = 2%nat /\
    (tasks w' !! "doc-0" = Some d \/ tasks w' !! "doc-0" = None).
Proof.
  eexists. split; [vm_compute; reflexivity |].
  split; [reflexivity |]. split; [vm_compute; reflexivity |].
  apply (closed_task_is_frozen Sample.host
           [("bob", Req_updateTaskReaction "doc-0" TaskReaction.RUNNING_LATE);
            ("alice", Req_cancelTask "doc-0");
            ("alice", Req_createTask Sample.a_dto);
            ("bob", Req_getTask "doc-0")]
           (handle_all Sample.host
              [("alice", Req_createTask Sample.a_dto);
               ("bob", Req_completeTask "doc-0")]
              Sample.empty_world)
           "doc-0").
  - repeat constructor.
  - intros n Hn. vm_compute in Hn.
    destruct n as [|[|[|n]]]; [lia | lia | discriminate | discriminate].
  - vm_compute. reflexivity.
  - discriminate.
Defined.

Lemma rtc_task_change_fields (d d' : TaskDocument) :
  rtc task_change d d' ->
  title d' = title d /\ note d' = note d /\
  createdBy d' = createdBy d /\ assignedTo d' = assignedTo d /\
  createdAt d' = createdAt d /\
  durationMinutes (urgency d') = durationMinutes (urgency d) /\
  notification d' = notification d /\
  0 <= default 0 (extensionCount d') - default 0 (extensionCount d) /\
  expiresAt (urgency d') - expiresAt (urgency d) =
    (default 0 (extensionCount d') - default 0 (extensionCount d))
    * TASK_TIME_MS.RUNNING_LATE_EXTENSION.
Proof.
  induction 1 as [|x y z Hch _ IH]; [repeat split; lia |].
  destruct IH as (-> & -> & -> & -> & -> & -> & -> & Hc & He).
  destruct Hch as [-> | [(Hs & s & t & ->) | (Hs & r & t & Hlim & ->)]].
  - by repeat split.
  - by repeat split.
  - unfold reaction_update in *.
    destruct (bool_decide (r = TaskReaction.RUNNING_LATE)); cbn in Hc, He |- *.
    + unfold TASK_TIME_MS.RUNNING_LATE_EXTENSION in *. repeat split; try done; lia.
    + by repeat split.
Qed.

(** X17. The history of a stored task.  Across any sequence of requests
    to the task endpoints a task that is still stored keeps its title,
    note, creator, assignee, createdAt, duration and notification block;
    its extension count does not decrease, and its deadline has moved
    forward by exactly 30 minutes per extension counted since.  This holds
    of every stored task, those the service created included; all it asks
    of the store's id generator is that none of the ids it hands out from
    now on is the task's. *)
Theorem stored_task_history (host : Host) (rs : list (string * TaskRequest))
    (w : World) (k : string) (d d' : TaskDocument) :
  Forall (fun ur => valid_request ur.2) rs ->
  (forall n, (ids_drawn w <= n)%nat -> autoId host n <> k) ->
  tasks w !! k = Some d ->
  tasks (handle_all host rs w) !! k = Some d' ->
  title d' = title d /\ note d' = note d /\
  createdBy d' = createdBy d /\ assignedTo d' = assignedTo d /\
  createdAt d' = createdAt d /\
  durationMinutes (urgency d') = durationMinutes (urgency d) /\
  notification d' = notification d /\
  default 0 (extensionCount d) <= default 0 (extensionCount d') /\
  expiresAt (urgency d') =
    expiresAt (urgency d)
    + (default 0 (extensionCount d') - default 0 (extensionCount d)) * (30 * 60 * 1000).
Proof.
  intros Hv Hfresh Hd Hd'.
  destruct (handle_all_step host rs w k d' Hv Hfresh Hd') as (d0 & Hd0 & Hrtc).
  assert (d0 = d) as -> by congruence.
  destruct (rtc_task_change_fields d d' Hrtc)
    as (? & ? & ? & ? & ? & ? & ? & Hc & He).
  unfold TASK_TIME_MS.RUNNING_LATE_EXTENSION in He.
  repeat split; try done; lia.
Qed.

Lemma stored_task_history_witness :
  let w := handle_all Sample.host
             [("alice", Req_createTask Sample.a_dto)] Sample.empty_world in
  let w' := handle_all Sample.host
              [("bob", Req_updateTaskReaction "doc-0" TaskReaction.RUNNING_LATE);
               ("bob", Req_updateTaskReaction "doc-0" TaskReaction.ON_IT);
               ("alice", Req_createTask Sample.a_dto);
               ("alice", Req_cancelTask "doc-0")]
              w in
  exists d d',
    tasks w !! "doc-0" = Some d /\
    tasks w' !! "doc-0" = Some d' /\
    ids_drawn w = 2%nat /\
    extensionCount d = Some 0 /\ extensionCount d' = Some 1 /\
    title d' = title d /\
    default 0 (extensionCount d) <= default 0 (extensionCount d') /\
    expiresAt (urgency d') =
      expiresAt (urgency d)
      + (default 0 (extensionCount d') - default 0 (extensionCount d)) * (30 * 60 * 1000).
Proof.
  do 2 eexists. split; [vm_compute; reflexivity |].
  split; [vm_compute; reflexivity |].
  split; [vm_compute; reflexivity |].
  split; [reflexivity |]. split; [reflexivity |].
  match goal with
  | |- title ?d' = title ?d /\ _ =>
      destruct (stored_task_history Sample.host
              [("bob", Req_updateTaskReaction "doc-0" TaskReaction.RUNNING_LATE);
               ("bob", Req_updateTaskReaction "doc-0" TaskReaction.ON_IT);
               ("alice", Req_createTask Sample.a_dto);
               ("alice", Req_cancelTask "doc-0")]
              (handle_all Sample.host
                 [("alice", Req_createTask Sample.a_dto)] Sample.empty_world)
              "doc-0" d d'
              ltac:(repeat constructor)
              ltac:(intros n Hn; vm_compute in Hn;
                    destruct n as [|[|[|n]]]; [lia | lia | discriminate | discriminate])
              ltac:(vm_compute; reflexivity)
              ltac:(vm_compute; reflexivity))
        as (Ht & _ & _ & _ & _ & _ & _ & Hc & He)
  end.
  by repeat split.
Defined.

(* ================================================================== *)
(** * Further properties of the alert service *)

(** ** Counting the documents of a query *)

Lemma filter_length_Permutation {A} (p : A -> bool) (l1 l2 : list A) :
  l1 ≡ₚ l2 -> length (List.filter p l1) = length (List.filter p l2).
Proof.
  induction 1 as [|x l1 l2 _ IH|x y l|l1 l2 l3 _ IH1 _ IH2]; cbn.
  - reflexivity.
  - destruct (p x); cbn; by rewrite IH.
  - by destruct (p x), (p y).
  - by rewrite IH1.
Qed.

Lemma filter_ext_elem {A} (p q : A -> bool) (l : list A) :
  (forall x, x ∈ l -> p x = q x) -> List.filter p l = List.filter q l.
Proof.
  induction l as [|x l IH]; intros Hpq; [reflexivity |]. cbn.
  rewrite (Hpq x) by left. rewrite IH; [reflexivity |].
  intros y Hy. apply Hpq. by right.
Qed.

Lemma matching_notifications_elem (p : INotificationDocument -> bool)
    (ns : gmap string INotificationDocument) (k : string) (n : INotificationDocument) :
  (k, n) ∈ matching_notifications p ns <-> ns !! k = Some n /\ p n = true.
Proof.
  unfold matching_notifications.
  rewrite list_elem_of_In, filter_In, <- list_elem_of_In, elem_of_map_to_list.
  reflexivity.
Qed.

Lemma matching_notifications_NoDup (p : INotificationDocument -> bool)
    (ns : gmap string INotificationDocument) :
  NoDup (matching_notifications p ns).*1.
Proof.
  unfold matching_notifications.
  eapply sublist_NoDup; [apply (NoDup_fst_map_to_list ns) |].
  apply fmap_sublist.
  induction (map_to_list ns) as [|x l IH]; cbn; [constructor |].
  destruct (p x.2); by constructor.
Qed.

Lemma matching_notifications_ext (p q : INotificationDocument -> bool)
    (ns : gmap string INotificationDocument) :
  (forall k n, ns !! k = Some n -> p n = q n) ->
  matching_notifications p ns = matching_notifications q ns.
Proof.
  intros Hpq. apply filter_ext_elem. intros [k n] Hin.
  apply elem_of_map_to_list in Hin. by apply (Hpq k).
Qed.

Lemma matching_notifications_none (p : INotificationDocument -> bool)
    (ns : gmap string INotificationDocument) :
  (forall k n, ns !! k = Some n -> p n = false) ->
  matching_notifications p ns = [].
Proof.
  intros Hp. rewrite (matching_notifications_ext p (fun _ => false)) by exact Hp.
  unfold matching_notifications. induction (map_to_list ns); [reflexivity | assumption].
Qed.

Lemma count_insert_fresh (p : INotificationDocument -> bool)
    (ns : gmap string INotificationDocument) (k : string) (n : INotificationDocument) :
  ns !! k = None ->
  length (matching_notifications p (<[k := n]> ns)) =
  ((if p n then 1 else 0) + length (matching_notifications p ns))%nat.
Proof.
  intros Hk. unfold matching_notifications.
  rewrite (filter_length_Permutation _ _ _ (map_to_list_insert ns k n Hk)).
  cbn. by destruct (p n).
Qed.

Lemma count_insert (p : INotificationDocument -> bool)
    (ns : gmap string INotificationDocument) (k : string) (n n' : INotificationDocument) :
  ns !! k = Some n ->
  (length (matching_notifications p (<[k := n']> ns)) + (if p n then 1 else 0) =
   length (matching_notifications p ns) + (if p n' then 1 else 0))%nat.
Proof.
  intros Hk.
  replace (<[k := n']> ns) with (<[k := n']> (delete k ns))
    by apply insert_delete_eq.
  replace (matching_notifications p ns)
    with (matching_notifications p (<[k := n]> (delete k ns)))
    by (by rewrite insert_delete_id).
  rewrite !count_insert_fresh by apply lookup_delete_eq.
  lia.
Qed.

Lemma count_delete (p : INotificationDocument -> bool)
    (ns : gmap string INotificationDocument) (k : string) (n : INotificationDocument) :
  ns !! k = Some n ->
  (length (matching_notifications p (delete k ns)) + (if p n then 1 else 0) =
   length (matching_notifications p ns))%nat.
Proof.
  intros Hk.
  replace (matching_notifications p ns)
    with (matching_notifications p (<[k := n]> (delete k ns)))
    by (by rewrite insert_delete_id).
  rewrite count_insert_fresh by apply lookup_delete_eq.
  lia.
Qed.

Lemma count_fmap (p : INotificationDocument -> bool)
    (f : INotificationDocument -> INotificationDocument)
    (ns : gmap string INotificationDocument) :
  length (matching_notifications p (f <$> ns)) =
  length (matching_notifications (fun n => p (f n)) ns).
Proof.
  unfold matching_notifications. rewrite map_to_list_fmap.
  induction (map_to_list ns) as [|[k n] l IH]; [reflexivity |]. cbn.
  destruct (p (f n)); cbn; by rewrite IH.
Qed.

(** ** Marking as read *)

Lemma set_notifications_same (w : World) : set_notifications (notifications w) w = w.
Proof. by destruct w. Qed.

Lemma markNotificationAsRead_run (host : Host) (w : World) (id : string)
    (n : INotificationDocument) :
  notifications w !! id = Some n ->
  markNotificationAsRead host id w =
  (Returned {| mr_message := "Notification marked as read" |},
   set_notifications (<[id := mark_read (clock host (clock_reads w)) n]> (notifications w))
     (after_clock_reads 1 w)).
Proof.
  intros Hn. unfold markNotificationAsRead, notifications_get, notifications_mark_read, now.
  run_monad. rewrite Hn. cbn. rewrite Hn. reflexivity.
Qed.

(** X18. PATCH /notifications/:id/read.  For an unknown id the service
    throws the plain error "Notification not found" and changes nothing.
    For a stored notification, whoever its recipient is and whatever its
    state, the call answers "Notification marked as read" and stores
    isRead = true, status read and readAt = the instant of the call; the
    other fields, the other notifications and the tasks are as before.
    Marking a notification that was read already replaces its readAt. *)
Theorem markNotificationAsRead_outcomes (host : Host) (w : World) (id : string) :
  (notifications w !! id = None ->
     AlertController_markAsRead host id w =
     (Thrown (Error "Notification not found"), w)) /\
  (forall n, notifications w !! id = Some n ->
     exists w' n',
       AlertController_markAsRead host id w =
         (Returned {| mr_message := "Notification marked as read" |}, w') /\
       notifications w' = <[id := n']> (notifications w) /\
       tasks w' = tasks w /\ users w' = users w /\
       isRead n' = true /\
       n_status n' = NotificationStatus.READ /\
       readAt n' = Some (clock host (clock_reads w)) /\
       n_type n' = n_type n /\ recipientUid n' = recipientUid n /\
       senderUid n' = senderUid n /\ n_taskId n' = n_taskId n /\
       n_title n' = n_title n /\ n_body n' = n_body n /\ n_data n' = n_data n /\
       n_createdAt n' = n_createdAt n /\ n_sentAt n' = n_sentAt n /\
       fcmMessageId n' = fcmMessageId n /\ n_error n' = n_error n).
Proof.
  split.
  - intros Hn. unfold AlertController_markAsRead, markNotificationAsRead, notifications_get.
    run_monad. by rewrite Hn.
  - intros n Hn. unfold AlertController_markAsRead.
    rewrite (markNotificationAsRead_run host w id n Hn).
    do 2 eexists. split; [reflexivity |]. by repeat split.
Qed.

Lemma markNotificationAsRead_outcomes_witness :
  exists w' n',
    AlertController_markAsRead Sample.host "n-2" AlertSample.inbox =
      (Returned {| mr_message := "Notification marked as read" |}, w') /\
    notifications w' = <[ "n-2" := n' ]> AlertSample.notes /\
    readAt (AlertSample.a_note "bob" 1699999100000 true) = Some 1699999101000 /\
    readAt n' = Some 1700000000000.
Proof.
  destruct (proj2 (markNotificationAsRead_outcomes Sample.host AlertSample.inbox "n-2")
              (AlertSample.a_note "bob" 1699999100000 true))
    as (w' & n' & Hrun & Hn & _ & _ & _ & _ & Hread & _).
  - vm_compute. reflexivity.
  - exists w', n'. by repeat split.
Defined.

(** X19. The unread count after PATCH /notifications/:id/read.  Marking
    an unread notification lowers the unread count of its recipient by
    exactly one and leaves the count of every other user as it was;
    marking a notification that was read already changes no count. *)
Theorem unread_count_after_mark_as_read (host : Host) (w : World) (id : string)
    (n : INotificationDocument) (uid : string) :
  notifications w !! id = Some n ->
  exists before after w',
    getUnreadCount uid w = (Returned before, w) /\
    getUnreadCount uid (snd (markNotificationAsRead host id w)) = (Returned after, w') /\
    after = (if bool_decide (recipientUid n = uid) && negb (isRead n)
             then before - 1 else before) /\
    0 <= after.
Proof.
  intros Hn. rewrite (markNotificationAsRead_run host w id n Hn). cbn [snd].
  unfold getUnreadCount, notifications_count. do 3 eexists.
  split; [reflexivity |]. split; [reflexivity |].
  cbn [set_notifications notifications].
  set (p := notification_matches uid true None).
  pose proof (count_insert p (notifications w) id n
                (mark_read (clock host (clock_reads w)) n) Hn) as Hc.
  assert (Hafter : p (mark_read (clock host (clock_reads w)) n) = false).
  { unfold p, notification_matches. cbn. by rewrite andb_false_r. }
  assert (Hbefore : p n = bool_decide (recipientUid n = uid) && negb (isRead n)).
  { unfold p, notification_matches. rewrite andb_true_r. f_equal.
    by destruct (isRead n). }
  rewrite Hafter in Hc. rewrite <- Hbefore.
  split; [destruct (p n); lia | lia].
Qed.

Lemma unread_count_after_mark_as_read_witness :
  exists before after w',
    getUnreadCount "bob" AlertSample.inbox = (Returned before, AlertSample.inbox) /\
    getUnreadCount "bob" (snd (markNotificationAsRead Sample.host "n-1" AlertSample.inbox))
      = (Returned after, w') /\
    after = before - 1.
Proof.
  destruct (unread_count_after_mark_as_read Sample.host AlertSample.inbox "n-1"
              (AlertSample.a_note "bob" 1699999000000 false) "bob")
    as (before & after & w' & Hb & Ha & Heq & _).
  - vm_compute. reflexivity.
  - exists before, after, w'. by repeat split.
Defined.

Lemma fold_alter_lookup (f : INotificationDocument -> INotificationDocument)
    (refs : list string) :
  NoDup refs ->
  forall (ns : gmap string INotificationDocument) (id : string),
    fold_left (fun ns ref => alter f ref ns) refs ns !! id =
    if bool_decide (id ∈ refs) then f <$> ns !! id else ns !! id.
Proof.
  induction refs as [|r rest IH]; intros Hnd ns id; cbn [fold_left].
  - rewrite bool_decide_eq_false_2; [done | apply not_elem_of_nil].
  - apply NoDup_cons in Hnd as [Hr Hnd]. rewrite (IH Hnd).
    destruct (decide (id = r)) as [-> | Hne].
    + rewrite (bool_decide_eq_false_2 _ Hr), bool_decide_eq_true_2 by left.
      apply lookup_alter_eq.
    + rewrite lookup_alter_ne by done.
      destruct (decide (id ∈ rest)) as [Hin | Hin].
      * by rewrite (bool_decide_eq_true_2 _ Hin), bool_decide_eq_true_2 by (by right).
      * rewrite (bool_decide_eq_false_2 _ Hin), bool_decide_eq_false_2; [done |].
        rewrite elem_of_cons. intuition.
Qed.

Lemma fold_delete_lookup (refs : list string) :
  forall (ns : gmap string INotificationDocument) (id : string),
    fold_left (fun ns ref => delete ref ns) refs ns !! id =
    if bool_decide (id ∈ refs) then None else ns !! id.
Proof.
  induction refs as [|r rest IH]; intros ns id; cbn [fold_left].
  - rewrite bool_decide_eq_false_2; [done | apply not_elem_of_nil].
  - rewrite IH. destruct (decide (id = r)) as [-> | Hne].
    + rewrite lookup_delete_eq, (bool_decide_eq_true_2 (r ∈ r :: rest)) by left.
      by destruct (bool_decide (r ∈ rest)).
    + rewrite lookup_delete_ne by done.
      destruct (decide (id ∈ rest)) as [Hin | Hin].
      * by rewrite (bool_decide_eq_true_2 _ Hin), bool_decide_eq_true_2 by (by right).
      * rewrite (bool_decide_eq_false_2 _ Hin), bool_decide_eq_false_2; [done |].
        rewrite elem_of_cons. intuition.
Qed.

(** The unread notifications of [uid], marked as read at [t]. *)
Lemma marked_all_lookup (uid : string) (t : Z) (ns : gmap string INotificationDocument) :
  let unread := matching_notifications (notification_matches uid true None) ns in
  fold_left (fun ns ref => alter (mark_read t) ref ns) (fst <$> unread) ns =
  (fun n => if bool_decide (recipientUid n = uid) && negb (isRead n)
            then mark_read t n else n) <$> ns.
Proof.
  intros unread. apply map_eq. intros id.
  rewrite fold_alter_lookup by apply matching_notifications_NoDup.
  rewrite lookup_fmap.
  destruct (ns !! id) as [n|] eqn:Hn; cbn.
  2:{ by destruct (bool_decide _). }
  assert (Hp : notification_matches uid true None n =
               bool_decide (recipientUid n = uid) && negb (isRead n)).
  { unfold notification_matches. rewrite andb_true_r. f_equal. by destruct (isRead n). }
  rewrite <- Hp.
  destruct (notification_matches uid true None n) eqn:Hm.
  - rewrite bool_decide_eq_true_2; [done |].
    apply list_elem_of_fmap. exists (id, n). split; [done |].
    by apply matching_notifications_elem.
  - rewrite bool_decide_eq_false_2; [done |].
    intros Hin. apply list_elem_of_fmap in Hin as ([id' n'] & -> & Hin).
    apply matching_notifications_elem in Hin as [Hn' Hm']. cbn in Hn. congruence.
Qed.

Opaque Nat.ltb.

Lemma markAllNotificationsAsRead_run (host : Host) (w : World) (uid : string) :
  let unread := matching_notifications (notification_matches uid true None)
                  (notifications w) in
  (length unread <= BATCH_WRITE_LIMIT)%nat ->
  markAllNotificationsAsRead host uid w =
  match unread with
  | [] => (Returned {| mr_message := "No unread notifications" |}, w)
  | _ =>
      (Returned {| mr_message :=
                     "Marked " +:+ pretty (length unread) +:+ " notifications as read" |},
       set_notifications
         ((fun n => if bool_decide (recipientUid n = uid) && negb (isRead n)
                    then mark_read (clock host (clock_reads w)) n else n)
            <$> notifications w)
         (after_clock_reads 1 w))
  end.
Proof.
  intros unread Hlen.
  unfold markAllNotificationsAsRead, notifications_where, now, notifications_batch_mark_read.
  run_monad. fold unread.
  destruct unread as [|kv rest] eqn:Hu; [reflexivity |]. rewrite <- Hu in *.
  rewrite length_fmap.
  replace (BATCH_WRITE_LIMIT <? length unread)%nat with false
    by (symmetry; by apply Nat.ltb_ge).
  rewrite (proj2 (forallb_forall _ _)).
  2:{ intros ref Hin. apply bool_decide_eq_true.
      apply in_map_iff in Hin as ([k n] & <- & Hin). apply list_elem_of_In in Hin.
      apply matching_notifications_elem in Hin as [Hn _]. by exists n. }
  cbn. subst unread. rewrite marked_all_lookup. reflexivity.
Qed.

Transparent Nat.ltb.

(** X20. PATCH /notifications/read-all (for at most 500 unread
    notifications, one batch of the store).  The call marks every unread
    notification of the user as read, with readAt the instant of the call
    and status read, and nothing else: notifications of other users and
    those read before, with their readAt, are untouched, as are the tasks.
    The answer is "Marked <n> notifications as read", n being the number
    that were unread, or "No unread notifications" when there were none.
    Afterwards the user's unread count is 0, the counts of other users
    are as before, and a second call answers "No unread notifications"
    and writes nothing. *)
Theorem markAllNotificationsAsRead_outcomes (host : Host) (w : World) (uid : string) :
  let unread := matching_notifications (notification_matches uid true None)
                  (notifications w) in
  (length unread <= 500)%nat ->
  exists resp w',
    AlertController_markAllAsRead host uid w = (Returned resp, w') /\
    mr_message resp =
      match unread with
      | [] => "No unread notifications"
      | _ => "Marked " +:+ pretty (length unread) +:+ " notifications as read"
      end /\
    notifications w' =
      (fun n => if bool_decide (recipientUid n = uid) && negb (isRead n)
                then mark_read (clock host (clock_reads w)) n else n)
      <$> notifications w /\
    tasks w' = tasks w /\
    getUnreadCount uid w' = (Returned 0, w') /\
    (forall other, other <> uid ->
       fst (getUnreadCount other w') = fst (getUnreadCount other w)) /\
    AlertController_markAllAsRead host uid w' =
      (Returned {| mr_message := "No unread notifications" |}, w').
Proof.
  intros unread Hlen. unfold AlertController_markAllAsRead.
  set (f := fun n => if bool_decide (recipientUid n = uid) && negb (isRead n)
                     then mark_read (clock host (clock_reads w)) n else n).
  assert (Hnone : forall k n, (f <$> notifications w) !! k = Some n ->
                              notification_matches uid true None n = false).
  { intros k n Hk. rewrite lookup_fmap in Hk.
    destruct (notifications w !! k) as [n0|]; [| discriminate]. injection Hk as <-.
    unfold f, notification_matches.
    destruct (bool_decide (recipientUid n0 = uid)) eqn:Hr; cbn.
    - destruct (isRead n0) eqn:Hi; cbn; rewrite ?Hr, ?Hi; cbn; by rewrite ?andb_false_r.
    - by rewrite Hr. }
  pose proof (markAllNotificationsAsRead_run host w uid Hlen) as Hrun.
  cbv zeta in Hrun. fold unread f in Hrun.
  destruct unread as [|kv rest] eqn:Hu; rewrite Hrun.
  - (* nothing unread: the collection is a fixed point *)
    assert (Hid : f <$> notifications w = notifications w).
    { apply map_eq. intros k. rewrite lookup_fmap.
      destruct (notifications w !! k) as [n|] eqn:Hk; [| done]. cbn. f_equal.
      unfold f. destruct (bool_decide (recipientUid n = uid) && negb (isRead n)) eqn:Hm;
        [| done].
      assert (Hin : (k, n) ∈ matching_notifications (notification_matches uid true None)
                      (notifications w)).
      { apply matching_notifications_elem. split; [done |].
        unfold notification_matches. apply andb_true_iff in Hm as [-> Hi].
        by destruct (isRead n). }
      fold unread in Hin. rewrite Hu in Hin. by apply elem_of_nil in Hin. }
    do 2 eexists. split; [reflexivity |]. split; [reflexivity |].
    split; [by rewrite Hid |]. split; [reflexivity |].
    split; [| split].
    + unfold getUnreadCount, notifications_count. fold unread. by rewrite Hu.
    + done.
    + exact Hrun.
  - rewrite <- Hu.
    do 2 eexists. split; [reflexivity |]. cbn [mr_message].
    split; [reflexivity |]. split; [reflexivity |]. split; [reflexivity |].
    set (w' := set_notifications _ _).
    assert (Hempty : matching_notifications (notification_matches uid true None)
                       (notifications w') = []).
    { apply matching_notifications_none. exact Hnone. }
    split; [| split].
    + unfold getUnreadCount, notifications_count. by rewrite Hempty.
    + intros other Hne. unfold getUnreadCount, notifications_count. cbn [fst].
      do 2 f_equal. subst w'. cbn [set_notifications notifications].
      rewrite count_fmap. f_equal. apply matching_notifications_ext.
      intros k n _. unfold f, notification_matches.
      destruct (bool_decide (recipientUid n = uid) && negb (isRead n)) eqn:Hm; [| done].
      apply andb_true_iff in Hm as [Hr _]. apply bool_decide_eq_true in Hr.
      cbn [mark_read recipientUid].
      by rewrite !(bool_decide_eq_false_2 (recipientUid n = other)) by congruence.
    + rewrite (markAllNotificationsAsRead_run host w' uid).
      * by rewrite Hempty.
      * rewrite Hempty. cbn. unfold BATCH_WRITE_LIMIT. lia.
Qed.

Lemma markAllNotificationsAsRead_outcomes_witness :
  exists resp w',
    AlertController_markAllAsRead Sample.host "bob" AlertSample.inbox = (Returned resp, w') /\
    mr_message resp = "Marked 2 notifications as read" /\
    getUnreadCount "bob" w' = (Returned 0, w') /\
    fst (getUnreadCount "carol" w') = Returned 1.
Proof.
  destruct (markAllNotificationsAsRead_outcomes Sample.host AlertSample.inbox "bob")
    as (resp & w' & Hrun & Hmsg & _ & _ & Hzero & Hother & _).
  - vm_compute. lia.
  - exists resp, w'. split; [exact Hrun |]. split.
    + rewrite Hmsg. vm_compute. reflexivity.
    + split; [exact Hzero |]. rewrite (Hother "carol") by discriminate.
      vm_compute. reflexivity.
Defined.

(** ** Deleting *)

(** X21. DELETE /notifications/:id.  An unknown id gives the plain error
    "Notification not found"; a notification of another recipient gives
    the plain error "Unauthorized"; neither changes anything.  The
    recipient's call answers "Notification deleted" and removes that
    notification only; afterwards GET /notifications/:id fails with
    NotFound "Notification not found", and the recipient's unread count
    is one lower if the notification was unread. *)
Theorem deleteNotification_outcomes (host : Host) (w : World) (id uid : string) :
  (notifications w !! id = None ->
     AlertController_deleteNotification id uid w =
     (Thrown (Error "Notification not found"), w)) /\
  (forall n, notifications w !! id = Some n -> recipientUid n <> uid ->
     AlertController_deleteNotification id uid w = (Thrown (Error "Unauthorized"), w)) /\
  (forall n, notifications w !! id = Some n -> recipientUid n = uid ->
     exists w',
       AlertController_deleteNotification id uid w =
         (Returned {| mr_message := "Notification deleted" |}, w') /\
       notifications w' = delete id (notifications w) /\
       tasks w' = tasks w /\
       AlertController_getNotificationById id w' =
         (Thrown (NotFoundException "Notification not found"), w') /\
       exists before after,
         getUnreadCount uid w = (Returned before, w) /\
         getUnreadCount uid w' = (Returned after, w') /\
         after = (if isRead n then before else before - 1)).
Proof.
  unfold AlertController_deleteNotification, deleteNotification, notifications_get,
    notifications_delete.
  repeat split.
  - intros Hn. run_monad. by rewrite Hn.
  - intros n Hn Hr. run_monad. rewrite Hn. cbn. by rewrite bool_decide_eq_true_2.
  - intros n Hn Hr. run_monad. rewrite Hn. cbn.
    rewrite bool_decide_eq_false_2 by (intros Hne; by apply Hne). cbn.
    eexists. split; [reflexivity |]. cbn [set_notifications notifications tasks].
    split; [reflexivity |]. split; [reflexivity |]. split.
    + unfold AlertController_getNotificationById, getNotificationById, notifications_get.
      run_monad. by rewrite lookup_delete_eq.
    + unfold getUnreadCount, notifications_count. do 2 eexists.
      split; [reflexivity |]. split; [reflexivity |].
      cbn [set_notifications notifications].
      pose proof (count_delete (notification_matches uid true None) (notifications w)
                    id n Hn) as Hc.
      unfold notification_matches in Hc at 2. rewrite Hr in Hc.
      rewrite bool_decide_eq_true_2 in Hc by done.
      destruct (isRead n);
        [ rewrite (bool_decide_eq_false_2 (true = false)) in Hc by done
        | rewrite (bool_decide_eq_true_2 (false = false)) in Hc by done ];
        cbn [andb] in Hc; lia.
Qed.

Lemma deleteNotification_outcomes_witness :
  AlertController_deleteNotification "n-4" "bob" AlertSample.inbox =
    (Thrown (Error "Unauthorized"), AlertSample.inbox) /\
  exists w',
    AlertController_deleteNotification "n-1" "bob" AlertSample.inbox =
      (Returned {| mr_message := "Notification deleted" |}, w') /\
    AlertController_getNotificationById "n-1" w' =
      (Thrown (NotFoundException "Notification not found"), w').
Proof.
  destruct (deleteNotification_outcomes Sample.host AlertSample.inbox "n-4" "bob")
    as (_ & Hother & _).
  destruct (deleteNotification_outcomes Sample.host AlertSample.inbox "n-1" "bob")
    as (_ & _ & Hown).
  split.
  - apply (Hother (AlertSample.a_note "carol" 1699999300000 false)).
    + vm_compute. reflexivity.
    + discriminate.
  - destruct (Hown (AlertSample.a_note "bob" 1699999000000 false))
      as (w' & Hrun & _ & _ & Hget & _).
    + vm_compute. reflexivity.
    + reflexivity.
    + by exists w'.
Defined.

(** ** Cleaning up *)

Opaque Nat.ltb.

Lemma delete_in_chunks_run (host : Host) (docs : list (string * INotificationDocument)) :
  forall rounds i deleted w,
    (length docs <= i + rounds)%nat ->
    delete_in_chunks rounds 500 docs i deleted w =
    (Returned (deleted + Z.of_nat (length (drop i docs))),
     set_notifications
       (fold_left (fun ns ref => delete ref ns) (fst <$> drop i docs) (notifications w)) w).
Proof.
  induction rounds as [|rounds IH]; intros i deleted w Hlen.
  - cbn [delete_in_chunks]. rewrite drop_ge by lia. cbn.
    rewrite set_notifications_same. unfold ret. do 2 f_equal. lia.
  - cbn [delete_in_chunks].
    destruct (Nat.ltb_spec i (length docs)) as [Hi | Hi].
    2:{ rewrite drop_ge by lia. cbn. rewrite set_notifications_same.
        unfold ret. do 2 f_equal. lia. }
    unfold bind at 1. unfold notifications_batch_delete.
    replace (BATCH_WRITE_LIMIT <? length (take 500 (drop i docs)).*1)%nat with false.
    2:{ symmetry. apply Nat.ltb_ge. rewrite length_fmap, length_take.
        unfold BATCH_WRITE_LIMIT. lia. }
    rewrite IH by lia.
    cbn [set_notifications notifications tasks users journal clock_reads ids_drawn
         push_calls].
    assert (Hsplit : drop i docs = take 500 (drop i docs) ++ drop (i + 500) docs).
    { rewrite <- drop_drop. symmetry. apply take_drop. }
    replace (length (drop i docs))
      with (length (take 500 (drop i docs)) + length (drop (i + 500) docs))%nat
      by (by rewrite <- length_app, <- Hsplit).
    replace ((drop i docs).*1)
      with ((take 500 (drop i docs)).*1 ++ (drop (i + 500) docs).*1)
      by (by rewrite <- fmap_app, <- Hsplit).
    rewrite fold_left_app.
    unfold set_notifications. cbn. do 2 f_equal. lia.
Qed.

Transparent Nat.ltb.

(** X22. [deleteOldNotifications(days)] (30 days when none are given)
    reads the clock once, removes every notification created more than
    that many days before, however many there are (in batches of at most
    500), and returns their number as deletedCount.  Notifications created
    at or after the cutoff, the tasks and the users are untouched. *)
Theorem deleteOldNotifications_outcome (host : Host) (w : World) (days : option Z) :
  let cutoff :=
    clock host (clock_reads w) - default 30 days * (24 * 60 * 60 * 1000) in
  exists w',
    deleteOldNotifications host days w =
      (Returned
         {| deletedCount :=
              Z.of_nat (length (matching_notifications
                                  (fun n => bool_decide (n_createdAt n < cutoff))
                                  (notifications w))) |},
       w') /\
    notifications w' = filter (fun kv => cutoff <= n_createdAt kv.2) (notifications w) /\
    tasks w' = tasks w /\ users w' = users w.
Proof.
  intros cutoff.
  unfold deleteOldNotifications, bind, now, notifications_where, ret.
  cbn [notifications clock_reads]. unfold ALERT_RETENTION.RETENTION_DAYS.
  replace (clock host (clock_reads w) - default 30 days * 24 * 60 * 60 * 1000)
    with cutoff by (unfold cutoff; lia).
  set (old := matching_notifications (fun n => bool_decide (n_createdAt n < cutoff))
                (notifications w)).
  assert (Hkeep : fold_left (fun ns ref => delete ref ns) (fst <$> old) (notifications w) =
                  filter (fun kv => cutoff <= n_createdAt kv.2) (notifications w)).
  { apply map_eq. intros id. rewrite fold_delete_lookup, map_lookup_filter.
    destruct (notifications w !! id) as [n|] eqn:Hn; cbn.
    2:{ by destruct (bool_decide _). }
    destruct (decide (n_createdAt n < cutoff)) as [Hold | Hnew].
    - rewrite bool_decide_eq_true_2.
      2:{ apply list_elem_of_fmap. exists (id, n). split; [done |].
          apply matching_notifications_elem. split; [done |].
          by apply bool_decide_eq_true. }
      rewrite option_guard_False by lia. done.
    - rewrite bool_decide_eq_false_2.
      2:{ intros Hin. apply list_elem_of_fmap in Hin as ([id' n'] & -> & Hin).
          apply matching_notifications_elem in Hin as [Hn' Hold].
          apply bool_decide_eq_true in Hold. cbn in Hn. congruence. }
      rewrite option_guard_True by lia. done. }
  destruct old as [|kv rest] eqn:Hold.
  - eexists. split; [reflexivity |]. cbn [notifications tasks users].
    split; [| done]. rewrite <- Hkeep. reflexivity.
  - rewrite <- Hold in *.
    rewrite (delete_in_chunks_run host old (length old) 0 0) by lia.
    eexists. split; [reflexivity |].
    cbn [set_notifications notifications tasks users drop].
    rewrite drop_0 in *. split; [exact Hkeep | done].
Qed.

(** ** The order of a listing *)

Lemma String_leb_iff (s1 s2 : string) :
  String.leb s1 s2 = true <-> OrderedTypeEx.String_as_OT.lt s1 s2 \/ s1 = s2.
Proof.
  unfold String.leb.
  pose proof (OrderedTypeEx.String_as_OT.cmp_lt s1 s2) as Hlt.
  pose proof (OrderedTypeEx.String_as_OT.cmp_eq s1 s2) as Heq.
  unfold OrderedTypeEx.String_as_OT.cmp in Hlt, Heq.
  destruct (String.compare s1 s2); split; try done.
  - intros _. right. by apply Heq.
  - intros _. left. by apply Hlt.
  - intros [H | H]; [apply Hlt in H | apply Heq in H]; discriminate.
Qed.

Lemma String_leb_trans (s1 s2 s3 : string) :
  String.leb s1 s2 = true -> String.leb s2 s3 = true -> String.leb s1 s3 = true.
Proof.
  rewrite !String_leb_iff. intros [H12 | ->] [H23 | ->]; auto.
  left. by eapply OrderedTypeEx.String_as_OT.lt_trans.
Qed.

Lemma String_leb_refl (s : string) : String.leb s s = true.
Proof. apply String_leb_iff. by right. Qed.

Lemma key_leb_iff (a b : Z * string) :
  key_leb a b = true <-> a.1 < b.1 \/ (a.1 = b.1 /\ String.leb a.2 b.2 = true).
Proof.
  unfold key_leb. rewrite orb_true_iff, andb_true_iff, Z.ltb_lt, Z.eqb_eq. reflexivity.
Qed.

Lemma key_leb_refl (a : Z * string) : key_leb a a = true.
Proof. apply key_leb_iff. right. split; [done | apply String_leb_refl]. Qed.

Lemma key_leb_total (a b : Z * string) : key_leb a b = true \/ key_leb b a = true.
Proof.
  rewrite !key_leb_iff.
  destruct (Z.lt_trichotomy a.1 b.1) as [H | [H | H]]; [by left; left | | by right; left].
  destruct (String.leb_total a.2 b.2); [left | right]; right; by split.
Qed.

Lemma key_leb_trans (a b c : Z * string) :
  key_leb a b = true -> key_leb b c = true -> key_leb a c = true.
Proof.
  rewrite !key_leb_iff. intros [H | [H1 H2]] [H' | [H1' H2']].
  - left. lia.
  - left. lia.
  - left. lia.
  - right. split; [lia | by eapply String_leb_trans].
Qed.

Lemma key_leb_antisym (a b : Z * string) :
  key_leb a b = true -> key_leb b a = true -> a = b.
Proof.
  rewrite !key_leb_iff. destruct a as [x s], b as [y t]. cbn.
  intros [H | [H1 H2]] [H' | [H1' H2']]; try lia.
  subst. f_equal. by apply String.leb_antisym.
Qed.

#[local] Instance newest_first_trans : Transitive newest_first.
Proof. intros a b c Hab Hbc. unfold newest_first in *.
  apply Is_true_true. apply Is_true_true in Hab, Hbc. by eapply key_leb_trans. Qed.

#[local] Instance newest_first_total : Total newest_first.
Proof. intros a b. unfold newest_first.
  destruct (key_leb_total (n_createdAt b.2, b.1) (n_createdAt a.2, a.1)) as [H | H];
    [left | right]; by apply Is_true_true. Qed.

#[local] Instance query_order_trans f order : Transitive (query_order f order).
Proof.
  intros a b c Hab Hbc. unfold query_order in *.
  destruct order; apply Is_true_true; apply Is_true_true in Hab, Hbc;
    by eapply key_leb_trans.
Qed.

#[local] Instance query_order_total f order : Total (query_order f order).
Proof.
  intros a b. unfold query_order. destruct order.
  - destruct (key_leb_total (sort_value f a.2, a.1) (sort_value f b.2, b.1)) as [H | H];
      [left | right]; by apply Is_true_true.
  - destruct (key_leb_total (sort_value f b.2, b.1) (sort_value f a.2, a.1)) as [H | H];
      [left | right]; by apply Is_true_true.
Qed.

Lemma StronglySorted_sublist {A} (R : relation A) (l1 l2 : list A) :
  l1 `sublist_of` l2 -> StronglySorted R l2 -> StronglySorted R l1.
Proof.
  induction 1 as [|x l1 l2 Hsub IH|x l1 l2 Hsub IH]; intros Hs.
  - constructor.
  - apply StronglySorted_inv in Hs as [Hs Hall]. constructor; [by apply IH |].
    apply Forall_forall. intros y Hy. rewrite Forall_forall in Hall.
    apply Hall. by eapply elem_of_sublist.
  - apply StronglySorted_inv in Hs as [Hs _]. by apply IH.
Qed.

(** ** Listing notifications *)

Lemma inbox_listing_elem (uid : string) (o : IGetNotificationsOptions)
    (ns : gmap string INotificationDocument) (k : string) (n : INotificationDocument) :
  (k, n) ∈ inbox_listing uid o ns <->
  ns !! k = Some n /\
  notification_matches uid (default false (g_unreadOnly o)) (g_type o) n = true.
Proof.
  unfold inbox_listing. rewrite merge_sort_Permutation.
  apply matching_notifications_elem.
Qed.

Lemma inbox_listing_NoDup (uid : string) (o : IGetNotificationsOptions)
    (ns : gmap string INotificationDocument) :
  NoDup (inbox_listing uid o ns).*1.
Proof.
  unfold inbox_listing. rewrite merge_sort_Permutation.
  apply matching_notifications_NoDup.
Qed.

Lemma filter_sublist {A} (p : A -> bool) (l : list A) : List.filter p l `sublist_of` l.
Proof.
  induction l as [|x l IH]; cbn; [constructor |].
  destruct (p x); by constructor.
Qed.

Lemma inbox_page_sublist (uid : string) (o : IGetNotificationsOptions)
    (ns : gmap string INotificationDocument) (k : nat) :
  take k (inbox_remaining uid o ns) `sublist_of` inbox_listing uid o ns.
Proof. etrans; [apply sublist_take | apply filter_sublist]. Qed.

Lemma inbox_listing_sorted (uid : string) (o : IGetNotificationsOptions)
    (ns : gmap string INotificationDocument) :
  StronglySorted newest_first (inbox_listing uid o ns).
Proof. apply StronglySorted_merge_sort; apply _. Qed.

Lemma behind_strict (c x : string * INotificationDocument) :
  behind (Some c) x = true <->
  key_leb (n_createdAt x.2, x.1) (n_createdAt c.2, c.1) = true /\
  (n_createdAt x.2, x.1) <> (n_createdAt c.2, c.1).
Proof.
  unfold behind. rewrite negb_true_iff. split.
  - intros Hn. split.
    + destruct (key_leb_total (n_createdAt x.2, x.1) (n_createdAt c.2, c.1)); [done |].
      congruence.
    + intros Heq. rewrite Heq, key_leb_refl in Hn. discriminate.
  - intros [Hle Hne].
    destruct (key_leb (n_createdAt c.2, c.1) (n_createdAt x.2, x.1)) eqn:Hge; [| done].
    destruct Hne. by apply key_leb_antisym.
Qed.

(** [startAfter] of the cursor's document, spelled out on the fields. *)
Lemma behind_cursor_iff (o : IGetNotificationsOptions)
    (ns : gmap string INotificationDocument) (k : string) (n : INotificationDocument) :
  behind (cursor_start o ns) (k, n) = true <->
  match g_cursor o with
  | Some c =>
      match ns !! c with
      | Some cd =>
          c = EmptyString \/
          n_createdAt n < n_createdAt cd \/
          (n_createdAt n = n_createdAt cd /\ k <> c /\ String.leb k c = true)
      | None => True
      end
  | None => True
  end.
Proof.
  unfold cursor_start, truthy_opt.
  destruct (g_cursor o) as [c|]; [| done]. cbn [default]. unfold Datatypes.id.
  destruct c as [|a c]; [cbn; destruct (ns !! EmptyString); intuition |].
  change (truthy (String a c)) with true. cbv iota.
  destruct (ns !! String a c) as [cd|]; cbn [fmap option_fmap option_map]; [| done].
  rewrite behind_strict, key_leb_iff. cbn [fst snd].
  split.
  - intros [[Hlt | [Heq Hle]] Hne]; right; [by left | right].
    split; [exact Heq |]. split; [| exact Hle]. intros ->. apply Hne. by rewrite Heq.
  - intros [Hc | [Hlt | (Heq & Hne & Hle)]]; [discriminate | |].
    + split; [by left |]. intros [= Hx _]. lia.
    + split; [right; by split |]. intros [= _ Hx]. by apply Hne.
Qed.

(** What lies behind the cursor: the stored notifications the query
    matches whose place in the order is strictly behind the cursor
    document's, newest first. *)
Lemma inbox_remaining_elem (uid : string) (o : IGetNotificationsOptions)
    (ns : gmap string INotificationDocument) (k : string) (n : INotificationDocument) :
  (k, n) ∈ inbox_remaining uid o ns <->
  ns !! k = Some n /\
  notification_matches uid (default false (g_unreadOnly o)) (g_type o) n = true /\
  behind (cursor_start o ns) (k, n) = true.
Proof.
  unfold inbox_remaining. rewrite list_elem_of_In, List.filter_In, <- list_elem_of_In.
  rewrite inbox_listing_elem. tauto.
Qed.

Lemma inbox_remaining_sorted (uid : string) (o : IGetNotificationsOptions)
    (ns : gmap string INotificationDocument) :
  StronglySorted newest_first (inbox_remaining uid o ns).
Proof.
  eapply StronglySorted_sublist; [apply filter_sublist | apply inbox_listing_sorted].
Qed.

Lemma getUserNotifications_run (host : Host) (w : World) (uid : string)
    (o : IGetNotificationsOptions) :
  0 <= limit_of_inbox o ->
  let limit := limit_of_inbox o in
  let remaining := inbox_remaining uid o (notifications w) in
  let docs := take (Z.to_nat limit) remaining in
  let more := bool_decide (limit < Z.of_nat (length remaining)) in
  getUserNotifications uid o w =
  (Returned
     {| pr_notifications := mapDocumentToResponse <$> docs;
        pagination :=
          {| pg_total := Z.of_nat (length (inbox_listing uid o (notifications w)));
             pg_count := Z.of_nat (length docs);
             pg_limit := limit;
             hasMore := more;
             nextCursor :=
               if more && bool_decide (0 < length docs)%nat
               then fst <$> last docs else None |} |},
   w).
Proof.
  intros Hl. cbv zeta.
  unfold getUserNotifications, bind, notifications_count, notifications_page,
    notifications_get, ret.
  fold (limit_of_inbox o).
  unfold inbox_remaining, cursor_start, inbox_listing.
  rewrite (Permutation_length (merge_sort_Permutation newest_first _)).
  set (limit := limit_of_inbox o) in *.
  replace (limit + 1 <? 0) with false by (symmetry; apply Z.ltb_ge; lia).
  assert (Hpage : forall remaining : list (string * INotificationDocument),
            let snapshot_docs := take (Z.to_nat (limit + 1)) remaining in
            bool_decide (limit < Z.of_nat (length snapshot_docs)) =
              bool_decide (limit < Z.of_nat (length remaining)) /\
            (if bool_decide (limit < Z.of_nat (length snapshot_docs))
             then take (Z.to_nat limit) snapshot_docs else snapshot_docs) =
              take (Z.to_nat limit) remaining).
  { intros remaining snapshot_docs. subst snapshot_docs. split.
    - apply bool_decide_ext. rewrite length_take. lia.
    - case_bool_decide as Hm; rewrite length_take in Hm.
      + rewrite take_take. f_equal. lia.
      + rewrite !take_ge by lia. reflexivity. }
  destruct (truthy_opt (g_cursor o));
    match goal with
    | |- context [take (Z.to_nat (limit + 1)) ?r] => destruct (Hpage r) as [H1 H2]
    end;
    cbv zeta in H1, H2; rewrite H2, H1; by rewrite length_fmap.
Qed.

(** X23. GET /notifications with a limit of at least 0.  The call writes
    nothing.  It returns the first min(limit, r) notifications behind the
    cursor, r being the number of the user's matching notifications that
    lie behind it; total counts all matching notifications, whatever the
    cursor.  Every item is a stored notification whose recipient is the
    user, unread when unreadOnly is set; no id occurs twice.  hasMore is
    true exactly when r > limit; nextCursor is the id of the last item
    returned when hasMore holds and the page is not empty, and null
    otherwise (so with limit 0 hasMore can be true with no cursor).
    The notifications behind the cursor are the stored notifications the
    query matches that come strictly after the cursor's document in the
    order newest first (createdAt descending, ties by id descending), all
    of them when no cursor is given or the cursor names no stored
    document; they are listed in that order, and the items of the page are
    the first min(limit, r) of that list, in the same order. *)
Theorem getUserNotifications_page (host : Host) (w : World) (uid : string)
    (o : IGetNotificationsOptions) :
  0 <= limit_of_inbox o ->
  let limit := limit_of_inbox o in
  let r := Z.of_nat (length (inbox_remaining uid o (notifications w))) in
  exists resp,
    getUserNotifications uid o w = (Returned resp, w) /\
    pg_total (pagination resp) =
      Z.of_nat (length (matching_notifications
                          (notification_matches uid (default false (g_unreadOnly o))
                             (g_type o))
                          (notifications w))) /\
    pg_count (pagination resp) = Z.of_nat (length (pr_notifications resp)) /\
    pg_count (pagination resp) = Z.min limit r /\
    pg_limit (pagination resp) = limit /\
    (hasMore (pagination resp) = true <-> limit < r) /\
    NoDup (nr_id <$> pr_notifications resp) /\
    (forall x, x ∈ pr_notifications resp ->
       nr_recipientUid x = uid /\
       (g_unreadOnly o = Some true -> nr_isRead x = false) /\
       (forall t, g_type o = Some t -> nr_type x = t) /\
       exists n, notifications w !! nr_id x = Some n /\
                 x = mapDocumentToResponse (nr_id x, n)) /\
    (hasMore (pagination resp) = true -> 1 <= limit ->
       exists x, last (pr_notifications resp) = Some x /\
                 nextCursor (pagination resp) = Some (nr_id x)) /\
    (hasMore (pagination resp) = false \/ limit = 0 ->
       nextCursor (pagination resp) = None) /\
    pr_notifications resp =
      mapDocumentToResponse
        <$> take (Z.to_nat limit) (inbox_remaining uid o (notifications w)) /\
    StronglySorted newest_first (inbox_remaining uid o (notifications w)) /\
    (forall k n,
       (k, n) ∈ inbox_remaining uid o (notifications w) <->
       notifications w !! k = Some n /\
       notification_matches uid (default false (g_unreadOnly o)) (g_type o) n = true /\
       match g_cursor o with
       | Some c =>
           match notifications w !! c with
           | Some cd =>
               c = EmptyString \/
               n_createdAt n < n_createdAt cd \/
               (n_createdAt n = n_createdAt cd /\ k <> c /\ String.leb k c = true)
           | None => True
           end
       | None => True
       end).
Proof.
  intros Hl limit r.
  rewrite (getUserNotifications_run host w uid o Hl). cbv zeta. fold limit.
  set (remaining := inbox_remaining uid o (notifications w)) in *.
  set (docs := take (Z.to_nat limit) remaining).
  eexists. split; [reflexivity |].
  cbn [pagination pr_notifications pg_total pg_count pg_limit hasMore nextCursor].
  split.
  { unfold inbox_listing. by rewrite (Permutation_length (merge_sort_Permutation _ _)). }
  split; [by rewrite length_fmap |].
  split; [subst docs r; rewrite length_take; lia |].
  split; [reflexivity |].
  split; [apply bool_decide_eq_true |].
  assert (Hsub : docs `sublist_of` inbox_listing uid o (notifications w))
    by apply inbox_page_sublist.
  split.
  { rewrite <- list_fmap_compose.
    eapply sublist_NoDup; [apply (inbox_listing_NoDup uid o (notifications w)) |].
    by apply fmap_sublist. }
  split.
  { intros x Hx. apply list_elem_of_fmap in Hx as ([k n] & -> & Hin).
    eapply elem_of_sublist in Hin; [| exact Hsub].
    apply inbox_listing_elem in Hin as [Hn Hm].
    unfold notification_matches in Hm.
    apply andb_true_iff in Hm as [Hm Hty]. apply andb_true_iff in Hm as [Hrec Hunread].
    apply bool_decide_eq_true in Hrec. cbn.
    split; [exact Hrec |]. split; [| split].
    - intros Hu. rewrite Hu in Hunread. by apply bool_decide_eq_true in Hunread.
    - intros t Ht. rewrite Ht in Hty. by apply bool_decide_eq_true in Hty.
    - by exists n. }
  split; [| split].
  - intros Hmore Hone. apply bool_decide_eq_true in Hmore. rewrite bool_decide_eq_true_2 by done.
    assert (Hlen : (0 < length docs)%nat) by (subst docs r; rewrite length_take; lia).
    rewrite bool_decide_eq_true_2 by done. cbn [andb].
    destruct (last docs) as [[k n]|] eqn:Hlast.
    + exists (mapDocumentToResponse (k, n)). rewrite fmap_last, Hlast. done.
    + apply last_None in Hlast. rewrite Hlast in Hlen. cbn in Hlen. lia.
  - intros [Hno | Hzero].
    + by rewrite Hno.
    + assert (Hlen : length docs = 0%nat) by (subst docs; rewrite length_take; lia).
      rewrite (bool_decide_eq_false_2 (0 < length docs)%nat) by lia.
      by rewrite andb_false_r.
  - subst docs remaining.
    split; [reflexivity |]. split; [apply inbox_remaining_sorted |].
    intros k n. rewrite inbox_remaining_elem.
    apply and_iff_compat_l, and_iff_compat_l.
    apply behind_cursor_iff.
Qed.

Lemma getUserNotifications_page_witness :
  let o := {| g_limit := Some 1; g_unreadOnly := Some true; g_type := None;
              g_cursor := None |} in
  exists resp,
    getUserNotifications "bob" o AlertSample.inbox = (Returned resp, AlertSample.inbox) /\
    pg_total (pagination resp) = 2 /\
    pg_count (pagination resp) = 1 /\
    hasMore (pagination resp) = true /\
    nextCursor (pagination resp) = Some "n-3" /\
    nr_id <$> pr_notifications resp = ["n-3"] /\
    (inbox_remaining "bob" o (notifications AlertSample.inbox)).*1 = ["n-3"; "n-1"].
Proof.
  destruct (getUserNotifications_page Sample.host AlertSample.inbox "bob"
              {| g_limit := Some 1; g_unreadOnly := Some true; g_type := None;
                 g_cursor := None |})
    as (resp & Hrun & Htotal & _ & Hcount & _ & Hmore & _ & _ & Hnext & _ & Hitems & _).
  - vm_compute. discriminate.
  - exists resp. split; [exact Hrun |].
    split; [rewrite Htotal; vm_compute; reflexivity |].
    split; [rewrite Hcount; vm_compute; reflexivity |].
    assert (Hm : hasMore (pagination resp) = true)
      by (apply Hmore; vm_compute; reflexivity).
    split; [exact Hm |].
    split; [| split].
    + destruct (Hnext Hm) as (x & Hlast & ->); [vm_compute; discriminate |].
      rewrite Hitems in Hlast. vm_compute in Hlast. injection Hlast as <-. reflexivity.
    + rewrite Hitems. vm_compute. reflexivity.
    + vm_compute. reflexivity.
Defined.

Lemma behind_trans (c0 c x : string * INotificationDocument) :
  behind (Some c0) c = true -> behind (Some c) x = true -> behind (Some c0) x = true.
Proof.
  rewrite !behind_strict. intros [H1 N1] [H2 N2]. split.
  - by eapply key_leb_trans.
  - intros Heq. rewrite Heq in H2. destruct N1. by apply key_leb_antisym.
Qed.

Lemma filter_filter_implies {A} (p q : A -> bool) (l : list A) :
  (forall x, p x = true -> q x = true) ->
  List.filter p (List.filter q l) = List.filter p l.
Proof.
  intros Hpq. induction l as [|x l IH]; [reflexivity |]. cbn.
  destruct (q x) eqn:Hq; cbn.
  - by rewrite IH.
  - destruct (p x) eqn:Hp; [| exact IH]. rewrite (Hpq x Hp) in Hq. discriminate.
Qed.

Lemma filter_none {A} (p : A -> bool) (l : list A) :
  (forall x, x ∈ l -> p x = false) -> List.filter p l = [].
Proof.
  induction l as [|x l IH]; intros Hp; [reflexivity |]. cbn.
  rewrite (Hp x) by left. apply IH. intros y Hy. apply Hp. by right.
Qed.

Lemma filter_all {A} (p : A -> bool) (l : list A) :
  (forall x, x ∈ l -> p x = true) -> List.filter p l = l.
Proof.
  induction l as [|x l IH]; intros Hp; [reflexivity |]. cbn.
  rewrite (Hp x) by left. f_equal. apply IH. intros y Hy. apply Hp. by right.
Qed.

(** In a listing, what lies behind one of its documents is what follows
    it. *)
Lemma filter_behind_sorted (l1 l2 : list (string * INotificationDocument))
    (c : string * INotificationDocument) :
  StronglySorted newest_first (l1 ++ c :: l2) ->
  NoDup (l1 ++ c :: l2).*1 ->
  List.filter (behind (Some c)) (l1 ++ c :: l2) = l2.
Proof.
  intros Hs Hnd. rewrite List.filter_app. cbn [List.filter].
  assert (Hc : behind (Some c) c = false).
  { unfold behind. by rewrite key_leb_refl. }
  rewrite Hc.
  rewrite (filter_none _ l1), (filter_all _ l2); [reflexivity | |].
  - intros x Hx. apply behind_strict.
    apply StronglySorted_app_1_r in Hs. apply StronglySorted_inv in Hs as [_ Hall].
    rewrite Forall_forall in Hall. split.
    + apply Is_true_true. apply (Hall x Hx).
    + intros [= _ Hid].
      rewrite fmap_app, fmap_cons in Hnd. apply NoDup_app in Hnd as (_ & _ & Hnd).
      apply NoDup_cons in Hnd as [Hnd _]. apply Hnd.
      apply list_elem_of_fmap. by exists x.
  - intros x Hx.
    assert (Hxc : newest_first x c).
    { eapply (StronglySorted_app_1_elem_of _ l1 (c :: l2)); [exact Hs | exact Hx | left]. }
    unfold behind. apply negb_false_iff. by apply Is_true_true.
Qed.

(** X24. Following the cursor.  When a page of GET /notifications (limit
    at least 1) comes with a nextCursor and nothing is written in between,
    the call with that cursor returns exactly the notifications that
    follow: the two pages together are the first 2*limit of what lay
    behind the first call's cursor, newest first, with no notification
    left out and none repeated; total is the same in both.  (Document ids
    are not empty.) *)
Theorem next_cursor_continues (host : Host) (w : World) (uid : string)
    (o : IGetNotificationsOptions) (resp1 : IPaginatedNotificationsResponse)
    (cursor : string) :
  1 <= limit_of_inbox o ->
  notifications w !! "" = None ->
  getUserNotifications uid o w = (Returned resp1, w) ->
  nextCursor (pagination resp1) = Some cursor ->
  exists resp2,
    getUserNotifications uid (with_cursor o cursor) w = (Returned resp2, w) /\
    pr_notifications resp1 ++ pr_notifications resp2 =
      mapDocumentToResponse
        <$> take (Z.to_nat (2 * limit_of_inbox o))
              (inbox_remaining uid o (notifications w)) /\
    NoDup (nr_id <$> (pr_notifications resp1 ++ pr_notifications resp2)) /\
    pg_total (pagination resp2) = pg_total (pagination resp1).
Proof.
  intros Hl Hids Hrun1 Hnext.
  rewrite (getUserNotifications_run host w uid o) in Hrun1 by lia.
  cbv zeta in Hrun1. injection Hrun1 as <-.
  cbn [pagination nextCursor pr_notifications pg_total] in Hnext |- *.
  set (ns := notifications w) in *.
  set (limit := limit_of_inbox o) in *.
  set (remaining := inbox_remaining uid o ns) in *.
  set (docs := take (Z.to_nat limit) remaining) in *.
  (* the cursor is the last document of the first page *)
  destruct (bool_decide (limit < Z.of_nat (length remaining))) eqn:Hmore;
    [| discriminate].
  apply bool_decide_eq_true in Hmore.
  destruct (bool_decide (0 < length docs)%nat); [| discriminate]. cbn [andb] in Hnext.
  destruct (last docs) as [c|] eqn:Hlast; [| discriminate].
  injection Hnext as <-.
  assert (Hsplit : remaining = take (Z.to_nat limit - 1) remaining ++ c :: drop (Z.to_nat limit) remaining).
  { rewrite last_lookup in Hlast. subst docs.
    rewrite length_take, lookup_take_lt in Hlast by lia.
    replace (Init.Nat.pred (Z.to_nat limit `min` length remaining))
      with (Z.to_nat limit - 1)%nat in Hlast by lia.
    rewrite <- (take_drop_middle remaining (Z.to_nat limit - 1) c Hlast) at 1.
    do 3 f_equal. lia. }
  set (l1 := take (Z.to_nat limit - 1) remaining) in *.
  set (l2 := drop (Z.to_nat limit) remaining) in *.
  assert (Hsub : remaining `sublist_of` inbox_listing uid o ns) by apply filter_sublist.
  assert (Hsorted : StronglySorted newest_first remaining).
  { eapply StronglySorted_sublist; [exact Hsub | apply inbox_listing_sorted]. }
  assert (Hnd : NoDup remaining.*1).
  { eapply sublist_NoDup; [apply (inbox_listing_NoDup uid o ns) | by apply fmap_sublist]. }
  assert (Hc_in : c ∈ remaining) by (rewrite Hsplit; set_solver).
  assert (Hc_stored : ns !! c.1 = Some c.2).
  { eapply elem_of_sublist in Hc_in; [| exact Hsub].
    destruct c as [k n]. by apply inbox_listing_elem in Hc_in as [Hn _]. }
  assert (Hc_id : truthy_opt (Some c.1) = true).
  { cbn. unfold truthy. destruct (String.eqb_spec c.1 "") as [He | He]; [| done].
    rewrite He in Hc_stored. congruence. }
  (* what lies behind the new cursor *)
  assert (Hrem2 : inbox_remaining uid (with_cursor o c.1) ns = l2).
  { unfold inbox_remaining, cursor_start. cbn [with_cursor g_cursor].
    rewrite Hc_id. cbn [default from_option Datatypes.id]. rewrite Hc_stored. cbn [fmap option_fmap option_map].
    replace (c.1, c.2) with c by (by destruct c).
    change (inbox_listing uid (with_cursor o c.1) ns) with (inbox_listing uid o ns).
    rewrite <- (filter_filter_implies (behind (Some c)) (behind (cursor_start o ns))).
    - fold (inbox_remaining uid o ns). fold remaining.
      rewrite Hsplit. apply filter_behind_sorted; by rewrite <- Hsplit.
    - intros x Hx. destruct (cursor_start o ns) as [c0|] eqn:Hc0; [| done].
      apply (behind_trans c0 c x); [| exact Hx].
      unfold remaining, inbox_remaining in Hc_in. rewrite Hc0 in Hc_in.
      apply list_elem_of_In, filter_In in Hc_in. tauto. }
  rewrite (getUserNotifications_run host w uid (with_cursor o c.1))
    by (change (limit_of_inbox (with_cursor o c.1)) with limit; lia).
  cbv zeta. fold ns. rewrite Hrem2.
  change (limit_of_inbox (with_cursor o c.1)) with limit.
  eexists. split; [reflexivity |].
  cbn [pagination pr_notifications pg_total].
  assert (Hpages : docs ++ take (Z.to_nat limit) l2 = take (Z.to_nat (2 * limit)) remaining).
  { subst docs l2. rewrite take_take_drop. f_equal. lia. }
  split; [by rewrite <- fmap_app, Hpages |].
  split; [| reflexivity].
  rewrite <- fmap_app, Hpages, <- list_fmap_compose.
  eapply sublist_NoDup; [exact Hnd |]. apply fmap_sublist, sublist_take.
Qed.

Lemma next_cursor_continues_witness :
  let o := {| g_limit := Some 1; g_unreadOnly := Some true; g_type := None;
              g_cursor := None |} in
  exists resp1 resp2,
    getUserNotifications "bob" o AlertSample.inbox = (Returned resp1, AlertSample.inbox) /\
    getUserNotifications "bob" (with_cursor o "n-3") AlertSample.inbox =
      (Returned resp2, AlertSample.inbox) /\
    nr_id <$> (pr_notifications resp1 ++ pr_notifications resp2) = ["n-3"; "n-1"].
Proof.
  eexists.
  destruct (next_cursor_continues Sample.host AlertSample.inbox "bob"
              {| g_limit := Some 1; g_unreadOnly := Some true; g_type := None;
                 g_cursor := None |} _ "n-3"
              ltac:(vm_compute; discriminate)
              ltac:(vm_compute; reflexivity)
              ltac:(vm_compute; reflexivity)
              ltac:(vm_compute; reflexivity))
    as (resp2 & Hrun2 & Hpages & _).
  exists resp2. split; [vm_compute; reflexivity |]. split; [exact Hrun2 |].
  rewrite Hpages. vm_compute. reflexivity.
Defined.

(** ** The order of a page of tasks *)

Lemma StronglySorted_lookup {A} (R : relation A) (l : list A) :
  StronglySorted R l ->
  forall i j a b, (i < j)%nat -> l !! i = Some a -> l !! j = Some b -> R a b.
Proof.
  induction 1 as [|x l Hs IH Hall]; intros i j a b Hij Ha Hb.
  - by rewrite lookup_nil in Ha.
  - destruct j as [|j]; [lia |]. cbn in Hb. destruct i as [|i].
    + injection Ha as <-. rewrite Forall_forall in Hall.
      apply Hall. by eapply list_elem_of_lookup_2.
    + cbn in Ha. apply (IH i j); [lia | done | done].
Qed.

Lemma responses_from_lookup (host : Host) (now_ms : Z)
    (docs : list (string * TaskDocument)) :
  forall k i r,
    responses_from host k now_ms docs !! i = Some r ->
    exists kv t1 t2,
      docs !! i = Some kv /\
      r = response_at {| id := kv.1; doc := reconciled now_ms kv.2 |} t1 t2.
Proof.
  induction docs as [|kv rest IH]; intros k i r Hr; cbn in Hr.
  - by rewrite lookup_nil in Hr.
  - destruct i as [|i]; cbn in Hr.
    + injection Hr as <-. by do 3 eexists.
    + apply (IH _ _ _ Hr).
Qed.

Lemma page_docs_sorted (userUid : string) (o : GetTasksOptions)
    (ts : gmap string TaskDocument) :
  StronglySorted (query_order (default TaskSortField.CREATED_AT (o_sortBy o))
                    (default SortOrder.DESC (o_sortOrder o)))
    (page_docs userUid o ts).
Proof.
  eapply StronglySorted_sublist.
  - unfold page_docs. etrans; [apply sublist_take | apply sublist_drop].
  - apply StronglySorted_merge_sort; apply _.
Qed.

(** X25. The order of a page of [getMyTasks].  When the tasks are sorted
    by createdAt (the default) or by the deadline, the items come in the
    order asked for (descending by default): of two items the earlier one
    has the smaller or equal value when ascending, the greater or equal
    value when descending, and for equal values the ids are in that same
    order.  Sorted by updatedAt the same holds as long as the page holds
    no stale pending task (a stale task is shown with updatedAt set to the
    instant of the call, wherever it stands). *)
Theorem getMyTasks_order (host : Host) (userUid : string) (o : GetTasksOptions)
    (w : World) :
  1 <= page_of o -> 1 <= limit_of o <= TASK_PAGINATION_DEFAULTS.MAX_LIMIT ->
  let f := default TaskSortField.CREATED_AT (o_sortBy o) in
  let order := default SortOrder.DESC (o_sortOrder o) in
  let now_ms := clock host (clock_reads w) in
  f <> TaskSortField.UPDATED_AT \/
    (forall k d, (k, d) ∈ page_docs userUid o (tasks w) -> stale now_ms d = false) ->
  exists res w',
    getMyTasks host userUid o w = (Returned res, w') /\
    forall i j a b,
      (i < j)%nat -> items res !! i = Some a -> items res !! j = Some b ->
      let va := response_sort_value f a in
      let vb := response_sort_value f b in
      match order with
      | SortOrder.ASC => va < vb \/ (va = vb /\ String.leb (r_id a) (r_id b) = true)
      | SortOrder.DESC => vb < va \/ (vb = va /\ String.leb (r_id b) (r_id a) = true)
      end.
Proof.
  intros Hp Hl f order now_ms Hcase.
  rewrite (getMyTasks_run host userUid o w Hp Hl). cbv zeta.
  do 2 eexists. split; [reflexivity |]. cbn [items].
  intros i j a b Hij Ha Hb. fold now_ms in Ha, Hb.
  apply responses_from_lookup in Ha as (kva & ta1 & ta2 & Hka & ->).
  apply responses_from_lookup in Hb as (kvb & tb1 & tb2 & Hkb & ->).
  pose proof (StronglySorted_lookup _ _ (page_docs_sorted userUid o (tasks w))
                i j kva kvb Hij Hka Hkb) as Hord.
  fold f order in Hord.
  assert (Hval : forall kv t1 t2, kv ∈ page_docs userUid o (tasks w) ->
            response_sort_value f
              (response_at {| id := kv.1; doc := reconciled now_ms kv.2 |} t1 t2)
            = sort_value f kv.2).
  { intros [k d] t1 t2 Hin. unfold reconciled. cbn [snd fst].
    destruct Hcase as [Hf | Hnone].
    - destruct f; [| done |]; cbn; by destruct (stale now_ms d).
    - rewrite (Hnone k d Hin). by destruct f. }
  cbv zeta.
  rewrite !Hval by (by eapply list_elem_of_lookup_2).
  cbn [response_at r_id id].
  unfold query_order in Hord.
  destruct order; apply Is_true_true, key_leb_iff in Hord; exact Hord.
Qed.

Lemma getMyTasks_order_witness :
  let o := {| o_type := TaskQueryType.CREATED; o_page := None; o_limit := None;
              o_sortBy := Some TaskSortField.EXPIRES_AT;
              o_sortOrder := Some SortOrder.ASC; o_status := None;
              o_reaction := None |} in
  exists res w',
    getMyTasks Sample.host "alice" o TaskSample.board = (Returned res, w') /\
    r_id <$> items res = ["task-a"; "task-c"; "task-b"] /\
    (fun a => r_expiresAt (r_urgency a)) <$> items res =
      [Sample.later; Sample.later; Sample.later + 1800000] /\
    forall i j a b,
      (i < j)%nat -> items res !! i = Some a -> items res !! j = Some b ->
      r_expiresAt (r_urgency a) < r_expiresAt (r_urgency b) \/
      (r_expiresAt (r_urgency a) = r_expiresAt (r_urgency b) /\
       String.leb (r_id a) (r_id b) = true).
Proof.
  destruct (getMyTasks_order Sample.host "alice"
              {| o_type := TaskQueryType.CREATED; o_page := None; o_limit := None;
                 o_sortBy := Some TaskSortField.EXPIRES_AT;
                 o_sortOrder := Some SortOrder.ASC; o_status := None;
                 o_reaction := None |}
              TaskSample.board)
    as (res & w' & Hrun & Hord).
  - vm_compute. discriminate.
  - vm_compute. split; discriminate.
  - left. discriminate.
  - exists res, w'. split; [exact Hrun |].
    pose proof Hrun as Hres. vm_compute in Hres. injection Hres as Hres _.
    split; [by rewrite <- Hres |]. split; [by rewrite <- Hres |]. exact Hord.
Defined.

(* ================================================================== *)
(** * The services together *)

(** X26. Reading back what was created.  After a successful [createTask]
    a read of the new id by the creator or by the assignee returns the
    task with the same title, note, creator, assignee, deadline, duration,
    createdAt and notification block as the create response showed, no
    reaction and extension count 0; its status is pending, or expired when
    the deadline has passed at the read. *)
Theorem created_task_reads_back (host : Host) (dto : CreateTaskDto) (creatorUid : string)
    (w : World) (creator assignee : TaskUser) (reader : string) :
  create_lookups host dto creatorUid w = Some (creator, assignee) ->
  reader = uid creator \/ reader = uid assignee ->
  exists resp w' resp2 w'',
    createTask host dto creatorUid w = (Returned resp, w') /\
    getTaskById host (r_id resp) reader w' = (Returned resp2, w'') /\
    r_id resp2 = r_id resp /\
    r_title resp2 = r_title resp /\
    r_note resp2 = r_note resp /\
    r_createdBy resp2 = creator /\
    r_assignedTo resp2 = assignee /\
    r_assigneeReaction resp2 = None /\
    r_expiresAt (r_urgency resp2) = r_expiresAt (r_urgency resp) /\
    r_durationMinutes (r_urgency resp2) = dto_durationMinutes dto /\
    r_notification resp2 = r_notification resp /\
    r_createdAt resp2 = r_createdAt resp /\
    r_extensionCount resp2 = 0 /\
    r_status resp2 =
      (if bool_decide (r_expiresAt (r_urgency resp) <= clock host (clock_reads w'))
       then TaskStatus.EXPIRED else TaskStatus.PENDING).
Proof.
  intros Hl Hreader.
  rewrite (createTask_run host dto creatorUid w creator assignee Hl). cbv zeta.
  set (taskRef := autoId host (ids_drawn w)).
  set (taskData := new_task_data host dto creator assignee (clock host (clock_reads w))).
  set (w1 := with_tasks _ (TaskAdded taskRef taskData) _).
  assert (Hauth : forall d : TaskDocument,
            createdBy d = creator -> assignedTo d = assignee ->
            bool_decide (uid (createdBy d) ≠ reader)
            && bool_decide (uid (assignedTo d) ≠ reader) = false).
  { intros d -> ->. destruct Hreader as [-> | ->].
    - by rewrite (bool_decide_eq_false_2 (uid creator ≠ uid creator)) by (intros H; by apply H).
    - rewrite (bool_decide_eq_false_2 (uid assignee ≠ uid assignee)) by (intros H; by apply H).
      apply andb_false_r. }
  destruct (sendTaskAssignmentNotification host _ _ _ _ _ w1) as [[[]|error] w2];
    cbn [fst snd]; rewrite transformToResponse_at.
  all: match goal with
       | |- exists resp w' resp2 w'', (Returned ?r, ?wx) = _ /\ _ =>
           exists r, wx;
           match wx with
           | context [<[?ref := ?d]> _] =>
               pose proof (getTaskById_run host wx ref reader d
                             ltac:(cbn; apply lookup_insert_eq)) as Hread;
               rewrite (Hauth d eq_refl eq_refl) in Hread;
               rewrite (bool_decide_eq_true_2 (status d = TaskStatus.PENDING) eq_refl)
                 in Hread;
               cbv zeta in Hread;
               destruct (decide (expiresAt (urgency d) <= clock host (clock_reads wx)))
                 as [Hexp | Hexp];
               [ rewrite (bool_decide_eq_true_2 _ Hexp) in Hread
               | rewrite (bool_decide_eq_false_2 _ Hexp) in Hread ];
               rewrite transformToResponse_at in Hread
           end
       end.
  all: do 2 eexists; (split; [reflexivity |]); (split; [exact Hread |]);
       repeat (split; [reflexivity |]);
       first [ rewrite bool_decide_eq_true_2 by exact Hexp
             | rewrite bool_decide_eq_false_2 by exact Hexp ];
       reflexivity.
Qed.

Lemma created_task_reads_back_witness :
  exists resp w' resp2 w'',
    createTask Sample.host Sample.a_dto "alice" Sample.empty_world = (Returned resp, w') /\
    getTaskById Sample.host (r_id resp) "bob" w' = (Returned resp2, w'') /\
    r_title resp2 = r_title resp /\
    r_notification resp2 = r_notification resp /\
    r_status resp2 = TaskStatus.PENDING.
Proof.
  destruct (created_task_reads_back Sample.host Sample.a_dto "alice" Sample.empty_world
              Sample.alice Sample.bob "bob")
    as (resp & w' & resp2 & w'' & Hrun & Hread & _ & Htitle & _ & _ & _ & _ & _ & _
        & Hnote & _ & _ & Hstatus).
  - vm_compute. reflexivity.
  - right. reflexivity.
  - exists resp, w', resp2, w''. split; [exact Hrun |]. split; [exact Hread |].
    split; [exact Htitle |]. split; [exact Hnote |].
    rewrite Hstatus. vm_compute in Hrun. injection Hrun as <- <-. reflexivity.
Defined.

(** X27. A reaction shows in the creator's inbox.  Every accepted
    reaction raises the unread count of the task's creator by exactly one
    and leaves the unread count of every other user as it was, whether or
    not the push was delivered.  (The id the store generates for the
    record is a new one.) *)
Theorem reaction_raises_unread_count (host : Host) (w : World) (taskId : string)
    (d : TaskDocument) (reaction : TaskReaction.t) :
  tasks w !! taskId = Some d ->
  status d = TaskStatus.PENDING ->
  limit_reached d reaction = false ->
  notifications w !! autoId host (ids_drawn w) = None ->
  exists before resp w',
    getUnreadCount (uid (createdBy d)) w = (Returned before, w) /\
    updateTaskReaction host taskId reaction (uid (assignedTo d)) w = (Returned resp, w') /\
    AlertController_getUnreadCount (uid (createdBy d)) w' =
      (Returned {| uc_count := before + 1 |}, w') /\
    (forall other, other <> uid (createdBy d) ->
       fst (getUnreadCount other w') = fst (getUnreadCount other w)).
Proof.
  intros Hd Hs Hlim Hfresh.
  rewrite (updateTaskReaction_accepted_run host w taskId d reaction Hd Hs Hlim).
  cbv zeta.
  destruct (dispatch_leaves_record host (reaction_trigger taskId d reaction)
              (reaction_stored host taskId d reaction w))
    as (r & Hn & (_ & Hrec & _ & _ & _ & _ & _ & Hread & _) & _).
  { intros Hty. discriminate Hty. }
  cbn [reaction_stored with_tasks after_clock_reads notifications ids_drawn] in Hn.
  cbn [reaction_trigger p_recipientUid] in Hrec.
  unfold AlertController_getUnreadCount, getUnreadCount, notifications_count, bind, ret.
  do 3 eexists. split; [reflexivity |]. split; [reflexivity |].
  cbn [after_clock_reads notifications fst]. rewrite Hn.
  split.
  - rewrite count_insert_fresh by exact Hfresh.
    unfold notification_matches at 1. rewrite Hrec, Hread.
    rewrite !bool_decide_eq_true_2 by done. cbn [andb].
    do 3 f_equal. lia.
  - intros other Hne. rewrite count_insert_fresh by exact Hfresh.
    unfold notification_matches at 1. rewrite Hrec.
    rewrite (bool_decide_eq_false_2 (uid (createdBy d) = other)) by congruence.
    reflexivity.
Qed.

Lemma reaction_raises_unread_count_witness :
  let d := Sample.a_task TaskStatus.PENDING Sample.later 0 in
  exists resp w',
    updateTaskReaction Sample.host "task-1" TaskReaction.ON_IT "bob" (Sample.world_with d)
      = (Returned resp, w') /\
    AlertController_getUnreadCount "alice" w' = (Returned {| uc_count := 1 |}, w').
Proof.
  destruct (reaction_raises_unread_count Sample.host
              (Sample.world_with (Sample.a_task TaskStatus.PENDING Sample.later 0))
              "task-1" (Sample.a_task TaskStatus.PENDING Sample.later 0) TaskReaction.ON_IT)
    as (before & resp & w' & Hb & Hrun & Hcount & _).
  - vm_compute. reflexivity.
  - reflexivity.
  - vm_compute. reflexivity.
  - vm_compute. reflexivity.
  - exists resp, w'. split; [exact Hrun |].
    vm_compute in Hb. injection Hb as <-. exact Hcount.
Defined.

(* ================================================================== *)
(** * Further properties of the health service *)

(** X29. GET /health/database never fails.  Whatever the probe read
    does, [checkHealth] returns.  If the read rejects, the answer is
    unhealthy, not connected, latency null.  If it succeeds, the answer is
    connected with the latency measured by the clock around the read, and
    the status is degraded when that latency exceeds 1000 ms and healthy
    otherwise (at exactly 1000 ms too).  The name and host are always
    "firestore" and "firestore.googleapis.com". *)
Theorem checkHealth_never_throws (host : Host) (health_check_get : M unit) (w : World) :
  let w1 := after_clock_reads 1 w in
  exists hs w',
    HealthController_checkDatabaseHealth host health_check_get w = (Returned hs, w') /\
    db_name (database hs) = "firestore" /\
    db_host (database hs) = "firestore.googleapis.com" /\
    (forall e w2, health_check_get w1 = (Thrown e, w2) ->
       w' = w2 /\
       hs_status hs = HealthLevel.unhealthy /\
       connected (database hs) = false /\
       latencyMs (database hs) = None) /\
    (forall w2, health_check_get w1 = (Returned tt, w2) ->
       let latency := clock host (clock_reads w2) - clock host (clock_reads w) in
       w' = after_clock_reads 1 w2 /\
       connected (database hs) = true /\
       latencyMs (database hs) = Some latency /\
       hs_status hs =
         (if bool_decide (1000 < latency) then HealthLevel.degraded
          else HealthLevel.healthy)).
Proof.
  intros w1. subst w1.
  unfold HealthController_checkDatabaseHealth, checkHealth, attempt, bind, now, ret.
  change {| tasks := tasks w; users := users w; notifications := notifications w;
            journal := journal w; clock_reads := S (clock_reads w);
            ids_drawn := ids_drawn w; push_calls := push_calls w |}
    with (after_clock_reads 1 w).
  destruct (health_check_get (after_clock_reads 1 w)) as [[[]|e] w2].
  - do 2 eexists. split; [reflexivity |]. cbn [database db_name db_host].
    split; [reflexivity |]. split; [reflexivity |]. split.
    + intros e w2' [=].
    + intros w2' [= <-]. cbv zeta.
      cbn [database connected latencyMs hs_status]. repeat split.
      unfold resolveStatus. cbn [negb].
      set (latency := clock host (clock_reads w2) - clock host (clock_reads w)).
      destruct (Z.eqb_spec latency 0) as [H0 | H0]; cbn [negb andb].
      * rewrite bool_decide_eq_false_2 by lia. reflexivity.
      * destruct (decide (1000 < latency)) as [H | H].
        -- by rewrite !bool_decide_eq_true_2 by lia.
        -- by rewrite !bool_decide_eq_false_2 by lia.
  - do 2 eexists. split; [reflexivity |]. cbn [database db_name db_host].
    split; [reflexivity |]. split; [reflexivity |]. split.
    + intros e' w2' [= <- <-]. by repeat split.
    + intros w2' [=].
Qed.

Lemma checkHealth_never_throws_witness :
  exists hs w',
    HealthController_checkDatabaseHealth Sample.host (throw (Error "UNAVAILABLE"))
      Sample.empty_world = (Returned hs, w') /\
    hs_status hs = HealthLevel.unhealthy /\
    latencyMs (database hs) = None.
Proof.
  destruct (checkHealth_never_throws Sample.host (throw (Error "UNAVAILABLE"))
              Sample.empty_world)
    as (hs & w' & Hrun & _ & _ & Hfail & _).
  destruct (Hfail (Error "UNAVAILABLE") (after_clock_reads 1 Sample.empty_world) eq_refl)
    as (_ & Hs & _ & Hl).
  by exists hs, w'.
Defined.

(* ================================================================== *)
(** * Further properties of the dispatch coordinator *)

(** X30. The outcomes of a dispatch whose call to the push service is
    answered.  When the idempotency gate lets the dispatch through: if the
    recipient user is absent, has no delivery token, or has a token of the
    wrong format, [sendPushNotification] returns normally, nothing is handed
    to the push service, and the record it created is marked failed with a
    non-empty reason naming the condition.  If the push service answers
    the call with an error ticket, the record is marked failed with the
    ticket's message and an exception with that message is thrown (an empty
    message is replaced by a fixed text in both places).  If it answers
    with a success ticket, the method returns and the record is marked
    sent, with the sent-at instant and the ticket's id (an empty id is
    replaced by a fixed text).  A call that the push service rejects
    outright, with no ticket, is not among these cases. *)
Theorem dispatch_outcomes (host : Host) (p : ISendPushNotificationParams) (w : World) :
  gate_open p w ->
  let ref := autoId host (ids_drawn w) in
  let created := clock host (clock_reads w) in
  let run := sendPushNotification host p w in
  let w' := snd run in
  (* recipient absent, without token, or with a malformed token *)
  (deliverable_token host w (p_recipientUid p) = None ->
     fst run = Returned tt /\
     push_calls w' = push_calls w /\
     exists r reason,
       notifications w' !! ref = Some r /\
       n_status r = NotificationStatus.FAILED /\
       n_error r = Some reason /\ reason <> "" /\
       reason =
         match user_doc (users w) (p_recipientUid p) with
         | None => "User not found"
         | Some user =>
             if truthy_opt (fcmToken user)
             then "Invalid Expo Push Token format"
             else "User has no FCM token - needs to login to enable notifications"
         end) /\
  (forall token reply,
     deliverable_token host w (p_recipientUid p) = Some token ->
     expo host (push_calls w) [push_message p ref token] = Tickets reply ->
     (* the provider reports an error *)
     (forall m rest, reply = TicketError m :: rest ->
        let msg := or_else m "Unknown Expo error" in
        fst run = Thrown (Error msg) /\
        (m <> "" -> msg = m) /\
        exists r,
          notifications w' !! ref = Some r /\
          n_status r = NotificationStatus.FAILED /\
          n_error r = Some msg) /\
     (* the provider accepts the message *)
     (forall i rest, reply = TicketOk i :: rest ->
        let mid := or_else i "unknown" in
        fst run = Returned tt /\
        (i <> "" -> mid = i) /\
        exists r,
          notifications w' !! ref = Some r /\
          n_status r = NotificationStatus.SENT /\
          n_sentAt r = Some (clock host (S (clock_reads w))) /\
          fcmMessageId r = Some mid /\
          n_error r = None)).
Proof.
  intros Hg ref created run w'. subst run w'.
  destruct (sendPushNotification host p w) as [o w'] eqn:Hrun. cbn [fst snd].
  split.
  - intros Hnone. unfold deliverable_token in Hnone.
    dispatch_start Hg Hrun.
    destruct (user_doc (users w) (p_recipientUid p)) as [user|] eqn:Hu; cbn in Hrun.
    + destruct (truthy_opt (fcmToken user)) eqn:Htok; cbn in Hrun, Hnone.
      * destruct (isExpoPushToken host (default "" (fcmToken user))) eqn:Hfmt;
          cbn in Hrun.
        { destruct (fcmToken user); discriminate. }
        update_record Hrun. dispatch_done Hrun. repeat split.
        do 2 eexists. split; [apply lookup_insert_eq |]. by repeat split.
      * update_record Hrun. dispatch_done Hrun. repeat split.
        do 2 eexists. split; [apply lookup_insert_eq |]. by repeat split.
    + update_record Hrun. dispatch_done Hrun. repeat split.
      do 2 eexists. split; [apply lookup_insert_eq |]. by repeat split.
  - intros token reply Htok Hreply. unfold deliverable_token in Htok.
    assert (Hrun_common :
      exists user, user_doc (users w) (p_recipientUid p) = Some user /\
        truthy_opt (fcmToken user) = true /\
        isExpoPushToken host (default "" (fcmToken user)) = true /\
        default "" (fcmToken user) = token).
    { destruct (user_doc (users w) (p_recipientUid p)) as [user|]; [| discriminate].
      exists user. split; [reflexivity |].
      destruct (truthy_opt (fcmToken user)); [| discriminate].
      destruct (isExpoPushToken host _); [| discriminate].
      cbn in Htok. rewrite Htok. by repeat split. }
    destruct Hrun_common as (user & Hu & Ht & Hf & Hdef).
    dispatch_start Hg Hrun. rewrite Hu in Hrun. cbn in Hrun.
    rewrite Ht, Hf, Hdef in Hrun. cbn in Hrun.
    unfold sendExpoNotification in Hrun.
    cbn [chunkPushNotifications send_chunks] in Hrun.
    unfold bind, sendPushNotificationsAsync, ret in Hrun.
    cbn in Hrun. fold ref in Hrun.
    change (expo host (push_calls w) _) with
      (expo host (push_calls w) [push_message p ref token]) in Hrun.
    rewrite Hreply in Hrun.
    split.
    + intros m rest ->. cbn in Hrun. update_record Hrun.
      assert (Htruthy : truthy (or_else m "Unknown Expo error") = true).
      { unfold or_else. destruct (truthy m) eqn:Hm; [exact Hm | reflexivity]. }
      rewrite Htruthy in Hrun. cbn in Hrun. unfold throw in Hrun.
      rewrite ?lookup_insert_eq in Hrun. cbn in Hrun.
      dispatch_done Hrun.
      split; [reflexivity |]. split.
      { intros Hm. unfold or_else, truthy.
        destruct (String.eqb_spec m ""); [done | reflexivity]. }
      eexists. split; [apply lookup_insert_eq |]. by split.
    + intros i rest ->. cbn in Hrun. update_record Hrun. dispatch_done Hrun.
      split; [reflexivity |]. split.
      { intros Hm. unfold or_else, truthy.
        destruct (String.eqb_spec i ""); [done | reflexivity]. }
      eexists. split; [apply lookup_insert_eq |]. by repeat split.
Qed.


Lemma dispatch_outcomes_witness :
  (let run := sendPushNotification Sample.host (Sample.a_trigger "carol")
                Sample.empty_world in
   fst run = Returned tt /\
   push_calls (snd run) = 0%nat /\
   exists r,
     notifications (snd run) !! "doc-0" = Some r /\
     n_status r = NotificationStatus.FAILED /\
     n_error r = Some "User has no FCM token - needs to login to enable notifications") /\
  (let run := sendPushNotification Sample.rejecting_host (Sample.a_trigger "bob")
                Sample.empty_world in
   fst run = Thrown (Error "DeviceNotRegistered") /\
   exists r,
     notifications (snd run) !! "doc-0" = Some r /\
     n_status r = NotificationStatus.FAILED /\
     n_error r = Some "DeviceNotRegistered") /\
  (let run := sendPushNotification Sample.host (Sample.a_trigger "bob")
                Sample.empty_world in
   fst run = Returned tt /\
   exists r,
     notifications (snd run) !! "doc-0" = Some r /\
     n_status r = NotificationStatus.SENT /\
     n_sentAt r = Some (clock Sample.host 1) /\
     fcmMessageId r = Some "ticket-1").
Proof.
  assert (Hgate : forall recipient,
            gate_open (Sample.a_trigger recipient) Sample.empty_world).
  { intros recipient _. apply map_filter_empty. }
  split; [| split]; cbv zeta.
  - destruct (proj1 (dispatch_outcomes Sample.host (Sample.a_trigger "carol")
                       Sample.empty_world (Hgate "carol")))
      as (Hret & Hpush & r & reason & Hr & Hst & Herr & _ & Hreason).
    + vm_compute. reflexivity.
    + split; [exact Hret |]. split; [exact Hpush |].
      exists r. split; [exact Hr |]. split; [exact Hst |].
      rewrite Herr, Hreason. vm_compute. reflexivity.
  - destruct (proj2 (dispatch_outcomes Sample.rejecting_host (Sample.a_trigger "bob")
                       Sample.empty_world (Hgate "bob"))
                Sample.token [TicketError "DeviceNotRegistered"])
      as (Herror & _).
    + vm_compute. reflexivity.
    + reflexivity.
    + destruct (Herror "DeviceNotRegistered" [] eq_refl) as (Hthrow & _ & r & Hr & Hst & Herr).
      split; [exact Hthrow |]. exists r. by repeat split.
  - destruct (proj2 (dispatch_outcomes Sample.host (Sample.a_trigger "bob")
                       Sample.empty_world (Hgate "bob"))
                Sample.token [TicketOk "ticket-1"])
      as (_ & Hok).
    + vm_compute. reflexivity.
    + reflexivity.
    + destruct (Hok "ticket-1" [] eq_refl) as (Hret & _ & r & Hr & Hst & Hat & Hid & _).
      split; [exact Hret |]. exists r. by repeat split.
Defined.
